(** * AI-Hotel-Booking: the booking engine and the workflow gate

    A shallow embedding of [mcp_server.py] (inventory, ledger, search,
    availability, booking, cancellation, statistics) and of the routing
    functions of [langgraph_agents.py], followed by the properties of the
    specification that concern them; then the read-only tools, the wrappers
    of [langgraph_agents.py] around the tools and its date fallback, with
    the properties the code itself shows.

    Conventions of the embedding:
    - a Python [str] is a [string]: a sequence of code points below 256;
    - a Python [float] is a binary64 [float] (primitive floats);
    - the module-level lists [HOTELS], [ROOMS] and [BOOKINGS] are the three
      fields of a [store] that every tool receives and returns;
    - a tool's JSON answer is the value handed to [json.dumps];
    - a raised [ValueError] is [None]. *)

From Stdlib Require Import ZArith List String Ascii Bool Lia.
From Stdlib Require Import Floats.PrimFloat Numbers.Cyclic.Int63.Uint63.
From Stdlib Require Floats.SpecFloat Floats.FloatOps Floats.FloatAxioms.
From Stdlib Require Import Sorting.Sorted Sorting.Permutation.
From stdpp Require Import gmap strings.
Import ListNotations.

(* A decimal literal denotes the nearest binary64, as in Python. *)
Set Warnings "-inexact-float".

Local Open Scope string_scope.
Local Open Scope Z_scope.

(** ** Python strings *)

Module PyStr.

(** [bool(s)] for a string: non-empty. *)
Definition truthy (s : string) : bool :=
  match s with EmptyString => false | String _ _ => true end.

(** [x <= y], [x >= y] on [str]: lexicographic on code points. *)
Definition le (x y : string) : bool :=
  match String.compare x y with Gt => false | _ => true end.

Definition ge (x y : string) : bool :=
  match String.compare x y with Lt => false | _ => true end.

(** [str.lower] on code points below 256: A-Z, and the Latin-1 capitals
    U+00C0..U+00DE except the multiplication sign U+00D7, move up by 32. *)
Definition lower_char (c : ascii) : ascii :=
  let n := N_of_ascii c in
  if (((65 <=? n) && (n <=? 90))
      || ((192 <=? n) && (n <=? 222) && negb (n =? 215)))%N
  then ascii_of_N (n + 32) else c.

Fixpoint lower (s : string) : string :=
  match s with
  | EmptyString => EmptyString
  | String c r => String (lower_char c) (lower r)
  end.

(** [str.isspace] on one code point below 256. *)
Definition isspace (c : ascii) : bool :=
  let n := N_of_ascii c in
  (((9 <=? n) && (n <=? 13)) || ((28 <=? n) && (n <=? 32))
   || (n =? 133) || (n =? 160))%N.

Fixpoint lstrip (s : string) : string :=
  match s with
  | EmptyString => EmptyString
  | String c r => if isspace c then lstrip r else s
  end.

Fixpoint rstrip (s : string) : string :=
  match s with
  | EmptyString => EmptyString
  | String c r =>
      match rstrip r with
      | EmptyString => if isspace c then EmptyString else String c EmptyString
      | r' => String c r'
      end
  end.

(** [s.strip()] *)
Definition strip (s : string) : string := rstrip (lstrip s).

(** [s.split(sep)] for a one-character separator: never the empty list. *)
Fixpoint split (sep : ascii) (s : string) : list string :=
  match s with
  | EmptyString => [EmptyString]
  | String c r =>
      if Ascii.eqb c sep then EmptyString :: split sep r
      else match split sep r with
           | h :: t => String c h :: t
           | [] => [String c EmptyString]
           end
  end.

(** [sub in s] *)
Fixpoint contains (sub s : string) {struct s} : bool :=
  String.prefix sub s
  || match s with
     | EmptyString => false
     | String _ r => contains sub r
     end.

End PyStr.

(** ** [datetime.strptime(s, "%Y-%m-%d")] and [toordinal] *)

Module Datetime.

Record date := mkdate { year : Z; month : Z; day : Z }.

(** A character class of the regular expression. *)
Definition cls := ascii -> bool.

Definition code (c : ascii) : Z := Z.of_N (N_of_ascii c).

Definition between (lo hi : ascii) : cls :=
  fun c => (code lo <=? code c) && (code c <=? code hi).

Definition digit : cls := between "0" "9".
Definition lit (a : ascii) : cls := fun c => Ascii.eqb c a.

(** One alternative: a sequence of classes matched against a prefix of the
    input; the matched text and the rest. *)
Fixpoint match_seq (alt : list cls) (s : string) : option (string * string) :=
  match alt with
  | [] => Some (EmptyString, s)
  | p :: ps =>
      match s with
      | EmptyString => None
      | String c r =>
          if p c then
            match match_seq ps r with
            | Some (txt, rest) => Some (String c txt, rest)
            | None => None
            end
          else None
      end
  end.

Fixpoint first_some {A B : Type} (f : A -> option B) (l : list A) : option B :=
  match l with
  | [] => None
  | a :: l' => match f a with Some b => Some b | None => first_some f l' end
  end.

(** A pattern is a concatenation of groups, a group an ordered list of
    alternatives.  [re_match] is [re.match]: alternatives are tried left to
    right, the next one only when the rest of the pattern fails, and the
    first complete match wins.  The captured texts and the unmatched rest. *)
Fixpoint re_match (groups : list (list (list cls))) (s : string)
  : option (list string * string) :=
  match groups with
  | [] => Some ([], s)
  | g :: gs =>
      first_some
        (fun alt =>
           match match_seq alt s with
           | Some (txt, rest) =>
               match re_match gs rest with
               | Some (caps, final) => Some (txt :: caps, final)
               | None => None
               end
           | None => None
           end) g
  end.

(** [%Y] is [\d\d\d\d], [%m] is [1[0-2]|0[1-9]|[1-9]], [%d] is
    [3[0-1]|[1-2]\d|0[1-9]|[1-9]| [1-9]]. *)
Definition re_Y : list (list cls) := [[digit; digit; digit; digit]].
Definition re_m : list (list cls) :=
  [[lit "1"; between "0" "2"]; [lit "0"; between "1" "9"]; [between "1" "9"]].
Definition re_d : list (list cls) :=
  [[lit "3"; between "0" "1"]; [between "1" "2"; digit];
   [lit "0"; between "1" "9"]; [between "1" "9"];
   [lit " "; between "1" "9"]].
Definition re_dash : list (list cls) := [[lit "-"]].

Definition format_regex : list (list (list cls)) :=
  [re_Y; re_dash; re_m; re_dash; re_d].

(** [int(txt)] on a captured group: surrounding blanks dropped, then the
    decimal digits. *)
Fixpoint int_digits (acc : Z) (s : string) : Z :=
  match s with
  | EmptyString => acc
  | String c r => int_digits (10 * acc + (code c - code "0")) r
  end.

Definition int (s : string) : Z := int_digits 0 (PyStr.strip s).

Definition _is_leap (y : Z) : bool :=
  (y mod 4 =? 0) && (negb (y mod 100 =? 0) || (y mod 400 =? 0)).

Definition _days_in_month (y m : Z) : Z :=
  if (m =? 2) && _is_leap y then 29
  else nth (Z.to_nat m) [-1; 31; 28; 31; 30; 31; 30; 31; 31; 30; 31; 30; 31] 0.

Definition _days_before_year (y : Z) : Z :=
  let y := y - 1 in y * 365 + y / 4 - y / 100 + y / 400.

Definition _days_before_month (y m : Z) : Z :=
  nth (Z.to_nat m) [-1; 0; 31; 59; 90; 120; 151; 181; 212; 243; 273; 304; 334] 0
  + (if (2 <? m) && _is_leap y then 1 else 0).

Definition _ymd2ord (y m d : Z) : Z :=
  _days_before_year y + _days_before_month y m + d.

Definition toordinal (d : date) : Z := _ymd2ord (year d) (month d) (day d).

(** The constructor's range check ([MINYEAR = 1], [MAXYEAR = 9999]). *)
Definition _check_date_fields (y m d : Z) : bool :=
  (1 <=? y) && (y <=? 9999) && (1 <=? m) && (m <=? 12)
  && (1 <=? d) && (d <=? _days_in_month y m).

(** [datetime.strptime(s, "%Y-%m-%d")]; [None] is [ValueError]: no match,
    unconverted data after the match, or a day the calendar does not have. *)
Definition strptime (s : string) : option date :=
  match re_match format_regex s with
  | Some ([Y; _; m; _; d], EmptyString) =>
      let y := int Y in
      let mo := int m in
      let dd := int d in
      if _check_date_fields y mo dd then Some (mkdate y mo dd) else None
  | _ => None
  end.

(** [(b - a).days] for two dates at midnight. *)
Definition days_between (a b : date) : Z := toordinal b - toordinal a.

End Datetime.

(** ** The data model of [mcp_server.py] *)

Module Hotel.
Record t := mk {
  id : string;
  name : string;
  location : string;
  rating : float;
  amenities : list string;
  price_per_night : float;
  available_rooms : Z;
  description : string
}.
End Hotel.

Module Room.
Record t := mk {
  id : string;
  hotel_id : string;
  room_type : string;
  capacity : Z;
  price_per_night : float;
  amenities : list string;
  available : bool
}.

(** [room.available = True] *)
Definition set_available (v : bool) (r : t) : t :=
  mk (id r) (hotel_id r) (room_type r) (capacity r) (price_per_night r)
     (amenities r) v.
End Room.

Module Booking.
Record t := mk {
  id : string;
  hotel_id : string;
  room_id : string;
  guest_name : string;
  guest_email : string;
  check_in : string;
  check_out : string;
  total_price : float;
  status : string
}.

(** [booking.status = "cancelled"] *)
Definition set_status (v : string) (b : t) : t :=
  mk (id b) (hotel_id b) (room_id b) (guest_name b) (guest_email b)
     (check_in b) (check_out b) (total_price b) v.
End Booking.

(** The three module-level lists. *)
Record store := mkstore {
  HOTELS : list Hotel.t;
  ROOMS : list Room.t;
  BOOKINGS : list Booking.t
}.

(** [int * float]: the integer is converted to the nearest binary64 (exact
    below 2^53), then the product is rounded once. *)
Definition float_of_int (n : Z) : float :=
  if n <? 0 then PrimFloat.opp (PrimFloat.of_uint63 (Uint63.of_Z (- n)))
  else PrimFloat.of_uint63 (Uint63.of_Z n).

(** An attribute assignment on the first object a [next(...)] scan finds. *)
Fixpoint update_first {A : Type} (p : A -> bool) (f : A -> A) (l : list A) : list A :=
  match l with
  | [] => []
  | x :: l' => if p x then f x :: l' else x :: update_first p f l'
  end.

(** [next((h for h in HOTELS if h.id == hotel_id), None)] *)
Definition find_hotel (st : store) (hotel_id : string) : option Hotel.t :=
  List.find (fun h => String.eqb (Hotel.id h) hotel_id) (HOTELS st).

(** [next((r for r in ROOMS if r.id == room_id and r.hotel_id == hotel_id), None)] *)
Definition find_room (st : store) (room_id hotel_id : string) : option Room.t :=
  List.find
    (fun r => String.eqb (Room.id r) room_id && String.eqb (Room.hotel_id r) hotel_id)
    (ROOMS st).

(** [next((b for b in BOOKINGS if b.id == booking_id), None)] *)
Definition find_booking (st : store) (booking_id : string) : option Booking.t :=
  List.find (fun b => String.eqb (Booking.id b) booking_id) (BOOKINGS st).

(** ** [search_hotels] *)

(** [[a.strip().lower() for a in amenities.split(",") if a.strip()]] *)
Definition parse_amenities (amenities : string) : list string :=
  List.map (fun a => PyStr.lower (PyStr.strip a))
    (List.filter (fun a => PyStr.truthy (PyStr.strip a))
       (PyStr.split "," amenities)).

(** The location test of the loop body; [true] when the hotel is not skipped. *)
Definition location_ok (location : string) (hotel : Hotel.t) : bool :=
  if PyStr.truthy location && PyStr.truthy (PyStr.strip location) then
    let location_lower := PyStr.strip (PyStr.lower location) in
    let hotel_location_lower := PyStr.lower (Hotel.location hotel) in
    PyStr.contains location_lower hotel_location_lower
    || existsb
         (fun loc_part => PyStr.contains (PyStr.strip loc_part) hotel_location_lower)
         (List.filter (fun loc_part => PyStr.truthy (PyStr.strip loc_part))
            (PyStr.split "," location_lower))
    || PyStr.contains
         (PyStr.strip (hd EmptyString (PyStr.split "," hotel_location_lower)))
         location_lower
  else true.

(** The [for desired_amenity ... break] loop: the flag [amenity_match]. *)
Definition amenity_match (amenity_list : list string) (hotel : Hotel.t) : bool :=
  let hotel_amenities_lower := List.map PyStr.lower (Hotel.amenities hotel) in
  existsb
    (fun desired_amenity =>
       existsb (fun hotel_amenity => PyStr.contains desired_amenity hotel_amenity)
         hotel_amenities_lower)
    amenity_list.

(** One turn of [for hotel in HOTELS]: [true] when the hotel is appended. *)
Definition hotel_kept (location : string) (min_rating max_price : float)
  (amenity_list : list string) (hotel : Hotel.t) : bool :=
  if negb (location_ok location hotel) then false
  else if PrimFloat.ltb (Hotel.rating hotel) min_rating then false
  else if PrimFloat.ltb max_price (Hotel.price_per_night hotel) then false
  else match amenity_list with
       | [] => true
       | _ :: _ => amenity_match amenity_list hotel
       end.

Record search_response := {
  hotels : list Hotel.t;
  count : nat
}.

Definition search_hotels (st : store) (location : string)
  (min_rating max_price : float) (amenities : string) : search_response :=
  let amenity_list := parse_amenities amenities in
  let results :=
    List.filter (hotel_kept location min_rating max_price amenity_list) (HOTELS st) in
  {| hotels := results; count := List.length results |}.

(** ** The overlap predicate, shared by [check_availability] and [book_hotel] *)

(** [b.status in ["confirmed", "pending"]] *)
Definition active (b : Booking.t) : bool :=
  existsb (String.eqb (Booking.status b)) ["confirmed"; "pending"].

(** [not (b <= c or a >= d)] for the requested range [a, b) and a booked
    range [c, d), on the date strings. *)
Definition ranges_overlap (a b c d : string) : bool :=
  negb (PyStr.le b c || PyStr.ge a d).

Definition overlaps (check_in check_out : string) (b : Booking.t) : bool :=
  ranges_overlap check_in check_out (Booking.check_in b) (Booking.check_out b).

(** The list comprehension [conflicting_bookings]. *)
Definition conflicting_bookings (bookings : list Booking.t)
  (room_id check_in check_out : string) : list Booking.t :=
  List.filter
    (fun b => String.eqb (Booking.room_id b) room_id && active b
              && overlaps check_in check_out b)
    bookings.

(** ** [check_availability] *)

Record availability := {
  av_hotel_id : string;
  av_check_in : string;
  av_check_out : string;
  av_guests : Z;
  available_rooms : list Room.t
}.

Inductive availability_response :=
| AvailabilityError (error : string)
| Availability (result : availability).

Definition check_availability (st : store) (hotel_id check_in check_out : string)
  (guests : Z) : availability_response :=
  match find_hotel st hotel_id with
  | None => AvailabilityError "Hotel not found"
  | Some _ =>
      let available_rooms :=
        List.filter
          (fun room =>
             String.eqb (Room.hotel_id room) hotel_id && Room.available room
             && (guests <=? Room.capacity room)
             && match conflicting_bookings (BOOKINGS st) (Room.id room) check_in check_out with
                | [] => true
                | _ :: _ => false
                end)
          (ROOMS st) in
      Availability {| av_hotel_id := hotel_id; av_check_in := check_in;
                      av_check_out := check_out; av_guests := guests;
                      available_rooms := available_rooms |}
  end.

(** ** [book_hotel] *)

Record confirmation := {
  booking_confirmation : Booking.t;
  conf_hotel : Hotel.t;
  conf_room : Room.t;
  nights : Z;
  conf_message : string
}.

(** The three shapes of the answer: [{"error": ...}], the conflict answer
    [{"error": ..., "conflicting_dates": [...]}], and the confirmation. *)
Inductive book_response :=
| BookError (error : string)
| BookConflict (error : string) (conflicting_dates : list string)
| BookConfirmed (result : confirmation).

(** The answer carries an ["error"] key. *)
Definition is_error (r : book_response) : bool :=
  match r with
  | BookError _ | BookConflict _ _ => true
  | BookConfirmed _ => false
  end.

(** [f"{b.check_in} to {b.check_out}"] *)
Definition conflict_range (b : Booking.t) : string :=
  String.append (Booking.check_in b) (String.append " to " (Booking.check_out b)).

(** [booking_id] is the value of [str(uuid.uuid4())], drawn by the caller's
    environment.  The answer and the store after the call. *)
Definition book_hotel (st : store) (booking_id : string)
  (hotel_id room_id guest_name guest_email check_in check_out : string)
  : book_response * store :=
  let hotel := find_hotel st hotel_id in
  let room := find_room st room_id hotel_id in
  match hotel with
  | None => (BookError "Hotel not found", st)
  | Some hotel =>
  match room with
  | None => (BookError "Room not found", st)
  | Some room =>
  if negb (Room.available room) then (BookError "Room is not available", st)
  else
  match Datetime.strptime check_in, Datetime.strptime check_out with
  | Some check_in_date, Some check_out_date =>
      let nights := Datetime.days_between check_in_date check_out_date in
      if nights <=? 0 then (BookError "Invalid date range", st)
      else
        let total_price := PrimFloat.mul (Room.price_per_night room) (float_of_int nights) in
        match conflicting_bookings (BOOKINGS st) room_id check_in check_out with
        | (_ :: _) as conflicts =>
            (BookConflict "Room is not available for these dates due to existing bookings"
               (List.map conflict_range conflicts), st)
        | [] =>
            let booking :=
              Booking.mk booking_id hotel_id room_id guest_name guest_email
                check_in check_out total_price "confirmed" in
            (BookConfirmed
               {| booking_confirmation := booking;
                  conf_hotel := hotel;
                  conf_room := room;
                  nights := nights;
                  conf_message :=
                    String.append "Booking confirmed! Your reservation ID is " booking_id |},
             mkstore (HOTELS st) (ROOMS st) (BOOKINGS st ++ [booking]))
        end
  | _, _ => (BookError "Invalid date format. Use YYYY-MM-DD", st)
  end
  end
  end.

(** ** [cancel_booking] *)

Record cancellation := {
  c_booking_id : string;
  previous_status : string;
  new_status : string;
  c_message : string;
  refund_amount : float
}.

Inductive cancel_response :=
| CancelError (error : string)
| Cancelled (result : cancellation).

Definition cancel_booking (st : store) (booking_id : string)
  : cancel_response * store :=
  let has_id := fun b => String.eqb (Booking.id b) booking_id in
  match find_booking st booking_id with
  | None => (CancelError "Booking not found", st)
  | Some booking =>
      if String.eqb (Booking.status booking) "cancelled"
      then (CancelError "Booking is already cancelled", st)
      else
        let old_status := Booking.status booking in
        let bookings' := update_first has_id (Booking.set_status "cancelled") (BOOKINGS st) in
        let rooms' :=
          update_first (fun r => String.eqb (Room.id r) (Booking.room_id booking))
            (Room.set_available true) (ROOMS st) in
        (Cancelled
           {| c_booking_id := booking_id;
              previous_status := old_status;
              new_status := "cancelled";
              c_message :=
                String.append "Booking "
                  (String.append booking_id " has been successfully cancelled");
              refund_amount := Booking.total_price booking |},
         mkstore (HOTELS st) rooms' bookings')
  end.

(** ** [get_booking_statistics] *)

(** [hotel_booking_counts]: a [dict] read in insertion order, hence a list of
    items with distinct keys.  [d.get(k, 0)] and [d[k] = v]: an existing key
    keeps its place, a new one goes last. *)
Fixpoint dict_get (k : string) (d : list (string * Z)) (default : Z) : Z :=
  match d with
  | [] => default
  | (k', v) :: d' => if String.eqb k' k then v else dict_get k d' default
  end.

Fixpoint dict_set (k : string) (v : Z) (d : list (string * Z)) : list (string * Z) :=
  match d with
  | [] => [(k, v)]
  | (k', v') :: d' =>
      if String.eqb k' k then (k', v) :: d' else (k', v') :: dict_set k v d'
  end.

Definition count_booking (d : list (string * Z)) (booking : Booking.t)
  : list (string * Z) :=
  if active booking
  then dict_set (Booking.hotel_id booking)
         (dict_get (Booking.hotel_id booking) d 0 + 1) d
  else d.

Definition hotel_booking_counts (bookings : list Booking.t) : list (string * Z) :=
  List.fold_left count_booking bookings [].

(** [sorted(items, key=lambda x: x[1], reverse=True)]: Python's sort is
    stable, also with [reverse=True]: items of equal count keep the order they
    had.  Insertion from the right is the stable sort. *)
Fixpoint insert_desc (x : string * Z) (l : list (string * Z)) : list (string * Z) :=
  match l with
  | [] => [x]
  | y :: l' => if snd x <? snd y then y :: insert_desc x l' else x :: l
  end.

Definition sorted_by_count_desc (items : list (string * Z)) : list (string * Z) :=
  List.fold_right insert_desc [] items.

(** The loop that builds [popular_hotels]: items whose hotel is unknown are
    dropped; the entry is [{"hotel_name": ..., "booking_count": ...}]. *)
Definition popular_hotels (hotels : list Hotel.t) (bookings : list Booking.t)
  : list (string * Z) :=
  List.flat_map
    (fun item : string * Z =>
       match List.find (fun h => String.eqb (Hotel.id h) (fst item)) hotels with
       | Some hotel => [(Hotel.name hotel, snd item)]
       | None => []
       end)
    (sorted_by_count_desc (hotel_booking_counts bookings)).

Record statistics := {
  total_bookings : nat;
  confirmed_bookings : nat;
  pending_bookings : nat;
  cancelled_bookings : nat;
  total_revenue : float;
  most_popular_hotels : list (string * Z)
}.

Section Statistics.

(** The builtin [sum] on a sequence of floats.  CPython adds left to right
    up to 3.11 and with a compensated sum from 3.12 on; the statistics do
    not depend on which. *)
Variable py_sum : list float -> float.

Definition has_status (s : string) (b : Booking.t) : bool :=
  String.eqb (Booking.status b) s.

Definition get_booking_statistics (st : store) : statistics :=
  {| total_bookings := List.length (BOOKINGS st);
     confirmed_bookings := List.length (List.filter (has_status "confirmed") (BOOKINGS st));
     pending_bookings := List.length (List.filter (has_status "pending") (BOOKINGS st));
     cancelled_bookings := List.length (List.filter (has_status "cancelled") (BOOKINGS st));
     total_revenue :=
       py_sum (List.map Booking.total_price
                 (List.filter (has_status "confirmed") (BOOKINGS st)));
     most_popular_hotels := firstn 5 (popular_hotels (HOTELS st) (BOOKINGS st)) |}.

End Statistics.

(** [sum] as CPython computes it up to 3.11. *)
Definition sum_left (l : list float) : float :=
  List.fold_left PrimFloat.add l 0%float.

(** ** The workflow graph of [langgraph_agents.py] *)

Module Workflow.

(** The values the state's dictionaries hold. *)
#[warnings="-register-all"] Inductive pyval :=
| PNone
| PBool (b : bool)
| PInt (n : Z)
| PFloat (x : float)
| PStr (s : string)
| PList (l : list pyval)
| PDict (d : gmap string pyval).

(** [bool(v)] *)
Definition truthy (v : pyval) : bool :=
  match v with
  | PNone => false
  | PBool b => b
  | PInt n => negb (n =? 0)
  | PFloat x => negb (PrimFloat.eqb x 0%float)
  | PStr s => PyStr.truthy s
  | PList l => match l with [] => false | _ :: _ => true end
  | PDict d => negb (bool_decide (d = ∅))
  end.

(** [d.get(k)]: [None] when the key is absent. *)
Definition get (k : string) (d : gmap string pyval) : pyval :=
  default PNone (d !! k).

(** [d.get(k, [])] *)
Definition get_or (k : string) (dflt : pyval) (d : gmap string pyval) : pyval :=
  default dflt (d !! k).

(** [HotelBookingState] *)
Record HotelBookingState := mkstate {
  user_query : string;
  extracted_dates : gmap string pyval;
  search_parameters : gmap string pyval;
  search_results : gmap string pyval;
  selected_hotel : gmap string pyval;
  guest_info : gmap string pyval;
  booking_result : gmap string pyval;
  current_step : string;
  error_message : string;
  workflow_complete : bool;
  debug_info : list string
}.

(** [{**state, key: value}], one function per key a node writes. *)
Definition with_extracted_dates v (s : HotelBookingState) :=
  mkstate (user_query s) v (search_parameters s) (search_results s)
    (selected_hotel s) (guest_info s) (booking_result s) (current_step s)
    (error_message s) (workflow_complete s) (debug_info s).
Definition with_search_parameters v (s : HotelBookingState) :=
  mkstate (user_query s) (extracted_dates s) v (search_results s)
    (selected_hotel s) (guest_info s) (booking_result s) (current_step s)
    (error_message s) (workflow_complete s) (debug_info s).
Definition with_search_results v (s : HotelBookingState) :=
  mkstate (user_query s) (extracted_dates s) (search_parameters s) v
    (selected_hotel s) (guest_info s) (booking_result s) (current_step s)
    (error_message s) (workflow_complete s) (debug_info s).
Definition with_selected_hotel v (s : HotelBookingState) :=
  mkstate (user_query s) (extracted_dates s) (search_parameters s)
    (search_results s) v (guest_info s) (booking_result s) (current_step s)
    (error_message s) (workflow_complete s) (debug_info s).
Definition with_booking_result v (s : HotelBookingState) :=
  mkstate (user_query s) (extracted_dates s) (search_parameters s)
    (search_results s) (selected_hotel s) (guest_info s) v (current_step s)
    (error_message s) (workflow_complete s) (debug_info s).
Definition with_current_step v (s : HotelBookingState) :=
  mkstate (user_query s) (extracted_dates s) (search_parameters s)
    (search_results s) (selected_hotel s) (guest_info s) (booking_result s) v
    (error_message s) (workflow_complete s) (debug_info s).
Definition with_error_message v (s : HotelBookingState) :=
  mkstate (user_query s) (extracted_dates s) (search_parameters s)
    (search_results s) (selected_hotel s) (guest_info s) (booking_result s)
    (current_step s) v (workflow_complete s) (debug_info s).
Definition with_workflow_complete v (s : HotelBookingState) :=
  mkstate (user_query s) (extracted_dates s) (search_parameters s)
    (search_results s) (selected_hotel s) (guest_info s) (booking_result s)
    (current_step s) (error_message s) v (debug_info s).
Definition with_debug_info v (s : HotelBookingState) :=
  mkstate (user_query s) (extracted_dates s) (search_parameters s)
    (search_results s) (selected_hotel s) (guest_info s) (booking_result s)
    (current_step s) (error_message s) (workflow_complete s) v.

(** *** Conditional edge functions *)

Definition should_search_hotels (state : HotelBookingState) : string :=
  if PyStr.truthy (error_message state) then "error"
  else
    let search_params := search_parameters state in
    if truthy (get "has_hotel_intent" search_params) then "search"
    else "end".

Definition should_check_availability (state : HotelBookingState) : string :=
  if PyStr.truthy (error_message state) then "error"
  else
    let hotels := get_or "hotels" (PList []) (search_results state) in
    if truthy hotels then "check_availability"
    else "end".

Definition should_proceed_to_booking (state : HotelBookingState) : string :=
  if PyStr.truthy (error_message state) then "error"
  else
    let selected_hotel := selected_hotel state in
    let guest_info := guest_info state in
    if truthy (PDict selected_hotel) && truthy (get "name" guest_info)
       && truthy (get "email" guest_info)
    then "book"
    else "end".

(** *** The graph *)

Inductive node :=
| date_extractor | query_analyzer | hotel_searcher
| availability_checker | booking_executor | error_handler.

(** Where the run stands: about to execute a node, or at [END]. *)
Inductive position := At (n : node) | END.

(** The path maps given to [add_conditional_edges]. *)
Definition path_map (l : list (string * position)) (label : string)
  : option position :=
  option_map snd (List.find (fun e => String.eqb (fst e) label) l).

(** The edges of [_create_workflow_graph]: the position after node [n] has
    returned [state]; [None] when a router's label is not in its map. *)
Definition next_position (n : node) (state : HotelBookingState)
  : option position :=
  match n with
  | date_extractor => Some (At query_analyzer)
  | query_analyzer =>
      path_map [("search", At hotel_searcher); ("error", At error_handler);
                ("end", END)]
        (should_search_hotels state)
  | hotel_searcher =>
      path_map [("check_availability", At availability_checker);
                ("error", At error_handler); ("end", END)]
        (should_check_availability state)
  | availability_checker =>
      path_map [("book", At booking_executor); ("end", END);
                ("error", At error_handler)]
        (should_proceed_to_booking state)
  | booking_executor => Some END
  | error_handler => Some END
  end.

(** *** The nodes

    What a node writes depends on collaborators outside the program (the
    language model, the tool transport), so a node is a relation: one
    constructor for each [return] of the node, the values the collaborators
    decide being free. *)
Inductive node_returns : node -> HotelBookingState -> HotelBookingState -> Prop :=
| date_extraction_complete s dates dbg :
    node_returns date_extractor s
      (with_debug_info dbg
         (with_current_step "date_extraction_complete"
            (with_extracted_dates dates s)))
| date_extraction_fallback s dates dbg :
    node_returns date_extractor s
      (with_debug_info dbg
         (with_current_step "date_extraction_fallback"
            (with_extracted_dates dates s)))
| query_analysis_complete s params dbg :
    node_returns query_analyzer s
      (with_debug_info dbg
         (with_current_step "query_analysis_complete"
            (with_search_parameters params s)))
| query_analysis_failed s e dbg :
    node_returns query_analyzer s
      (with_debug_info dbg
         (with_current_step "error"
            (with_error_message (String.append "Query analysis failed: " e) s)))
| hotel_search_complete s results dbg :
    node_returns hotel_searcher s
      (with_debug_info dbg
         (with_current_step "hotel_search_complete"
            (with_search_results results s)))
| hotel_search_failed s e dbg :
    node_returns hotel_searcher s
      (with_debug_info dbg
         (with_current_step "error"
            (with_error_message (String.append "Hotel search failed: " e) s)))
| availability_no_hotels s dbg :
    truthy (get_or "hotels" (PList []) (search_results s)) = false ->
    node_returns availability_checker s
      (with_debug_info dbg (with_current_step "availability_check_skipped" s))
| availability_check_complete s hotel rest availability_result dbg :
    get_or "hotels" (PList []) (search_results s) = PList (PDict hotel :: rest) ->
    node_returns availability_checker s
      (with_debug_info dbg
         (with_current_step "availability_check_complete"
            (with_selected_hotel
               (<["available" := PBool true]>
                  (<["availability_result" := availability_result]> hotel))
               s)))
| availability_tool_missing s hotel rest dbg :
    get_or "hotels" (PList []) (search_results s) = PList (PDict hotel :: rest) ->
    node_returns availability_checker s
      (with_debug_info dbg
         (with_current_step "availability_check_skipped"
            (with_selected_hotel hotel s)))
| availability_check_failed s e dbg :
    node_returns availability_checker s
      (with_debug_info dbg
         (with_current_step "error"
            (with_error_message (String.append "Availability check failed: " e) s)))
| booking_complete s result dbg :
    node_returns booking_executor s
      (with_debug_info dbg
         (with_current_step "booking_complete"
            (with_workflow_complete true (with_booking_result result s))))
| booking_failed s e dbg :
    node_returns booking_executor s
      (with_debug_info dbg
         (with_current_step "error"
            (with_error_message (String.append "Booking failed: " e) s)))
| error_handled s dbg :
    node_returns error_handler s
      (with_debug_info dbg
         (with_current_step "error_handled" (with_workflow_complete true s))).

(** One super-step of the compiled graph: the node at the current position
    runs, then its outgoing edge is followed on the state it returned. *)
Inductive step : position * HotelBookingState -> position * HotelBookingState -> Prop :=
| step_node n s s' p :
    node_returns n s s' ->
    next_position n s' = Some p ->
    step (At n, s) (p, s').

(** A run from the entry point. *)
Inductive reaches : position * HotelBookingState -> position * HotelBookingState -> Prop :=
| reaches_refl c : reaches c c
| reaches_step c1 c2 c3 : reaches c1 c2 -> step c2 c3 -> reaches c1 c3.

Definition entry_point : node := date_extractor.

(** The initial state of [run_search_workflow]. *)
Definition search_initial_state (user_query : string) : HotelBookingState :=
  {| user_query := user_query;
     extracted_dates := ∅;
     search_parameters := ∅;
     search_results := ∅;
     selected_hotel := ∅;
     guest_info := ∅;
     booking_result := ∅;
     current_step := "starting";
     error_message := EmptyString;
     workflow_complete := false;
     debug_info := [] |}.

(** The initial state of [run_booking_workflow]. *)
Definition booking_initial_state (user_query : string)
  (selected_hotel guest_info : gmap string pyval) : HotelBookingState :=
  {| user_query := user_query;
     extracted_dates := ∅;
     search_parameters := {["has_hotel_intent" := PBool false]};
     search_results := {["hotels" := PList [PDict selected_hotel]]};
     selected_hotel := selected_hotel;
     guest_info := guest_info;
     booking_result := ∅;
     current_step := "starting";
     error_message := EmptyString;
     workflow_complete := false;
     debug_info := [] |}.

End Workflow.

(** ** The data the module starts with *)

Definition initial_HOTELS : list Hotel.t :=
  [
    Hotel.mk "hotel_1" "Grand Plaza Hotel" "New York, NY" 4.5%float
      ["WiFi"; "Pool"; "Gym"; "Restaurant"; "Spa"] 250%float 15
      "Luxurious hotel in the heart of Manhattan with stunning city views";
    Hotel.mk "hotel_2" "Seaside Resort" "Miami, FL" 4.2%float
      ["WiFi"; "Beach Access"; "Pool"; "Restaurant"; "Bar"] 180%float 8
      "Beautiful beachfront resort with direct ocean access";
    Hotel.mk "hotel_3" "Mountain View Lodge" "Denver, CO" 4%float
      ["WiFi"; "Fireplace"; "Hiking Trails"; "Restaurant"] 120%float 12
      "Cozy mountain lodge perfect for nature lovers";
    Hotel.mk "hotel_4" "Business Center Hotel" "Chicago, IL" 4.3%float
      ["WiFi"; "Business Center"; "Gym"; "Conference Rooms"] 200%float 20
      "Modern business hotel ideal for corporate travelers";
    Hotel.mk "hotel_5" "Historic Inn" "Boston, MA" 4.1%float
      ["WiFi"; "Historic Charm"; "Restaurant"; "Library"] 160%float 6
      "Charming historic inn with old-world elegance";
    Hotel.mk "hotel_6" "Ocean View Resort" "San Francisco, CA" 4.4%float
      ["WiFi"; "Beach Access"; "Pool"; "Restaurant"; "Spa"] 190%float 10
      "Beautiful oceanfront resort near Golden Gate Bridge with beach access";
    Hotel.mk "hotel_7" "Bay Side Hotel" "San Francisco, CA" 4.2%float
      ["WiFi"; "Bay Views"; "Restaurant"; "Gym"] 170%float 8
      "Modern hotel with stunning bay views, walking distance to beaches";
    Hotel.mk "hotel_8" "Coastal Inn" "San Francisco, CA" 4%float
      ["WiFi"; "Beach Nearby"; "Restaurant"; "Parking"] 150%float 12
      "Comfortable inn just 2 blocks from the beach, perfect for budget travelers";
    Hotel.mk "hotel_9" "Budget Beach Motel" "San Francisco, CA" 3.5%float
      ["WiFi"; "Beach Access"; "Parking"] 85%float 15
      "Simple, clean motel with direct beach access at unbeatable prices";
    Hotel.mk "hotel_10" "Surfer's Paradise Hostel" "San Francisco, CA"
      3.8%float ["WiFi"; "Beach Nearby"; "Shared Kitchen"; "Lounge"] 75%float
      20
      "Friendly hostel just steps from the beach, perfect for budget travelers";
    Hotel.mk "hotel_11" "Ocean Breeze Inn" "San Francisco, CA" 3.7%float
      ["WiFi"; "Beach View"; "Restaurant"] 95%float 10
      "Cozy inn with ocean views and easy beach access"
  ].

Definition initial_ROOMS : list Room.t :=
  [
    Room.mk "room_1_1" "hotel_1" "Standard" 2 250%float ["WiFi"; "TV"; "AC"]
      true;
    Room.mk "room_1_2" "hotel_1" "Deluxe" 3 350%float
      ["WiFi"; "TV"; "AC"; "Mini Bar"] true;
    Room.mk "room_1_3" "hotel_1" "Suite" 4 500%float
      ["WiFi"; "TV"; "AC"; "Mini Bar"; "Living Room"] true;
    Room.mk "room_2_1" "hotel_2" "Ocean View" 2 180%float
      ["WiFi"; "TV"; "Balcony"] true;
    Room.mk "room_2_2" "hotel_2" "Beach Suite" 4 280%float
      ["WiFi"; "TV"; "Balcony"; "Kitchenette"] true;
    Room.mk "room_3_1" "hotel_3" "Cabin" 2 120%float ["WiFi"; "Fireplace"]
      true;
    Room.mk "room_3_2" "hotel_3" "Family Cabin" 6 200%float
      ["WiFi"; "Fireplace"; "Kitchenette"] true;
    Room.mk "room_4_1" "hotel_4" "Business" 1 200%float
      ["WiFi"; "Desk"; "TV"] true;
    Room.mk "room_4_2" "hotel_4" "Executive" 2 280%float
      ["WiFi"; "Desk"; "TV"; "Meeting Area"] true;
    Room.mk "room_5_1" "hotel_5" "Classic" 2 160%float
      ["WiFi"; "Antique Furniture"] true;
    Room.mk "room_6_1" "hotel_6" "Ocean View" 2 190%float
      ["WiFi"; "TV"; "Ocean View"; "Balcony"] true;
    Room.mk "room_6_2" "hotel_6" "Beach Suite" 4 290%float
      ["WiFi"; "TV"; "Ocean View"; "Balcony"; "Kitchenette"] true;
    Room.mk "room_7_1" "hotel_7" "Bay View" 2 170%float
      ["WiFi"; "TV"; "Bay View"] true;
    Room.mk "room_7_2" "hotel_7" "Premium Bay" 3 220%float
      ["WiFi"; "TV"; "Bay View"; "Mini Bar"] true;
    Room.mk "room_8_1" "hotel_8" "Standard" 2 150%float ["WiFi"; "TV"] true;
    Room.mk "room_8_2" "hotel_8" "Beach Side" 4 180%float
      ["WiFi"; "TV"; "Beach View"] true;
    Room.mk "room_9_1" "hotel_9" "Economy" 2 85%float ["WiFi"; "TV"] true;
    Room.mk "room_9_2" "hotel_9" "Beachfront" 3 95%float
      ["WiFi"; "TV"; "Beach View"] true;
    Room.mk "room_10_1" "hotel_10" "Dorm Bed" 1 75%float
      ["WiFi"; "Shared Bathroom"] true;
    Room.mk "room_10_2" "hotel_10" "Private Room" 2 90%float
      ["WiFi"; "Private Bathroom"] true;
    Room.mk "room_11_1" "hotel_11" "Standard" 2 95%float
      ["WiFi"; "TV"; "Ocean View"] true;
    Room.mk "room_11_2" "hotel_11" "Deluxe Ocean" 3 110%float
      ["WiFi"; "TV"; "Ocean View"; "Balcony"] true
  ].

Definition initial_BOOKINGS : list Booking.t :=
  [
    Booking.mk "booking_001" "hotel_1" "room_1_1" "John Smith"
      "john.smith@email.com" "2024-12-20" "2024-12-23" 750%float "confirmed";
    Booking.mk "booking_002" "hotel_2" "room_2_1" "Sarah Johnson"
      "sarah.j@email.com" "2024-12-25" "2024-12-27" 360%float "confirmed";
    Booking.mk "booking_003" "hotel_6" "room_6_1" "Mike Davis"
      "mike.davis@email.com" "2025-01-15" "2025-01-18" 570%float "confirmed";
    Booking.mk "booking_004" "hotel_7" "room_7_1" "Emma Wilson"
      "emma.wilson@email.com" "2025-02-10" "2025-02-12" 340%float "pending";
    Booking.mk "booking_005" "hotel_9" "room_9_1" "David Brown"
      "david.brown@email.com" "2024-12-30" "2025-01-02" 255%float "confirmed"
  ].

Definition initial_store : store :=
  mkstore initial_HOTELS initial_ROOMS initial_BOOKINGS.

(** ** [get_hotel_details], [get_booking_details], [list_all_bookings] *)

Record hotel_details := {
  hd_hotel : Hotel.t;
  hd_available_rooms : list Room.t
}.

Inductive hotel_details_response :=
| HotelDetailsError (error : string)
| HotelDetails (result : hotel_details).

Definition get_hotel_details (st : store) (hotel_id : string)
  : hotel_details_response :=
  match find_hotel st hotel_id with
  | None => HotelDetailsError "Hotel not found"
  | Some hotel =>
      let available_rooms :=
        List.filter
          (fun room => String.eqb (Room.hotel_id room) hotel_id && Room.available room)
          (ROOMS st) in
      HotelDetails {| hd_hotel := hotel; hd_available_rooms := available_rooms |}
  end.

(** [hotel] and [room] are [None] when the lookup finds nothing. *)
Record booking_details := {
  bd_booking : Booking.t;
  bd_hotel : option Hotel.t;
  bd_room : option Room.t
}.

Inductive booking_details_response :=
| BookingDetailsError (error : string)
| BookingDetails (result : booking_details).

Definition get_booking_details (st : store) (booking_id : string)
  : booking_details_response :=
  match find_booking st booking_id with
  | None => BookingDetailsError "Booking not found"
  | Some booking =>
      let hotel := find_hotel st (Booking.hotel_id booking) in
      let room :=
        List.find (fun r => String.eqb (Room.id r) (Booking.room_id booking))
          (ROOMS st) in
      BookingDetails {| bd_booking := booking; bd_hotel := hotel; bd_room := room |}
  end.

Definition list_all_bookings (st : store) : list Booking.t := BOOKINGS st.

(** ** The wrappers of [langgraph_agents.py] around the tools *)

Module Agent.
Import Workflow.

(** What [ainvoke] hands back once the tool has answered: the JSON text of
    the answer (a [str], which [json.loads] turns back into the object), the
    object itself, or anything else (a list of content blocks, say, or text
    that is not the answer's JSON), on which the parsing or the first
    [.get] raises, with the message [e]. *)
Inductive answer_shape :=
| AsText
| AsObject
| AsOther (e : string).

(** What a wrapper meets on its way to a tool's answer: [get_workflow]
    raises; [workflow.mcp_client and workflow.tools] is falsy; no tool has
    the name; [ainvoke] raises, the server having run the tool or not; or
    the tool answers and [ainvoke] returns. *)
Inductive tool_call :=
| NoWorkflow (e : string)
| NoClient
| NoTool
| CallRaises (e : string) (tool_ran : bool)
| Answered (shape : answer_shape).

(** The objects [cancel_booking] hands to [json.dumps]. *)
Definition cancel_answer (r : cancel_response) : gmap string pyval :=
  match r with
  | CancelError e => {[ "error" := PStr e ]}
  | Cancelled c =>
      {[ "booking_id" := PStr (c_booking_id c);
         "previous_status" := PStr (previous_status c);
         "new_status" := PStr (new_status c);
         "message" := PStr (c_message c);
         "refund_amount" := PFloat (refund_amount c) ]}
  end.

(** [cancel_hotel_booking]: the dictionary returned, and the store after. *)
Definition cancel_hotel_booking (call : tool_call) (st : store) (booking_id : string)
  : gmap string pyval * store :=
  match call with
  | NoWorkflow e =>
      ({[ "success" := PBool false;
          "message" := PStr (String.append "Error cancelling booking: " e) ]}, st)
  | NoClient =>
      ({[ "success" := PBool false;
          "message" := PStr "MCP client not available" ]}, st)
  | NoTool =>
      ({[ "success" := PBool false;
          "message" := PStr "cancel_booking tool not found" ]}, st)
  | CallRaises e tool_ran =>
      ({[ "success" := PBool false;
          "message" := PStr (String.append "Error cancelling booking: " e) ]},
       if tool_ran then snd (cancel_booking st booking_id) else st)
  | Answered shape =>
      let (result, st') := cancel_booking st booking_id in
      match shape with
      | AsText | AsObject =>
          let cancel_data := cancel_answer result in
          ({[ "success" := get_or "success" (PBool false) cancel_data;
              "message" := get_or "message" (PStr "Booking cancelled") cancel_data;
              "refund_amount" := get_or "refund_amount" (PInt 0) cancel_data ]},
           st')
      | AsOther e =>
          ({[ "success" := PBool false;
              "message" := PStr (String.append "Error cancelling booking: " e) ]},
           st')
      end
  end.

(** The object [get_booking_statistics] hands to [json.dumps].  [sum] over
    no booking is the integer [0]. *)
Definition statistics_answer (py_sum : list float -> float) (st : store)
  : gmap string pyval :=
  let s := get_booking_statistics py_sum st in
  {[ "total_bookings" := PInt (Z.of_nat (total_bookings s));
     "confirmed_bookings" := PInt (Z.of_nat (confirmed_bookings s));
     "pending_bookings" := PInt (Z.of_nat (pending_bookings s));
     "cancelled_bookings" := PInt (Z.of_nat (cancelled_bookings s));
     "total_revenue" :=
       match List.filter (has_status "confirmed") (BOOKINGS st) with
       | [] => PInt 0
       | _ :: _ => PFloat (total_revenue s)
       end;
     "most_popular_hotels" :=
       PList
         (List.map
            (fun item =>
               PDict {[ "hotel_name" := PStr (fst item);
                        "booking_count" := PInt (snd item) ]})
            (most_popular_hotels s)) ]}.

(** [get_hotel_booking_statistics] *)
Definition get_hotel_booking_statistics (py_sum : list float -> float)
  (call : tool_call) (st : store) : gmap string pyval :=
  match call with
  | NoWorkflow e | CallRaises e _ | Answered (AsOther e) =>
      {[ "success" := PBool false;
         "statistics" := PDict ∅;
         "message" := PStr (String.append "Error retrieving statistics: " e) ]}
  | NoClient =>
      {[ "success" := PBool false;
         "statistics" := PDict ∅;
         "message" := PStr "MCP client not available" ]}
  | NoTool =>
      {[ "success" := PBool false;
         "statistics" := PDict ∅;
         "message" := PStr "get_booking_statistics tool not found" ]}
  | Answered AsText | Answered AsObject =>
      let stats_data := statistics_answer py_sum st in
      {[ "success" := PBool true;
         "statistics" := get_or "statistics" (PDict ∅) stats_data;
         "message" := PStr "Statistics retrieved successfully" ]}
  end.

End Agent.

(** * Vocabulary of the properties *)

(** ** The outcomes of [book_hotel]

    One constructor for each [return] of the function, with the conditions
    under which control reaches it. *)

Section BookOutcome.

Variables (st : store) (booking_id : string).
Variables (hotel_id room_id guest_name guest_email check_in check_out : string).

Inductive book_outcome : book_response * store -> Prop :=
| hotel_not_found :
    find_hotel st hotel_id = None ->
    book_outcome (BookError "Hotel not found", st)
| room_not_found hotel :
    find_hotel st hotel_id = Some hotel ->
    find_room st room_id hotel_id = None ->
    book_outcome (BookError "Room not found", st)
| room_not_available hotel room :
    find_hotel st hotel_id = Some hotel ->
    find_room st room_id hotel_id = Some room ->
    Room.available room = false ->
    book_outcome (BookError "Room is not available", st)
| invalid_date_format hotel room :
    find_hotel st hotel_id = Some hotel ->
    find_room st room_id hotel_id = Some room ->
    Room.available room = true ->
    Datetime.strptime check_in = None \/ Datetime.strptime check_out = None ->
    book_outcome (BookError "Invalid date format. Use YYYY-MM-DD", st)
| invalid_date_range hotel room check_in_date check_out_date :
    find_hotel st hotel_id = Some hotel ->
    find_room st room_id hotel_id = Some room ->
    Room.available room = true ->
    Datetime.strptime check_in = Some check_in_date ->
    Datetime.strptime check_out = Some check_out_date ->
    Datetime.days_between check_in_date check_out_date <= 0 ->
    book_outcome (BookError "Invalid date range", st)
| conflict hotel room check_in_date check_out_date :
    find_hotel st hotel_id = Some hotel ->
    find_room st room_id hotel_id = Some room ->
    Room.available room = true ->
    Datetime.strptime check_in = Some check_in_date ->
    Datetime.strptime check_out = Some check_out_date ->
    0 < Datetime.days_between check_in_date check_out_date ->
    conflicting_bookings (BOOKINGS st) room_id check_in check_out <> [] ->
    book_outcome
      (BookConflict "Room is not available for these dates due to existing bookings"
         (List.map conflict_range
            (conflicting_bookings (BOOKINGS st) room_id check_in check_out)),
       st)
| confirmed hotel room check_in_date check_out_date :
    find_hotel st hotel_id = Some hotel ->
    find_room st room_id hotel_id = Some room ->
    Room.available room = true ->
    Datetime.strptime check_in = Some check_in_date ->
    Datetime.strptime check_out = Some check_out_date ->
    0 < Datetime.days_between check_in_date check_out_date ->
    conflicting_bookings (BOOKINGS st) room_id check_in check_out = [] ->
    let nights := Datetime.days_between check_in_date check_out_date in
    let booking :=
      Booking.mk booking_id hotel_id room_id guest_name guest_email
        check_in check_out
        (PrimFloat.mul (Room.price_per_night room) (float_of_int nights))
        "confirmed" in
    book_outcome
      (BookConfirmed
         {| booking_confirmation := booking;
            conf_hotel := hotel;
            conf_room := room;
            nights := nights;
            conf_message :=
              String.append "Booking confirmed! Your reservation ID is " booking_id |},
       mkstore (HOTELS st) (ROOMS st) (BOOKINGS st ++ [booking])).

End BookOutcome.

(** The six error answers. *)
Definition error_answers (r : book_response) : Prop :=
  r = BookError "Hotel not found" \/ r = BookError "Room not found"
  \/ r = BookError "Room is not available"
  \/ r = BookError "Invalid date range"
  \/ r = BookError "Invalid date format. Use YYYY-MM-DD"
  \/ exists dates,
       r = BookConflict "Room is not available for these dates due to existing bookings"
             dates.

(** ** Ledgers of the specification's examples *)

(** Booking A of the specification: room X is [room_1_2] of [hotel_1], booked
    over [2025-07-25, 2025-07-27) through [book_hotel] on the initial data. *)
Definition store_with_booking_A : store :=
  snd (book_hotel initial_store "6f1c0f0e-5a0b-4d0e-9a56-0c2d6c1b7a01"
         "hotel_1" "room_1_2" "Ada Lovelace" "ada@example.com"
         "2025-07-25" "2025-07-27").

(** The same stay with its check-out written without the leading zero of the
    month, as [book_hotel] accepts it. *)
Definition store_with_unpadded_check_out : store :=
  snd (book_hotel initial_store "3d5a7c2e-91b4-4f6a-8e0d-5b2c7a9f1e44"
         "hotel_1" "room_1_2" "Ada Lovelace" "ada@example.com"
         "2025-07-25" "2025-7-27").

(** A one-room inventory at $100 a night and an empty ledger. *)
Definition hundred_dollar_store : store :=
  mkstore
    [Hotel.mk "hotel_h" "Hundred Inn" "Austin, TX" 4%float ["WiFi"] 100%float 1
       "One room"]
    [Room.mk "room_h_1" "hotel_h" "Standard" 2 100%float ["WiFi"] true]
    [].

(** The confirmation of three nights in that room, 2025-07-25 to 2025-07-28. *)
Definition hundred_dollar_confirmation : confirmation :=
  {| booking_confirmation :=
       Booking.mk "7c1d" "hotel_h" "room_h_1" "Ada Lovelace" "ada@example.com"
         "2025-07-25" "2025-07-28" 300%float "confirmed";
     conf_hotel :=
       Hotel.mk "hotel_h" "Hundred Inn" "Austin, TX" 4%float ["WiFi"] 100%float 1
         "One room";
     conf_room := Room.mk "room_h_1" "hotel_h" "Standard" 2 100%float ["WiFi"] true;
     nights := 3;
     conf_message := "Booking confirmed! Your reservation ID is 7c1d" |}.

(** The binary64 [f] is the positive integer [n], exactly: finite, positive,
    and its mantissa times two to its exponent is [n]. *)
Definition is_integer (f : float) (n : Z) : Prop :=
  exists m e,
    FloatOps.Prim2SF f = SpecFloat.S754_finite false m e
    /\ e <= 0 /\ Z.pos m = n * 2 ^ (- e).

(** The initial data after [cancel_booking("booking_001")], and the booking
    as it then stands in the ledger. *)
Definition store_cancelled_once : store :=
  snd (cancel_booking initial_store "booking_001").

Definition cancelled_booking_001 : Booking.t :=
  Booking.mk "booking_001" "hotel_1" "room_1_1" "John Smith" "john.smith@email.com"
    "2024-12-20" "2024-12-23" 750%float "cancelled".

(** ** Substrings *)

(** [sub] occurs in [s]. *)
Definition is_substring (sub s : string) : Prop :=
  exists pre post, s = String.append pre (String.append sub post).

(** The hotel of the search example, alone in the inventory. *)
Definition beach_pool_hotel : Hotel.t :=
  Hotel.mk "hotel_b" "Beach Pool Hotel" "Miami, FL" 4%float
    ["Beach Access"; "Pool"] 180%float 8 "Beach and pool".

Definition beach_pool_store : store := mkstore [beach_pool_hotel] [] [].

(** ** A search-only run that finds one hotel with rooms *)

Module SearchRun.
Import Workflow.

(** The hotel the search tool returned, as the JSON object the node sees. *)
Definition found_hotel : gmap string pyval :=
  {[ "id" := PStr "hotel_2"; "name" := PStr "Seaside Resort";
     "location" := PStr "Miami, FL"; "available_rooms" := PInt 8 ]}.

Definition dates : gmap string pyval :=
  {[ "check_in" := PStr "2025-07-25"; "check_out" := PStr "2025-07-27";
     "confidence" := PStr "high" ]}.

Definition s0 : HotelBookingState := search_initial_state "beach hotel in Miami".

Definition s1 : HotelBookingState :=
  with_debug_info ["dates extracted"]
    (with_current_step "date_extraction_complete" (with_extracted_dates dates s0)).

Definition s2 : HotelBookingState :=
  with_debug_info ["dates extracted"; "intent: hotel search"]
    (with_current_step "query_analysis_complete"
       (with_search_parameters {[ "has_hotel_intent" := PBool true ]} s1)).

Definition s3 : HotelBookingState :=
  with_debug_info ["dates extracted"; "intent: hotel search"; "1 hotel"]
    (with_current_step "hotel_search_complete"
       (with_search_results
          {[ "hotels" := PList [PDict found_hotel];
             "message" := PStr "Found 1 hotels" ]} s2)).

Definition s4 : HotelBookingState :=
  with_debug_info
    ["dates extracted"; "intent: hotel search"; "1 hotel"; "rooms available"]
    (with_current_step "availability_check_complete"
       (with_selected_hotel
          (<["available" := PBool true]>
             (<["availability_result" := PStr "available_rooms: room_2_1, room_2_2"]>
                found_hotel))
          s3)).
End SearchRun.

(** ** Rankings *)

(** Counts never increase along the list. *)
Definition by_count_desc (items : list (string * Z)) : Prop :=
  StronglySorted (fun a b => snd b <= snd a) items.

(** Among items of equal count, ids ascend. *)
Definition ties_by_id_ascending (items : list (string * Z)) : Prop :=
  forall i j a b,
    (i < j)%nat ->
    nth_error items i = Some a -> nth_error items j = Some b ->
    snd a = snd b -> PyStr.le (fst a) (fst b) = true.

(** The items of one count, in the order they have in the list. *)
Definition with_count (c : Z) (items : list (string * Z)) : list (string * Z) :=
  List.filter (fun x => snd x =? c) items.

(** The distinct elements of a list, in the order of their first occurrence. *)
Fixpoint first_occurrences (l : list string) : list string :=
  match l with
  | [] => []
  | x :: l' =>
      x :: List.filter (fun y => negb (String.eqb y x)) (first_occurrences l')
  end.

(** The hotel ids of the active bookings, in ledger order. *)
Definition active_hotel_ids (bookings : list Booking.t) : list string :=
  List.map Booking.hotel_id (List.filter active bookings).

(** The number of active bookings of a hotel. *)
Definition active_count (hotel_id : string) (bookings : list Booking.t) : Z :=
  Z.of_nat
    (List.length
       (List.filter (fun b => active b && String.eqb (Booking.hotel_id b) hotel_id)
          bookings)).

(** [k in d] *)
Definition has_key (k : string) (d : list (string * Z)) : bool :=
  existsb (String.eqb k) (List.map fst d).

(** The name under which an item is listed, if its hotel is known. *)
Definition listed_name (hotels : list Hotel.t) (item : string * Z)
  : list (string * Z) :=
  match List.find (fun h => String.eqb (Hotel.id h) (fst item)) hotels with
  | Some hotel => [(Hotel.name hotel, snd item)]
  | None => []
  end.

(** The initial data after one booking at [hotel_3], made through
    [book_hotel]. *)
Definition store_with_hotel_3_booking : store :=
  snd (book_hotel initial_store "c2a9d1f4-7b3e-4c58-8f60-2d9b5e7a1c33"
         "hotel_3" "room_3_1" "Grace Hopper" "grace@example.com"
         "2025-08-01" "2025-08-03").

(** ** The calendar *)

(** A date the [date] constructor accepts, the year's upper bound apart. *)
Definition valid_date (d : Datetime.date) : Prop :=
  1 <= Datetime.year d /\ 1 <= Datetime.month d <= 12
  /\ 1 <= Datetime.day d <= Datetime._days_in_month (Datetime.year d) (Datetime.month d).

(** The day after. *)
Definition next_day (d : Datetime.date) : Datetime.date :=
  let y := Datetime.year d in
  let m := Datetime.month d in
  if Datetime.day d <? Datetime._days_in_month y m
  then Datetime.mkdate y m (Datetime.day d + 1)
  else if m <? 12 then Datetime.mkdate y (m + 1) 1
  else Datetime.mkdate (y + 1) 1 1.

(** Calendar order: by year, then month, then day. *)
Definition date_lt (a b : Datetime.date) : Prop :=
  Datetime.year a < Datetime.year b
  \/ (Datetime.year a = Datetime.year b
      /\ (Datetime.month a < Datetime.month b
          \/ (Datetime.month a = Datetime.month b
              /\ Datetime.day a < Datetime.day b))).

(** [date.isoformat()], [strftime("%Y-%m-%d")]: zero-padded. *)
Definition digit_char (n : Z) : ascii := ascii_of_N (Z.to_N (48 + n)).

Definition pad2 (n : Z) (rest : string) : string :=
  String (digit_char (n / 10)) (String (digit_char (n mod 10)) rest).

Definition isoformat (d : Datetime.date) : string :=
  let y := Datetime.year d in
  pad2 (y / 100) (pad2 (y mod 100)
    (String "-" (pad2 (Datetime.month d)
       (String "-" (pad2 (Datetime.day d) EmptyString))))).

(** Comparison by a first key, then by a second. *)
Definition then_compare (c : comparison) (rest : comparison) : comparison :=
  match c with Eq => rest | _ => c end.

(** The calendar order as a comparison. *)
Definition date_compare (a b : Datetime.date) : comparison :=
  then_compare (Datetime.year a ?= Datetime.year b)
    (then_compare (Datetime.month a ?= Datetime.month b)
       (Datetime.day a ?= Datetime.day b)).

(** The tail of the pattern, after the year, matches the padded month and
    day and leaves nothing. *)
Definition month_day_matches (m d : Z) : bool :=
  match
    Datetime.re_match
      [Datetime.re_dash; Datetime.re_m; Datetime.re_dash; Datetime.re_d]
      (String "-" (pad2 m (String "-" (pad2 d EmptyString))))
  with
  | Some ([dash1; mm; dash2; dd], EmptyString) =>
      String.eqb dash1 "-" && String.eqb mm (pad2 m EmptyString)
      && String.eqb dash2 "-" && String.eqb dd (pad2 d EmptyString)
  | _ => false
  end.

(** Integers from [lo], [n] of them. *)
Definition zrange (lo : Z) (n : nat) : list Z :=
  List.map (fun i => lo + Z.of_nat i) (List.seq 0 n).

(** A date string the format check accepts and that is written zero-padded,
    as [isoformat] writes it. *)
Definition padded (s : string) (d : Datetime.date) : Prop :=
  Datetime.strptime s = Some d /\ s = isoformat d.

(** The stays [a, b) and [c, d) have a night in common. *)
Definition share_a_night (a b c d : Datetime.date) : Prop :=
  exists night,
    Datetime.toordinal a <= night < Datetime.toordinal b
    /\ Datetime.toordinal c <= night < Datetime.toordinal d.

(** A booking whose two dates are padded and whose stay has a night. *)
Definition padded_stay (b : Booking.t) : Prop :=
  exists b_in b_out,
    padded (Booking.check_in b) b_in /\ padded (Booking.check_out b) b_out
    /\ Datetime.toordinal b_in < Datetime.toordinal b_out.

(** A ledger of such bookings. *)
Definition ledger_padded (st : store) : Prop :=
  List.Forall padded_stay (BOOKINGS st).

(** ** Vocabulary of the further properties *)

(** No booking of the ledger has this id: what [uuid4] gives. *)
Definition fresh_id (st : store) (booking_id : string) : Prop :=
  forall b, In b (BOOKINGS st) -> Booking.id b <> booking_id.

(** Two bookings that may stand in one ledger: if they are active bookings of
    one room, their stays share no night. *)
Definition compatible (b1 b2 : Booking.t) : Prop :=
  Booking.room_id b1 = Booking.room_id b2 ->
  active b1 = true -> active b2 = true ->
  forall in1 out1 in2 out2,
    Datetime.strptime (Booking.check_in b1) = Some in1 ->
    Datetime.strptime (Booking.check_out b1) = Some out1 ->
    Datetime.strptime (Booking.check_in b2) = Some in2 ->
    Datetime.strptime (Booking.check_out b2) = Some out2 ->
    ~ share_a_night in1 out1 in2 out2.

(** No room is booked twice for a night. *)
Definition no_double_booking (st : store) : Prop :=
  ForallOrdPairs compatible (BOOKINGS st).

(** The stores one gets from the initial data by bookings with zero-padded
    dates and by cancellations. *)
Inductive reachable_padded : store -> Prop :=
| reach_initial : reachable_padded initial_store
| reach_book st booking_id hotel_id room_id guest_name guest_email
    check_in check_out d_in d_out :
    reachable_padded st ->
    padded check_in d_in -> padded check_out d_out ->
    reachable_padded
      (snd (book_hotel st booking_id hotel_id room_id guest_name guest_email
              check_in check_out))
| reach_cancel st booking_id :
    reachable_padded st ->
    reachable_padded (snd (cancel_booking st booking_id)).

(** The stores the server can be in: from the data it starts with, any
    [book_hotel] and [cancel_booking] calls, in any order. *)
Inductive reachable : store -> Prop :=
| reachable_initial : reachable initial_store
| reachable_book st booking_id hotel_id room_id guest_name guest_email
    check_in check_out :
    reachable st ->
    reachable
      (snd (book_hotel st booking_id hotel_id room_id guest_name guest_email
              check_in check_out))
| reachable_cancel st booking_id :
    reachable st ->
    reachable (snd (cancel_booking st booking_id)).

(** The three statuses the statistics count. *)
Definition known_status (b : Booking.t) : Prop :=
  Booking.status b = "confirmed" \/ Booking.status b = "pending"
  \/ Booking.status b = "cancelled".

(** [1 if c else 0] *)
Definition one_if (c : bool) : nat := if c then 1%nat else 0%nat.

(** ** Runs of the workflow *)

Module Run.
Import Workflow.

(** How far along the graph a position is. *)
Definition stage (p : position) : nat :=
  match p with
  | At date_extractor => 0
  | At query_analyzer => 1
  | At hotel_searcher => 2
  | At availability_checker => 3
  | At booking_executor => 4
  | At error_handler => 4
  | END => 5
  end.

(** A run of [k] super-steps. *)
Inductive reaches_in :
  nat -> position * HotelBookingState -> position * HotelBookingState -> Prop :=
| reaches_in_refl c : reaches_in 0 c c
| reaches_in_step k c1 c2 c3 :
    reaches_in k c1 c2 -> step c2 c3 -> reaches_in (S k) c1 c3.

(** No error recorded, not complete: how both workflows start. *)
Definition clean (s : HotelBookingState) : Prop :=
  error_message s = EmptyString /\ workflow_complete s = false.

(** The four ways a run can have ended. *)
Definition booked (s : HotelBookingState) : Prop :=
  current_step s = "booking_complete" /\ workflow_complete s = true
  /\ error_message s = EmptyString.

Definition error_was_handled (s : HotelBookingState) : Prop :=
  current_step s = "error_handled" /\ workflow_complete s = true
  /\ PyStr.truthy (error_message s) = true.

Definition booking_failure_unhandled (s : HotelBookingState) : Prop :=
  current_step s = "error" /\ workflow_complete s = false
  /\ exists e, error_message s = String.append "Booking failed: " e.

Definition stopped_early (s : HotelBookingState) : Prop :=
  clean s
  /\ In (current_step s)
       ["query_analysis_complete"; "hotel_search_complete";
        "availability_check_complete"; "availability_check_skipped"].

(** What holds of a configuration of a run that started clean. *)
Definition on_track (c : position * HotelBookingState) : Prop :=
  let s := snd c in
  match fst c with
  | At error_handler =>
      PyStr.truthy (error_message s) = true /\ workflow_complete s = false
  | At _ => clean s
  | END =>
      booked s \/ error_was_handled s \/ booking_failure_unhandled s
      \/ stopped_early s
  end.

(** The hotel [availability_checker] selects from a first search result:
    the result itself, or the result with the two keys the node adds. *)
Definition selected_from (hotel selected : gmap string pyval) : Prop :=
  selected = hotel
  \/ exists availability_result,
       selected = <["available" := PBool true]>
                    (<["availability_result" := availability_result]> hotel).

(** The fields of the initial state that no node overwrites before it reads
    them: two initial states that agree on these make the same request. *)
Definition same_request (s s' : HotelBookingState) : Prop :=
  user_query s = user_query s' /\ guest_info s = guest_info s'
  /\ booking_result s = booking_result s' /\ error_message s = error_message s'
  /\ workflow_complete s = workflow_complete s' /\ debug_info s = debug_info s'.

(** Two states of two runs of the same request, at the same position: they
    agree on every field, those apart that a later node of the path to
    [booking_executor] overwrites before any router or node reads them. *)
Definition in_step (p : position) (s s' : HotelBookingState) : Prop :=
  match p with
  | At date_extractor => same_request s s'
  | At query_analyzer =>
      with_search_parameters ∅ (with_search_results ∅ (with_selected_hotel ∅ s))
      = with_search_parameters ∅ (with_search_results ∅ (with_selected_hotel ∅ s'))
  | At hotel_searcher =>
      with_search_results ∅ (with_selected_hotel ∅ s)
      = with_search_results ∅ (with_selected_hotel ∅ s')
  | At availability_checker =>
      with_selected_hotel ∅ s = with_selected_hotel ∅ s'
      /\ truthy (get_or "hotels" (PList []) (search_results s)) = true
  | At booking_executor =>
      s = s'
      /\ exists hotel rest,
           get_or "hotels" (PList []) (search_results s) = PList (PDict hotel :: rest)
           /\ selected_from hotel (selected_hotel s)
  | At error_handler | END => True
  end.

End Run.

(** A booking run: the caller selected the Mountain Lodge, the search of the
    run returned the Seaside Resort first. *)
Module BookingRun.
Import Workflow.

Definition chosen_hotel : gmap string pyval :=
  {[ "id" := PStr "hotel_3"; "name" := PStr "Mountain Lodge" ]}.

Definition other_hotel : gmap string pyval :=
  {[ "id" := PStr "hotel_5"; "name" := PStr "Budget Inn" ]}.

Definition guest : gmap string pyval :=
  {[ "name" := PStr "Ann"; "email" := PStr "ann@example.com" ]}.

Definition query : string := "Book Mountain Lodge from 2025-07-25 to 2025-07-27".

Definition b0 : HotelBookingState := booking_initial_state query chosen_hotel guest.

Definition b1 (s : HotelBookingState) : HotelBookingState :=
  with_debug_info ["dates extracted"]
    (with_current_step "date_extraction_complete"
       (with_extracted_dates SearchRun.dates s)).

Definition b2 (s : HotelBookingState) : HotelBookingState :=
  with_debug_info ["dates extracted"; "intent: hotel search"]
    (with_current_step "query_analysis_complete"
       (with_search_parameters {[ "has_hotel_intent" := PBool true ]} s)).

Definition b3 (s : HotelBookingState) : HotelBookingState :=
  with_debug_info ["dates extracted"; "intent: hotel search"; "1 hotel"]
    (with_current_step "hotel_search_complete"
       (with_search_results
          {[ "hotels" := PList [PDict SearchRun.found_hotel];
             "message" := PStr "Found 1 hotels" ]} s)).

Definition b4 (s : HotelBookingState) : HotelBookingState :=
  with_debug_info
    ["dates extracted"; "intent: hotel search"; "1 hotel"; "rooms available"]
    (with_current_step "availability_check_complete"
       (with_selected_hotel
          (<["available" := PBool true]>
             (<["availability_result" := PStr "available_rooms: room_2_1, room_2_2"]>
                SearchRun.found_hotel))
          s)).

(** The state in which [booking_executor] starts. *)
Definition at_booking : HotelBookingState := b4 (b3 (b2 (b1 b0))).

(** The booking tool cannot be reached. *)
Definition failed : HotelBookingState :=
  with_debug_info ["booking failed"]
    (with_current_step "error"
       (with_error_message
          (String.append "Booking failed: " "Booking tool not available")
          at_booking)).

End BookingRun.

(** ** [_intelligent_date_fallback] of [langgraph_agents.py] *)

From Stdlib Require DecimalString.

Module Fallback.
Import Datetime.

(** [re.search] for a sequence of classes: the text matched at the leftmost
    position where the sequence matches. *)
Fixpoint search_seq (alt : list cls) (s : string) : option string :=
  match match_seq alt s with
  | Some (txt, _) => Some txt
  | None =>
      match s with
      | EmptyString => None
      | String _ r => search_seq alt r
      end
  end.

(** [20\d{2}] *)
Definition re_year : list cls := [lit "2"; lit "0"; digit; digit].

(** [s] without its prefix [p]; [None] when [s] does not start with [p]. *)
Fixpoint drop_prefix (p s : string) : option string :=
  match p, s with
  | EmptyString, _ => Some s
  | String a p', String b s' => if Ascii.eqb a b then drop_prefix p' s' else None
  | String _ _, EmptyString => None
  end.

(** [\s+(\d{1,2})] matched at the head of [s]: the group.  Both repetitions
    are greedy; the blanks are all taken, since giving one back leaves a
    blank where a digit is required. *)
Definition day_group (s : string) : option string :=
  match s with
  | String c _ =>
      if PyStr.isspace c then
        match PyStr.lstrip s with
        | String d1 rest =>
            if digit d1 then
              match rest with
              | String d2 _ =>
                  if digit d2 then Some (String d1 (String d2 EmptyString))
                  else Some (String d1 EmptyString)
              | EmptyString => Some (String d1 EmptyString)
              end
            else None
        | EmptyString => None
        end
      else None
  | EmptyString => None
  end.

(** [re.search(rf"{month_name}\s+(\d{{1,2}})", s)]: [group(1)] of the
    leftmost match. *)
Fixpoint search_day (month_name s : string) : option string :=
  match
    match drop_prefix month_name s with
    | Some rest => day_group rest
    | None => None
    end
  with
  | Some g => Some g
  | None =>
      match s with
      | EmptyString => None
      | String _ r => search_day month_name r
      end
  end.

(** The dictionary [month_patterns], in its order. *)
Definition month_patterns : list (string * Z) :=
  [("january", 1); ("jan", 1); ("february", 2); ("feb", 2); ("march", 3);
   ("mar", 3); ("april", 4); ("apr", 4); ("may", 5); ("june", 6); ("jun", 6);
   ("july", 7); ("jul", 7); ("august", 8); ("aug", 8); ("september", 9);
   ("sep", 9); ("october", 10); ("oct", 10); ("november", 11); ("nov", 11);
   ("december", 12); ("dec", 12)].

(** The [for ... break] loop: the first name of the dictionary that occurs
    in the query, its number, and the day found after it, if any. *)
Definition find_month (query_lower : string) : option (string * Z * option Z) :=
  match
    List.find (fun item => PyStr.contains (fst item) query_lower) month_patterns
  with
  | Some (month_name, month_num) =>
      Some (month_name, month_num,
            option_map int (search_day month_name query_lower))
  | None => None
  end.

(** [date.fromordinal]: [_ord2ymd]. *)
Definition _DI400Y : Z := _days_before_year 401.
Definition _DI100Y : Z := _days_before_year 101.
Definition _DI4Y : Z := _days_before_year 5.

Definition _DAYS_IN_MONTH : list Z :=
  [-1; 31; 28; 31; 30; 31; 30; 31; 31; 30; 31; 30; 31].
Definition _DAYS_BEFORE_MONTH : list Z :=
  [-1; 0; 31; 59; 90; 120; 151; 181; 212; 243; 273; 304; 334].

Definition _ord2ymd (n : Z) : date :=
  let n := n - 1 in
  let n400 := n / _DI400Y in
  let n := n mod _DI400Y in
  let year := n400 * 400 + 1 in
  let n100 := n / _DI100Y in
  let n := n mod _DI100Y in
  let n4 := n / _DI4Y in
  let n := n mod _DI4Y in
  let n1 := n / 365 in
  let n := n mod 365 in
  let year := year + n100 * 100 + n4 * 4 + n1 in
  if (n1 =? 4) || (n100 =? 4) then mkdate (year - 1) 12 31
  else
    let leapyear := (n1 =? 3) && (negb (n4 =? 24) || (n100 =? 3)) in
    let month := Z.shiftr (n + 50) 5 in
    let preceding :=
      nth (Z.to_nat month) _DAYS_BEFORE_MONTH 0
      + (if (2 <? month) && leapyear then 1 else 0) in
    if n <? preceding then
      let month := month - 1 in
      let preceding :=
        preceding
        - (nth (Z.to_nat month) _DAYS_IN_MONTH 0
           + (if (month =? 2) && leapyear then 1 else 0)) in
      mkdate year month (n - preceding + 1)
    else mkdate year month (n - preceding + 1).

Definition _MAXORDINAL : Z := 3652059.

(** [d + timedelta(days=n)]; [None] is [OverflowError]. *)
Definition add_days (d : date) (n : Z) : option date :=
  let o := toordinal d + n in
  if (0 <? o) && (o <=? _MAXORDINAL) then Some (_ord2ymd o) else None.

(** [str(n)] for an integer. *)
Definition str_of_int (n : Z) : string :=
  DecimalString.NilZero.string_of_int (Z.to_int n).

(** The dictionary returned. *)
Record dates := mkdates {
  check_in : string;
  check_out : string;
  confidence : string;
  method : string;
  details : string
}.

(** The last resort: a week from today, for two nights. *)
Definition default_fallback (today : date) : option dates :=
  match add_days today 7 with
  | Some check_in =>
      match add_days check_in 2 with
      | Some check_out =>
          Some (mkdates (isoformat check_in) (isoformat check_out) "low"
                  "default_fallback"
                  "No dates found, using default: next week for 2 nights")
      | None => None
      end
  | None => None
  end.

(** [_intelligent_date_fallback(query, today)]; [None] is an [OverflowError]
    of the date arithmetic.  [strftime("%Y-%m-%d")] is [isoformat], years
    being at least 1000. *)
Definition _intelligent_date_fallback (query : string) (today : date)
  : option dates :=
  let target_year :=
    match search_seq re_year query with
    | Some y => int y
    | None => 2025
    end in
  let query_lower := PyStr.lower query in
  match find_month query_lower with
  | Some (month_name, found_month, Some found_day) =>
      if negb (found_month =? 0) && negb (found_day =? 0) then
        if _check_date_fields target_year found_month found_day then
          let check_in := mkdate target_year found_month found_day in
          match add_days check_in 2 with
          | Some check_out =>
              Some (mkdates (isoformat check_in) (isoformat check_out) "medium"
                      "regex_fallback"
                      (String.append "Fallback extraction found "
                         (String.append month_name
                            (String.append " "
                               (String.append (str_of_int found_day)
                                  (String.append ", " (str_of_int target_year)))))))
          | None => None
          end
        else default_fallback today
      else default_fallback today
  | _ => default_fallback today
  end.

End Fallback.

(** The month and the day of the [n]-th day of a year, counted from zero,
    as [_ord2ymd] finds them: an estimate of the month, corrected when it
    is one too large. *)
Definition month_and_day (leapyear : bool) (n : Z) : Z * Z :=
  let month := Z.shiftr (n + 50) 5 in
  let preceding :=
    nth (Z.to_nat month) Fallback._DAYS_BEFORE_MONTH 0
    + (if (2 <? month) && leapyear then 1 else 0) in
  if n <? preceding then
    let month := month - 1 in
    let preceding :=
      preceding
      - (nth (Z.to_nat month) Fallback._DAYS_IN_MONTH 0
         + (if (month =? 2) && leapyear then 1 else 0)) in
    (month, n - preceding + 1)
  else (month, n - preceding + 1).

(** The day of the year, counted from zero. *)
Definition day_of_year (d : Datetime.date) : Z :=
  Datetime._days_before_month (Datetime.year d) (Datetime.month d)
  + Datetime.day d - 1.

(** A year of each kind. *)
Definition sample_year (leapyear : bool) : Z := if leapyear then 2024 else 2023.

(** * Properties *)

(** ** The order on date strings *)

Lemma le_ge_swap (x y : string) : PyStr.le x y = PyStr.ge y x.
Proof.
  unfold PyStr.le, PyStr.ge.
  rewrite (String.compare_antisym y x).
  destruct (String.compare x y); reflexivity.
Qed.

Lemma compare_same (x : string) : String.compare x x = Eq.
Proof.
  pose proof (String.compare_antisym x x) as H.
  destruct (String.compare x x); simpl in H; congruence.
Qed.

Lemma ge_same (x : string) : PyStr.ge x x = true.
Proof. unfold PyStr.ge. rewrite compare_same. reflexivity. Qed.

Lemma le_same (x : string) : PyStr.le x x = true.
Proof. unfold PyStr.le. rewrite compare_same. reflexivity. Qed.

Lemma ranges_overlap_false (a b c d : string) :
  ranges_overlap a b c d = false <-> PyStr.le b c = true \/ PyStr.ge a d = true.
Proof.
  unfold ranges_overlap.
  rewrite negb_false_iff, orb_true_iff. reflexivity.
Qed.

(** ** What a conflict list contains *)

Lemma in_conflicting_bookings bookings room_id check_in check_out b :
  In b (conflicting_bookings bookings room_id check_in check_out) <->
  In b bookings /\ Booking.room_id b = room_id /\ active b = true
  /\ overlaps check_in check_out b = true.
Proof.
  unfold conflicting_bookings.
  rewrite filter_In, !andb_true_iff, String.eqb_eq. tauto.
Qed.

Lemma active_iff b :
  active b = true <->
  Booking.status b = "confirmed" \/ Booking.status b = "pending".
Proof.
  unfold active. simpl.
  rewrite !orb_true_iff, !String.eqb_eq. intuition discriminate.
Qed.

(** C3. The overlap predicate gives the same answer whichever of the two
    ranges is the requested one and whichever the booked one:
    [overlaps(A, B) = overlaps(B, A)] for all ranges [A = [a, b)] and
    [B = [c, d)], whatever the four date strings are. *)
Theorem overlap_symmetric (a b c d : string) :
  ranges_overlap a b c d = ranges_overlap c d a b.
Proof.
  unfold ranges_overlap.
  rewrite (le_ge_swap b c), (le_ge_swap d a).
  f_equal. apply orb_comm.
Qed.

(** ** The calendar: ordinals count days, and the order of padded strings *)

(** *** [strptime] on examples

    The answers are those of CPython: a month or a day may come without its
    leading zero, a day may come with a blank instead; trailing text, a
    thirteenth month, February 29 of a common year and year 0 are refused. *)

Example strptime_padded :
  Datetime.strptime "2025-07-25" = Some (Datetime.mkdate 2025 7 25).
Proof. vm_compute. reflexivity. Qed.

Example strptime_unpadded :
  Datetime.strptime "2025-7-5" = Some (Datetime.mkdate 2025 7 5).
Proof. vm_compute. reflexivity. Qed.

Example strptime_blank_day :
  Datetime.strptime "2025-07- 5" = Some (Datetime.mkdate 2025 7 5).
Proof. vm_compute. reflexivity. Qed.

Example strptime_leap_day :
  Datetime.strptime "2024-02-29" = Some (Datetime.mkdate 2024 2 29)
  /\ Datetime.strptime "2025-02-29" = None.
Proof. split; vm_compute; reflexivity. Qed.

Example strptime_refused :
  List.map Datetime.strptime
    ["2025-13-01"; "2025-07-32"; "2025-07-25 "; " 2025-07-25"; "0000-01-01";
     "25/07/2025"; "2025-1-2-3"; "2025-07-2x"; "July 25"]
  = [None; None; None; None; None; None; None; None; None].
Proof. vm_compute. reflexivity. Qed.

Example toordinal_values :
  List.map (fun s => option_map Datetime.toordinal (Datetime.strptime s))
    ["0001-01-01"; "2024-02-29"; "2025-07-25"; "9999-12-31"]
  = [Some 1; Some 738945; Some 739457; Some 3652059].
Proof. vm_compute. reflexivity. Qed.

Lemma is_leap_cases y :
  Datetime._is_leap y = true \/ Datetime._is_leap y = false.
Proof. destruct (Datetime._is_leap y); auto. Qed.

Lemma days_before_year_succ y :
  Datetime._days_before_year (y + 1)
  = Datetime._days_before_year y + (if Datetime._is_leap y then 366 else 365).
Proof.
  unfold Datetime._days_before_year, Datetime._is_leap.
  replace (y + 1 - 1) with y by lia.
  destruct (Z.eqb_spec (y mod 4) 0), (Z.eqb_spec (y mod 100) 0),
    (Z.eqb_spec (y mod 400) 0); simpl;
    Z.div_mod_to_equations; lia.
Qed.

Lemma days_before_year_mono a b :
  a <= b -> Datetime._days_before_year a <= Datetime._days_before_year b.
Proof.
  unfold Datetime._days_before_year. intros Hab.
  Z.div_mod_to_equations. lia.
Qed.

Lemma in_zrange lo n x : lo <= x < lo + Z.of_nat n -> In x (zrange lo n).
Proof.
  intros Hx. unfold zrange. apply in_map_iff.
  exists (Z.to_nat (x - lo)). split; [lia|]. apply in_seq. lia.
Qed.

(** Case analysis on a variable known to lie in [lo, lo + n). *)
Ltac enumerate x lo n :=
  let H := fresh "Hrange" in
  assert (H : In x (zrange lo n)) by (apply in_zrange; lia);
  cbv in H;
  repeat (destruct H as [H|H]; [subst x|]);
  try contradiction.

Lemma days_in_month_bounds y m :
  1 <= m <= 12 -> 28 <= Datetime._days_in_month y m <= 31.
Proof.
  intros Hm. unfold Datetime._days_in_month.
  enumerate m 1 12%nat; destruct (Datetime._is_leap y); simpl; lia.
Qed.

Lemma days_before_month_succ y m :
  1 <= m <= 11 ->
  Datetime._days_before_month y (m + 1)
  = Datetime._days_before_month y m + Datetime._days_in_month y m.
Proof.
  intros Hm. assert (Hm' : 1 <= m <= 12) by lia.
  unfold Datetime._days_before_month, Datetime._days_in_month.
  enumerate m 1 12%nat; try lia; destruct (Datetime._is_leap y); simpl; lia.
Qed.

Lemma days_before_month_first y : Datetime._days_before_month y 1 = 0.
Proof. reflexivity. Qed.

Lemma days_before_month_last y :
  Datetime._days_before_month y 12 + Datetime._days_in_month y 12
  = if Datetime._is_leap y then 366 else 365.
Proof.
  unfold Datetime._days_before_month, Datetime._days_in_month.
  destruct (Datetime._is_leap y); reflexivity.
Qed.

Lemma days_before_month_mono y m1 m2 :
  1 <= m1 -> m1 < m2 -> m2 <= 12 ->
  Datetime._days_before_month y m1 + Datetime._days_in_month y m1
  <= Datetime._days_before_month y m2.
Proof.
  intros H1 H12 H2.
  assert (Hm1 : 1 <= m1 <= 12) by lia. assert (Hm2 : 1 <= m2 <= 12) by lia.
  unfold Datetime._days_before_month, Datetime._days_in_month.
  enumerate m1 1 12%nat; enumerate m2 1 12%nat; try lia;
    destruct (Datetime._is_leap y); simpl; lia.
Qed.

Lemma valid_next_day d : valid_date d -> valid_date (next_day d).
Proof.
  unfold valid_date, next_day. intros (Hy & Hm & Hd).
  destruct (Z.ltb_spec (Datetime.day d)
              (Datetime._days_in_month (Datetime.year d) (Datetime.month d))).
  - simpl. lia.
  - destruct (Z.ltb_spec (Datetime.month d) 12); simpl.
    + pose proof (days_in_month_bounds (Datetime.year d) (Datetime.month d + 1)).
      lia.
    + pose proof (days_in_month_bounds (Datetime.year d + 1) 1). lia.
Qed.

(** The ordinal of the day after is one more. *)
Lemma toordinal_next_day d :
  valid_date d ->
  Datetime.toordinal (next_day d) = Datetime.toordinal d + 1.
Proof.
  unfold valid_date, next_day, Datetime.toordinal, Datetime._ymd2ord.
  intros (Hy & Hm & Hd).
  destruct (Z.ltb_spec (Datetime.day d)
              (Datetime._days_in_month (Datetime.year d) (Datetime.month d))).
  - simpl. lia.
  - destruct (Z.ltb_spec (Datetime.month d) 12); simpl.
    + rewrite days_before_month_succ by lia. lia.
    + assert (Datetime.month d = 12) as Hdec by lia.
      rewrite days_before_year_succ, days_before_month_first.
      pose proof (days_before_month_last (Datetime.year d)) as Hlast.
      rewrite Hdec in *. destruct (Datetime._is_leap (Datetime.year d)); lia.
Qed.

(** Ordinals follow the calendar order. *)
Lemma toordinal_lt a b :
  valid_date a -> valid_date b -> date_lt a b ->
  Datetime.toordinal a < Datetime.toordinal b.
Proof.
  unfold valid_date, date_lt, Datetime.toordinal, Datetime._ymd2ord.
  destruct a as [y1 m1 d1], b as [y2 m2 d2]. simpl.
  intros (Hy1 & Hm1 & Hd1) (Hy2 & Hm2 & Hd2) [Hy|[-> [Hm|[-> Hd]]]].
  - pose proof (days_before_year_mono (y1 + 1) y2 ltac:(lia)) as Hmono.
    rewrite days_before_year_succ in Hmono.
    pose proof (days_before_month_last y1) as Hlast.
    assert (Datetime._days_before_month y1 m1 + Datetime._days_in_month y1 m1
            <= Datetime._days_before_month y1 12 + Datetime._days_in_month y1 12).
    { destruct (Z.eq_dec m1 12) as [->|]; [lia|].
      pose proof (days_before_month_mono y1 m1 12 ltac:(lia) ltac:(lia) ltac:(lia)).
      pose proof (days_in_month_bounds y1 12 ltac:(lia)). lia. }
    assert (0 <= Datetime._days_before_month y2 m2).
    { destruct (Z.eq_dec m2 1) as [->|]; [rewrite days_before_month_first; lia|].
      pose proof (days_before_month_mono y2 1 m2 ltac:(lia) ltac:(lia) ltac:(lia)).
      rewrite days_before_month_first in *.
      pose proof (days_in_month_bounds y2 1 ltac:(lia)). lia. }
    destruct (Datetime._is_leap y1); lia.
  - pose proof (days_before_month_mono y2 m1 m2 ltac:(lia) Hm ltac:(lia)). lia.
  - lia.
Qed.

Lemma date_trichotomy a b : date_lt a b \/ a = b \/ date_lt b a.
Proof.
  unfold date_lt. destruct a as [y1 m1 d1], b as [y2 m2 d2]. simpl.
  destruct (Z.lt_total y1 y2) as [?|[->|?]]; [auto| |auto].
  destruct (Z.lt_total m1 m2) as [?|[->|?]]; [auto| |auto 6].
  destruct (Z.lt_total d1 d2) as [?|[->|?]]; auto 8.
Qed.

Lemma toordinal_le_iff a b :
  valid_date a -> valid_date b ->
  (Datetime.toordinal a <= Datetime.toordinal b <-> (a = b \/ date_lt a b)).
Proof.
  intros Ha Hb. split.
  - intros Hle. destruct (date_trichotomy a b) as [?|[?|Hlt]]; auto.
    apply toordinal_lt in Hlt; try assumption. lia.
  - intros [->|Hlt]; [lia|]. apply toordinal_lt in Hlt; try assumption. lia.
Qed.

Lemma toordinal_injective a b :
  valid_date a -> valid_date b ->
  Datetime.toordinal a = Datetime.toordinal b -> a = b.
Proof.
  intros Ha Hb Heq.
  destruct (date_trichotomy a b) as [Hlt|[?|Hlt]]; [|assumption|];
    apply toordinal_lt in Hlt; try assumption; lia.
Qed.

Lemma toordinal_iter_next_day n d :
  valid_date d ->
  valid_date (Nat.iter n next_day d)
  /\ Datetime.toordinal (Nat.iter n next_day d) = Datetime.toordinal d + Z.of_nat n.
Proof.
  intros Hd. induction n as [|n [IHv IHo]]; simpl.
  - split; [assumption|lia].
  - split; [now apply valid_next_day|].
    rewrite toordinal_next_day by assumption. lia.
Qed.

(** The difference of two ordinals is the number of times one has to pass to
    the next day to get from the first date to the second. *)
Lemma days_between_is_day_count a b :
  valid_date a -> valid_date b ->
  0 <= Datetime.days_between a b ->
  b = Nat.iter (Z.to_nat (Datetime.days_between a b)) next_day a.
Proof.
  intros Ha Hb Hn.
  destruct (toordinal_iter_next_day (Z.to_nat (Datetime.days_between a b)) a Ha)
    as [Hv Ho].
  apply toordinal_injective; try assumption.
  rewrite Ho. unfold Datetime.days_between in *. lia.
Qed.

Lemma strptime_valid s d :
  Datetime.strptime s = Some d -> valid_date d /\ Datetime.year d <= 9999.
Proof.
  unfold Datetime.strptime.
  destruct (Datetime.re_match Datetime.format_regex s) as [[caps rest]|];
    [|discriminate].
  destruct caps as [|Y [|d1 [|m [|d2 [|dd [|? ?]]]]]]; try discriminate.
  destruct rest; [|discriminate].
  destruct (Datetime._check_date_fields _ _ _) eqn:Hcheck; [|discriminate].
  intros [= <-]. unfold valid_date. simpl.
  unfold Datetime._check_date_fields in Hcheck.
  rewrite !andb_true_iff, !Z.leb_le in Hcheck. lia.
Qed.

(** *** Zero-padded date strings *)

Lemma compare_digit_char a b :
  0 <= a <= 9 -> 0 <= b <= 9 ->
  Ascii.compare (digit_char a) (digit_char b) = (a ?= b).
Proof.
  intros Ha Hb. enumerate a 0 10%nat; enumerate b 0 10%nat; reflexivity.
Qed.

Lemma compare_String c1 c2 (s1 s2 : string) :
  String.compare (String c1 s1) (String c2 s2)
  = then_compare (Ascii.compare c1 c2) (String.compare s1 s2).
Proof. simpl. destruct (Ascii.compare c1 c2); reflexivity. Qed.

Lemma compare_pad2 a b (r1 r2 : string) :
  0 <= a <= 99 -> 0 <= b <= 99 ->
  String.compare (pad2 a r1) (pad2 b r2)
  = then_compare (a ?= b) (String.compare r1 r2).
Proof.
  intros Ha Hb. unfold pad2. rewrite !compare_String.
  rewrite !compare_digit_char by (Z.div_mod_to_equations; lia).
  destruct (Z.compare_spec (a / 10) (b / 10)) as [Hq|Hq|Hq];
    destruct (Z.compare_spec (a mod 10) (b mod 10)) as [Hr|Hr|Hr];
    destruct (Z.compare_spec a b) as [Hab|Hab|Hab]; simpl; try reflexivity;
    exfalso; Z.div_mod_to_equations; lia.
Qed.

Lemma valid_date_ranges d :
  valid_date d -> 1 <= Datetime.month d <= 12 /\ 1 <= Datetime.day d <= 31.
Proof.
  intros (Hy & Hm & Hd).
  pose proof (days_in_month_bounds (Datetime.year d) (Datetime.month d) Hm). lia.
Qed.

(** Padded strings compare as their dates do. *)
Lemma compare_isoformat a b :
  valid_date a -> Datetime.year a <= 9999 ->
  valid_date b -> Datetime.year b <= 9999 ->
  String.compare (isoformat a) (isoformat b) = date_compare a b.
Proof.
  intros Ha Hya Hb Hyb.
  pose proof (valid_date_ranges a Ha) as [Hma Hda].
  pose proof (valid_date_ranges b Hb) as [Hmb Hdb].
  destruct Ha as (Ha & _), Hb as (Hb & _).
  unfold isoformat, date_compare.
  rewrite !compare_pad2 by (try lia; Z.div_mod_to_equations; lia).
  rewrite compare_String, compare_pad2 by lia.
  rewrite compare_String, compare_pad2 by lia.
  change (Ascii.compare "-" "-") with Eq. simpl.
  destruct (Z.compare_spec (Datetime.year a / 100) (Datetime.year b / 100));
    destruct (Z.compare_spec (Datetime.year a mod 100) (Datetime.year b mod 100));
    destruct (Z.compare_spec (Datetime.year a) (Datetime.year b)); simpl;
    try (exfalso; Z.div_mod_to_equations; lia);
    try reflexivity;
    destruct (Datetime.month a ?= Datetime.month b); simpl; try reflexivity;
    destruct (Datetime.day a ?= Datetime.day b); reflexivity.
Qed.

Lemma date_compare_spec a b :
  match date_compare a b with
  | Lt => date_lt a b
  | Eq => a = b
  | Gt => date_lt b a
  end.
Proof.
  unfold date_compare, date_lt. destruct a as [y1 m1 d1], b as [y2 m2 d2]. simpl.
  destruct (Z.compare_spec y1 y2); simpl; [subst|lia|lia].
  destruct (Z.compare_spec m1 m2); simpl; [subst|lia|lia].
  destruct (Z.compare_spec d1 d2); simpl; [subst; reflexivity|lia|lia].
Qed.

(** On padded strings [<=] is the calendar order. *)
Lemma le_isoformat a b :
  valid_date a -> Datetime.year a <= 9999 ->
  valid_date b -> Datetime.year b <= 9999 ->
  PyStr.le (isoformat a) (isoformat b)
  = (Datetime.toordinal a <=? Datetime.toordinal b).
Proof.
  intros Ha Hya Hb Hyb. unfold PyStr.le.
  rewrite compare_isoformat by assumption.
  pose proof (date_compare_spec a b) as Hspec.
  destruct (date_compare a b).
  - subst. symmetry. apply Z.leb_le. lia.
  - apply toordinal_lt in Hspec; try assumption.
    symmetry. apply Z.leb_le. lia.
  - apply toordinal_lt in Hspec; try assumption.
    symmetry. apply Z.leb_gt. lia.
Qed.

Lemma padded_valid s d : padded s d -> valid_date d /\ Datetime.year d <= 9999.
Proof. intros [Hparse _]. now apply strptime_valid in Hparse. Qed.

(** For padded dates the overlap predicate is the calendar one. *)
Lemma ranges_overlap_padded a b c d da db dc dd :
  padded a da -> padded b db -> padded c dc -> padded d dd ->
  ranges_overlap a b c d = true <->
  Datetime.toordinal dc < Datetime.toordinal db
  /\ Datetime.toordinal da < Datetime.toordinal dd.
Proof.
  intros Ha Hb Hc Hd.
  destruct (padded_valid _ _ Ha) as [Hva Hya], (padded_valid _ _ Hb) as [Hvb Hyb],
    (padded_valid _ _ Hc) as [Hvc Hyc], (padded_valid _ _ Hd) as [Hvd Hyd].
  destruct Ha as [_ ->], Hb as [_ ->], Hc as [_ ->], Hd as [_ ->].
  unfold ranges_overlap.
  rewrite <- (le_ge_swap (isoformat dd) (isoformat da)).
  rewrite !le_isoformat by assumption.
  rewrite negb_true_iff, orb_false_iff, !Z.leb_gt. tauto.
Qed.

Lemma share_a_night_iff a b c d :
  Datetime.toordinal a < Datetime.toordinal b ->
  Datetime.toordinal c < Datetime.toordinal d ->
  share_a_night a b c d <->
  Datetime.toordinal c < Datetime.toordinal b
  /\ Datetime.toordinal a < Datetime.toordinal d.
Proof.
  intros Hab Hcd. unfold share_a_night. split.
  - intros (night & H1 & H2). lia.
  - intros [H1 H2].
    exists (Z.max (Datetime.toordinal a) (Datetime.toordinal c)). lia.
Qed.

(** *** [strptime] reads back what [isoformat] writes *)

Lemma digit_digit_char n : 0 <= n <= 9 -> Datetime.digit (digit_char n) = true.
Proof. intros Hn. enumerate n 0 10%nat; reflexivity. Qed.

Lemma match_year h l (rest : string) :
  0 <= h <= 99 -> 0 <= l <= 99 ->
  Datetime.match_seq
    [Datetime.digit; Datetime.digit; Datetime.digit; Datetime.digit]
    (pad2 h (pad2 l rest))
  = Some (pad2 h (pad2 l EmptyString), rest).
Proof.
  intros Hh Hl. unfold pad2. cbn [Datetime.match_seq].
  rewrite !digit_digit_char by (Z.div_mod_to_equations; lia).
  reflexivity.
Qed.

Lemma int_year h l :
  0 <= h <= 99 -> 0 <= l <= 99 ->
  Datetime.int (pad2 h (pad2 l EmptyString)) = 100 * h + l.
Proof.
  intros Hh Hl.
  assert (Hall : List.forallb
                   (fun h => List.forallb
                      (fun l => Datetime.int (pad2 h (pad2 l EmptyString))
                                =? 100 * h + l)
                      (zrange 0 100))
                   (zrange 0 100) = true)
    by (vm_compute; reflexivity).
  rewrite forallb_forall in Hall.
  specialize (Hall h (in_zrange 0 100 h ltac:(lia))).
  rewrite forallb_forall in Hall.
  specialize (Hall l (in_zrange 0 100 l ltac:(lia))).
  now apply Z.eqb_eq in Hall.
Qed.

Lemma int_pad2 n :
  0 <= n <= 99 -> Datetime.int (pad2 n EmptyString) = n.
Proof.
  intros Hn.
  assert (Hall : List.forallb
                   (fun n => Datetime.int (pad2 n EmptyString) =? n)
                   (zrange 0 100) = true)
    by (vm_compute; reflexivity).
  rewrite forallb_forall in Hall.
  specialize (Hall n (in_zrange 0 100 n ltac:(lia))).
  now apply Z.eqb_eq in Hall.
Qed.

Lemma month_day_match m d :
  1 <= m <= 12 -> 1 <= d <= 31 ->
  Datetime.re_match
    [Datetime.re_dash; Datetime.re_m; Datetime.re_dash; Datetime.re_d]
    (String "-" (pad2 m (String "-" (pad2 d EmptyString))))
  = Some (["-"; pad2 m EmptyString; "-"; pad2 d EmptyString], EmptyString).
Proof.
  intros Hm Hd.
  assert (Hall : List.forallb
                   (fun m => List.forallb (month_day_matches m) (zrange 1 31))
                   (zrange 1 12) = true)
    by (vm_compute; reflexivity).
  rewrite forallb_forall in Hall.
  specialize (Hall m (in_zrange 1 12 m ltac:(lia))).
  rewrite forallb_forall in Hall.
  specialize (Hall d (in_zrange 1 31 d ltac:(lia))).
  unfold month_day_matches in Hall.
  destruct (Datetime.re_match _ _) as [[caps rest]|]; [|discriminate].
  destruct caps as [|c1 [|c2 [|c3 [|c4 [|? ?]]]]]; try discriminate.
  destruct rest; [|discriminate].
  rewrite !andb_true_iff, !String.eqb_eq in Hall.
  destruct Hall as [[[-> ->] ->] ->]. reflexivity.
Qed.

Lemma re_match_single alt gs (s : string) :
  Datetime.re_match ([alt] :: gs) s
  = match Datetime.match_seq alt s with
    | Some (txt, rest) =>
        match Datetime.re_match gs rest with
        | Some (caps, final) => Some (txt :: caps, final)
        | None => None
        end
    | None => None
    end.
Proof.
  simpl. destruct (Datetime.match_seq alt s) as [[txt rest]|]; [|reflexivity].
  destruct (Datetime.re_match gs rest) as [[caps final]|]; reflexivity.
Qed.

Lemma isoformat_fields_ok d :
  valid_date d -> Datetime.year d <= 9999 ->
  Datetime._check_date_fields (Datetime.year d) (Datetime.month d) (Datetime.day d)
  = true.
Proof.
  intros (Hy & Hm & Hd) Hmax. unfold Datetime._check_date_fields.
  rewrite !andb_true_iff, !Z.leb_le. lia.
Qed.

(** Every date of the calendar, written zero-padded, passes the format check
    and is read back as itself. *)
Lemma strptime_isoformat d :
  valid_date d -> Datetime.year d <= 9999 ->
  Datetime.strptime (isoformat d) = Some d.
Proof.
  intros Hv Hmax.
  pose proof (valid_date_ranges d Hv) as [Hm Hd].
  pose proof (isoformat_fields_ok d Hv Hmax) as Hcheck.
  destruct Hv as (Hy & _).
  unfold Datetime.strptime, Datetime.format_regex, Datetime.re_Y, isoformat.
  rewrite re_match_single.
  rewrite match_year by (Z.div_mod_to_equations; lia).
  rewrite month_day_match by assumption.
  rewrite int_year by (Z.div_mod_to_equations; lia).
  rewrite !int_pad2 by lia.
  replace (100 * (Datetime.year d / 100) + Datetime.year d mod 100)
    with (Datetime.year d) by (Z.div_mod_to_equations; lia).
  rewrite Hcheck. destruct d; reflexivity.
Qed.

Lemma padded_isoformat d :
  valid_date d -> Datetime.year d <= 9999 -> padded (isoformat d) d.
Proof. intros Hv Hmax. split; [now apply strptime_isoformat|reflexivity]. Qed.

(** ** Whole numbers in binary64 *)

Section Binary64.
Import SpecFloat FloatOps.

Lemma digits_lower p : 2 ^ (Z.pos (digits2_pos p) - 1) <= Z.pos p.
Proof.
  induction p as [p IH|p IH|]; simpl digits2_pos.
  - rewrite Pos2Z.inj_succ. replace (Z.succ (Z.pos (digits2_pos p)) - 1)
      with (Z.succ (Z.pos (digits2_pos p) - 1)) by lia.
    rewrite Z.pow_succ_r by lia. lia.
  - rewrite Pos2Z.inj_succ. replace (Z.succ (Z.pos (digits2_pos p)) - 1)
      with (Z.succ (Z.pos (digits2_pos p) - 1)) by lia.
    rewrite Z.pow_succ_r by lia. lia.
  - simpl. lia.
Qed.

Lemma digits_upper p : Z.pos p < 2 ^ Z.pos (digits2_pos p).
Proof.
  induction p as [p IH|p IH|]; simpl digits2_pos.
  - rewrite Pos2Z.inj_succ, Z.pow_succ_r by lia. lia.
  - rewrite Pos2Z.inj_succ, Z.pow_succ_r by lia. lia.
  - simpl. lia.
Qed.

Lemma digits_unique p d :
  2 ^ (d - 1) <= Z.pos p < 2 ^ d -> Z.pos (digits2_pos p) = d.
Proof.
  intros [Hlo Hhi].
  pose proof (digits_lower p) as Hl. pose proof (digits_upper p) as Hu.
  assert (0 < d).
  { destruct (Z.lt_ge_cases 0 d); [assumption|].
    assert (2 ^ d <= 1); [|lia].
    destruct (Z.eq_dec d 0) as [->|]; [simpl; lia|].
    rewrite Z.pow_neg_r by lia. lia. }
  assert (Z.pos (digits2_pos p) - 1 < d).
  { apply (Z.pow_lt_mono_r_iff 2); lia. }
  assert (d - 1 < Z.pos (digits2_pos p)).
  { apply (Z.pow_lt_mono_r_iff 2); lia. }
  lia.
Qed.

Lemma iter_xO_value c k : Z.pos (Pos.iter xO c k) = Z.pos c * 2 ^ Z.pos k.
Proof.
  induction k as [|k IH] using Pos.peano_ind.
  - simpl. lia.
  - rewrite Pos.iter_succ, Pos2Z.inj_succ, Z.pow_succ_r by lia.
    rewrite Pos2Z.inj_xO, IH. lia.
Qed.

Lemma iter_xO_digits c k :
  Z.pos (digits2_pos (Pos.iter xO c k)) = Z.pos (digits2_pos c) + Z.pos k.
Proof.
  induction k as [|k IH] using Pos.peano_ind.
  - simpl. lia.
  - rewrite Pos.iter_succ. simpl digits2_pos. lia.
Qed.

Lemma iter_pos_iter {A : Type} (f : A -> A) n x : iter_pos f n x = Pos.iter f x n.
Proof.
  revert x. induction n as [n IH|n IH|]; intros x; simpl.
  - rewrite !IH, !Pos.iter_swap. reflexivity.
  - rewrite !IH. reflexivity.
  - reflexivity.
Qed.

Lemma shr_exact c k :
  iter_pos shr_1 k (Build_shr_record (Z.pos (Pos.iter xO c k)) false false)
  = Build_shr_record (Z.pos c) false false.
Proof.
  rewrite iter_pos_iter.
  induction k as [|k IH] using Pos.peano_ind.
  - reflexivity.
  - rewrite (Pos.iter_succ k positive xO c), (Pos.iter_succ k shr_record shr_1),
      <- Pos.iter_swap.
    exact IH.
Qed.

Lemma fexp_normal d e :
  -1074 <= d + e - 53 -> fexp prec emax (d + e) - e = d - 53.
Proof. unfold fexp, emin, prec, emax. lia. Qed.

(** A mantissa of 53 digits is left as it is. *)
Lemma round_aux_canonical c e :
  Z.pos (digits2_pos c) = 53 -> -1074 <= e <= 971 ->
  binary_round_aux prec emax false (Z.pos c) e loc_Exact = S754_finite false c e.
Proof.
  intros Hd He. unfold binary_round_aux, shr_fexp. simpl Zdigits2.
  rewrite fexp_normal, Hd by lia. simpl.
  rewrite fexp_normal, Hd by lia. simpl.
  destruct (Z.leb_spec e (emax - prec)) as [|Hgt]; [reflexivity|].
  unfold emax, prec in Hgt. lia.
Qed.

(** A mantissa of 53 digits followed by zeros loses the zeros. *)
Lemma round_aux_exact c k e :
  Z.pos (digits2_pos c) = 53 -> -1074 <= e + Z.pos k <= 971 ->
  binary_round_aux prec emax false (Z.pos (Pos.iter xO c k)) e loc_Exact
  = S754_finite false c (e + Z.pos k).
Proof.
  intros Hd He. unfold binary_round_aux, shr_fexp at 1. simpl Zdigits2.
  rewrite iter_xO_digits, Hd.
  replace (fexp prec emax (53 + Z.pos k + e) - e) with (Z.pos k)
    by (unfold fexp, emin, prec, emax; lia).
  simpl shr_record_of_loc. unfold shr at 1. rewrite shr_exact. simpl.
  unfold shr_fexp. simpl Zdigits2. rewrite Hd.
  replace (fexp prec emax (53 + (e + Z.pos k)) - (e + Z.pos k)) with 0
    by (unfold fexp, emin, prec, emax; lia).
  simpl.
  destruct (Z.leb_spec (e + Z.pos k) (emax - prec)) as [|Hgt]; [reflexivity|].
  unfold emax, prec in Hgt. lia.
Qed.

(** The binary64 nearest to a whole number below 2^53 is that number. *)
Lemma normalize_integer p :
  Z.pos p < 2 ^ 53 ->
  exists m e,
    binary_normalize prec emax (Z.pos p) 0 false = S754_finite false m e
    /\ e = Z.pos (digits2_pos p) - 53
    /\ Z.pos (digits2_pos m) = 53
    /\ Z.pos m = Z.pos p * 2 ^ (- e).
Proof.
  intros Hp. pose proof (digits_lower p) as Hlo.
  assert (Hd : Z.pos (digits2_pos p) <= 53).
  { assert (Z.pos (digits2_pos p) - 1 < 53); [|lia].
    apply (Z.pow_lt_mono_r_iff 2); lia. }
  unfold binary_normalize, binary_round, shl_align.
  replace (fexp prec emax (Z.pos (digits2_pos p) + 0))
    with (Z.pos (digits2_pos p) - 53)
    by (unfold fexp, emin, prec, emax; lia).
  rewrite Z.sub_0_r.
  destruct (Z.pos (digits2_pos p) - 53) as [|q|q] eqn:Hq; [|lia|].
  - rewrite round_aux_canonical by lia.
    exists p, 0. repeat split; try lia.
  - rewrite round_aux_canonical;
      [|rewrite iter_xO_digits; lia|lia].
    exists (Pos.iter xO p q), (Z.neg q).
    split; [reflexivity|]. split; [reflexivity|].
    split; [rewrite iter_xO_digits; lia|].
    rewrite iter_xO_value. reflexivity.
Qed.

Lemma is_integer_float_of_int n :
  0 < n < 2 ^ 53 -> is_integer (float_of_int n) n.
Proof.
  intros [Hpos Hlt]. unfold is_integer, float_of_int.
  destruct (Z.ltb_spec n 0); [lia|].
  rewrite FloatAxioms.of_uint63_spec, Uint63.of_Z_spec.
  rewrite Z.mod_small
    by (split; [lia|]; apply Z.lt_trans with (2 ^ 53); [assumption|reflexivity]).
  destruct n as [|p|p]; try lia.
  destruct (normalize_integer p Hlt) as (m & e & Hm & He & _ & Hv).
  exists m, e. split; [exact Hm|]. split; [|exact Hv].
  pose proof (digits_lower p) as Hlo.
  assert (Z.pos (digits2_pos p) - 1 < 53); [|lia].
  apply (Z.pow_lt_mono_r_iff 2); lia.
Qed.

(** The mantissa of a binary64 that is a positive integer has 53 digits. *)
Lemma is_integer_mantissa f n m e :
  0 < n -> Prim2SF f = S754_finite false m e -> e <= 0 ->
  Z.pos m = n * 2 ^ (- e) ->
  Z.pos (digits2_pos m) = 53.
Proof.
  intros Hn Hf He Hv.
  pose proof (FloatAxioms.Prim2SF_valid f) as Hvalid.
  rewrite Hf in Hvalid. simpl in Hvalid.
  apply andb_true_iff in Hvalid as [Hcanon _].
  unfold canonical_mantissa in Hcanon. apply Z.eqb_eq in Hcanon.
  unfold fexp, emin, prec, emax in Hcanon.
  destruct (Z.max_spec (Z.pos (digits2_pos m) + e - 53) (3 - 1024 - 53))
    as [[Hlt Hmax]|[Hge Hmax]]; rewrite Hmax in Hcanon; [|lia].
  exfalso. pose proof (digits_upper m) as Hup.
  assert (Hsmall : 2 ^ Z.pos (digits2_pos m) <= 2 ^ 52)
    by (apply Z.pow_le_mono_r; lia).
  assert (Hbig : 2 ^ 52 < 2 ^ (- e))
    by (apply Z.pow_lt_mono_r; lia).
  assert (2 ^ (- e) <= n * 2 ^ (- e)) by nia.
  lia.
Qed.

(** The product of two whole numbers, itself below 2^53, is exact. *)
Lemma is_integer_mul x y a b :
  is_integer x a -> is_integer y b -> 0 < a -> 0 < b -> a * b < 2 ^ 53 ->
  is_integer (PrimFloat.mul x y) (a * b).
Proof.
  intros (mx & ex & Hx & Hex & Hvx) (my & ey & Hy & Hey & Hvy) Ha Hb Hab.
  pose proof (is_integer_mantissa x a mx ex Ha Hx Hex Hvx) as Hdx.
  pose proof (is_integer_mantissa y b my ey Hb Hy Hey Hvy) as Hdy.
  unfold is_integer.
  rewrite FloatAxioms.mul_spec, Hx, Hy. unfold FloatAxioms.SF64mul, SFmul. simpl xorb.
  destruct (a * b) as [|p|p] eqn:Hp; try lia.
  destruct (normalize_integer p Hab) as (c & e & _ & He & Hdc & Hvc).
  pose proof (digits_lower mx) as Hlx. pose proof (digits_lower my) as Hly.
  rewrite Hdx in Hlx. rewrite Hdy in Hly.
  pose proof (digits_upper p) as Hup.
  pose proof (digits_lower p) as Hlp.
  assert (Hdp : Z.pos (digits2_pos p) <= 53).
  { assert (Z.pos (digits2_pos p) - 1 < 53); [|lia].
    apply (Z.pow_lt_mono_r_iff 2); lia. }
  assert (Hm : Z.pos (mx * my) = Z.pos p * 2 ^ (- ex - ey)).
  { rewrite Pos2Z.inj_mul, Hvx, Hvy, <- Hp.
    replace (- ex - ey) with (- ex + - ey) by lia.
    rewrite Z.pow_add_r by lia. ring. }
  assert (Hs : 52 <= - ex - ey + e).
  { assert (H104 : 2 ^ 104 <= Z.pos (mx * my)).
    { rewrite Pos2Z.inj_mul. change (2 ^ 104) with (2 ^ (53 - 1) * 2 ^ (53 - 1)).
      apply Z.mul_le_mono_nonneg; lia. }
    assert (Hlt : Z.pos (mx * my) < 2 ^ (Z.pos (digits2_pos p) + (- ex - ey))).
    { rewrite Hm, Z.pow_add_r by lia.
      apply Z.mul_lt_mono_pos_r; [apply Z.pow_pos_nonneg; lia|exact Hup]. }
    assert (104 < Z.pos (digits2_pos p) + (- ex - ey)); [|lia].
    apply (Z.pow_lt_mono_r_iff 2); lia. }
  destruct (- ex - ey + e) as [|k|k] eqn:Hk; try lia.
  assert (Hmk : (mx * my)%positive = Pos.iter xO c k).
  { apply Pos2Z.inj. rewrite iter_xO_value, Hm, Hvc, <- Hk.
    rewrite <- Z.mul_assoc, <- Z.pow_add_r by lia. f_equal. f_equal. lia. }
  rewrite Hmk, round_aux_exact by lia.
  exists c, (ex + ey + Z.pos k).
  split; [reflexivity|]. split; [lia|].
  rewrite Hvc. f_equal. f_equal. lia.
Qed.
End Binary64.

(** ** Bounds on day ordinals *)

Lemma toordinal_positive d : valid_date d -> 1 <= Datetime.toordinal d.
Proof.
  intros Hv.
  assert (H1 : valid_date (Datetime.mkdate 1 1 1))
    by (unfold valid_date, Datetime._days_in_month; simpl; lia).
  change 1 with (Datetime.toordinal (Datetime.mkdate 1 1 1)) at 1.
  apply toordinal_le_iff; [assumption..|].
  destruct Hv as (Hy & Hm & Hd). destruct d as [y m dd]. simpl in *.
  unfold date_lt. simpl.
  destruct (Z.eq_dec y 1) as [->|]; [|right; lia].
  destruct (Z.eq_dec m 1) as [->|]; [|right; lia].
  destruct (Z.eq_dec dd 1) as [->|]; [now left|right; lia].
Qed.

Lemma toordinal_year_bound d y :
  valid_date d -> Datetime.year d <= y ->
  Datetime.toordinal d <= Datetime.toordinal (Datetime.mkdate y 12 31).
Proof.
  intros Hv Hy. pose proof (valid_date_ranges d Hv) as [Hm Hd].
  assert (Hlast : valid_date (Datetime.mkdate y 12 31)).
  { destruct Hv as (Hy1 & _). repeat split; simpl; try lia.
    unfold Datetime._days_in_month. simpl. lia. }
  apply toordinal_le_iff; [assumption..|].
  destruct d as [y' m dd]. unfold date_lt. simpl in *.
  destruct (Z.eq_dec y' y) as [->|]; [|right; lia].
  destruct (Z.eq_dec m 12) as [->|]; [|right; lia].
  destruct (Z.eq_dec dd 31) as [->|]; [now left|right; lia].
Qed.

(** ** [book_hotel] *)

(** Every call ends in exactly the situation one of the outcomes describes. *)
Lemma book_hotel_outcome st booking_id hotel_id room_id guest_name guest_email
  check_in check_out :
  book_outcome st booking_id hotel_id room_id guest_name guest_email check_in check_out
    (book_hotel st booking_id hotel_id room_id guest_name guest_email check_in check_out).
Proof.
  unfold book_hotel.
  destruct (find_hotel st hotel_id) as [hotel|] eqn:Hhotel;
    [|apply hotel_not_found; assumption].
  destruct (find_room st room_id hotel_id) as [room|] eqn:Hroom;
    [|eapply room_not_found; eauto].
  destruct (Room.available room) eqn:Havail; simpl;
    [|eapply room_not_available; eauto].
  destruct (Datetime.strptime check_in) as [d1|] eqn:Hin;
    [|eapply invalid_date_format; eauto].
  destruct (Datetime.strptime check_out) as [d2|] eqn:Hout;
    [|eapply invalid_date_format; eauto].
  cbv zeta.
  destruct (Z.leb_spec (Datetime.days_between d1 d2) 0) as [Hle|Hlt];
    [eapply invalid_date_range; eauto|].
  destruct (conflicting_bookings (BOOKINGS st) room_id check_in check_out)
    as [|b bs] eqn:Hconf.
  - eapply confirmed; eauto.
  - change (conflict_range b :: List.map conflict_range bs)
      with (List.map conflict_range (b :: bs)).
    rewrite <- Hconf. eapply conflict; eauto. rewrite Hconf. discriminate.
Qed.

(** C4. A call of [book_hotel] that answers with an error (hotel not found,
    room not found, room not available, invalid date range, invalid date
    format, conflict) leaves the store as it was: the ledger, the rooms and
    the hotels are the same lists.  The only other answer is the
    confirmation, and only then is the ledger longer, by exactly the
    confirmed booking, rooms and hotels still untouched. *)
Theorem failed_booking_changes_nothing st booking_id hotel_id room_id
  guest_name guest_email check_in check_out :
  let answer :=
    book_hotel st booking_id hotel_id room_id guest_name guest_email check_in check_out in
  (is_error (fst answer) = true ->
   snd answer = st /\ error_answers (fst answer))
  /\ (is_error (fst answer) = false ->
      exists c, fst answer = BookConfirmed c
                /\ HOTELS (snd answer) = HOTELS st
                /\ ROOMS (snd answer) = ROOMS st
                /\ BOOKINGS (snd answer) = (BOOKINGS st ++ [booking_confirmation c])%list)
  /\ (BOOKINGS (snd answer) <> BOOKINGS st -> is_error (fst answer) = false).
Proof.
  intros answer. subst answer.
  destruct (book_hotel_outcome st booking_id hotel_id room_id guest_name
              guest_email check_in check_out); simpl;
    unfold error_answers;
    (split; [|split]); intros; try discriminate; try congruence; eauto 12.
Qed.

(** The overlapping request against booking A is refused and the store stays
    as it was. *)
Lemma failed_booking_changes_nothing_witness :
  snd (book_hotel store_with_booking_A "0b7e" "hotel_1" "room_1_2" "Bob" "bob@example.com"
         "2025-07-26" "2025-07-28") = store_with_booking_A
  /\ error_answers
       (fst (book_hotel store_with_booking_A "0b7e" "hotel_1" "room_1_2" "Bob"
               "bob@example.com" "2025-07-26" "2025-07-28")).
Proof.
  apply (proj1 (failed_booking_changes_nothing store_with_booking_A "0b7e" "hotel_1"
                  "room_1_2" "Bob" "bob@example.com" "2025-07-26" "2025-07-28")).
  vm_compute. reflexivity.
Defined.

(** C10. When the hotel is found, the room is found under that hotel and is
    flagged available, a [check_in] or a [check_out] that [strptime] refuses
    makes [book_hotel] answer [{"error": "Invalid date format. Use
    YYYY-MM-DD"}]: an answer, not an exception, with the store unchanged.
    No condition is put on the ledger: the answer is given before the
    conflict list is computed, whatever bookings the room has. *)
Theorem malformed_date_is_rejected st booking_id hotel_id room_id guest_name
  guest_email check_in check_out hotel room :
  find_hotel st hotel_id = Some hotel ->
  find_room st room_id hotel_id = Some room ->
  Room.available room = true ->
  Datetime.strptime check_in = None \/ Datetime.strptime check_out = None ->
  book_hotel st booking_id hotel_id room_id guest_name guest_email check_in check_out
  = (BookError "Invalid date format. Use YYYY-MM-DD", st).
Proof.
  intros Hhotel Hroom Havail Hbad.
  unfold book_hotel. rewrite Hhotel, Hroom, Havail. simpl.
  destruct Hbad as [Hbad|Hbad]; rewrite Hbad.
  - reflexivity.
  - destruct (Datetime.strptime check_in); reflexivity.
Qed.

(** A day-first check-out against the ledger with booking A: refused for its
    format, although the stay would overlap A. *)
Lemma malformed_date_is_rejected_witness :
  book_hotel store_with_booking_A "0b7e" "hotel_1" "room_1_2" "Bob" "bob@example.com"
    "2025-07-26" "28/07/2025"
  = (BookError "Invalid date format. Use YYYY-MM-DD", store_with_booking_A).
Proof.
  eapply (malformed_date_is_rejected store_with_booking_A).
  - vm_compute. reflexivity.
  - vm_compute. reflexivity.
  - reflexivity.
  - right. vm_compute. reflexivity.
Defined.

(** The number of nights of a stay between two dates that parse is below
    2^53. *)
Lemma nights_bound check_in check_out check_in_date check_out_date :
  Datetime.strptime check_in = Some check_in_date ->
  Datetime.strptime check_out = Some check_out_date ->
  Datetime.toordinal check_out_date - Datetime.toordinal check_in_date < 2 ^ 53.
Proof.
  intros Hin Hout.
  apply strptime_valid in Hin as [Hvin _], Hout as [Hvout Hyear].
  pose proof (toordinal_positive check_in_date Hvin).
  pose proof (toordinal_year_bound check_out_date 9999 Hvout Hyear) as Hmax.
  change (Datetime.toordinal (Datetime.mkdate 9999 12 31)) with 3652059 in Hmax.
  apply Z.lt_trans with 3652059; [lia|reflexivity].
Qed.

(** C5. A confirmed booking is priced by the night: both dates parsed,
    [nights] is the difference of their day ordinals, it is positive, it is
    the number of times one passes to the next calendar day to get from
    check-in to check-out, and [total_price] is the binary64 product of the
    room's [price_per_night] and the binary64 that is exactly [nights].
    When the price is a whole number and the product stays below 2^53, the
    total is exactly that whole number times [nights].  At $100 a night:
    from 2025-07-25 to 2025-07-28, three nights, $300; to 2025-07-30, five
    nights, $500. *)
Theorem booking_price st booking_id hotel_id room_id guest_name guest_email
  check_in check_out c st' :
  book_hotel st booking_id hotel_id room_id guest_name guest_email check_in check_out
  = (BookConfirmed c, st') ->
  exists room check_in_date check_out_date,
    find_room st room_id hotel_id = Some room
    /\ conf_room c = room
    /\ Datetime.strptime check_in = Some check_in_date
    /\ Datetime.strptime check_out = Some check_out_date
    /\ nights c = Datetime.toordinal check_out_date - Datetime.toordinal check_in_date
    /\ 0 < nights c
    /\ check_out_date = Nat.iter (Z.to_nat (nights c)) next_day check_in_date
    /\ (exists nights_float,
          is_integer nights_float (nights c)
          /\ Booking.total_price (booking_confirmation c)
             = PrimFloat.mul (Room.price_per_night room) nights_float)
    /\ (forall price,
          is_integer (Room.price_per_night room) price ->
          0 < price -> price * nights c < 2 ^ 53 ->
          is_integer (Booking.total_price (booking_confirmation c))
            (price * nights c))
    /\ BOOKINGS st' = (BOOKINGS st ++ [booking_confirmation c])%list.
Proof.
  intros Hcall.
  pose proof (book_hotel_outcome st booking_id hotel_id room_id guest_name
                guest_email check_in check_out) as Hout.
  rewrite Hcall in Hout.
  inversion Hout; subst; clear Hout.
  assert (Hexact :
    is_integer (float_of_int (Datetime.days_between check_in_date check_out_date))
      (Datetime.days_between check_in_date check_out_date)).
  { apply is_integer_float_of_int. split; [assumption|].
    unfold Datetime.days_between. eapply nights_bound; eassumption. }
  exists room, check_in_date, check_out_date. simpl.
  split; [assumption|]. split; [reflexivity|].
  split; [assumption|]. split; [assumption|].
  split; [reflexivity|]. split; [assumption|].
  split.
  { apply days_between_is_day_count; [| |lia].
    - eapply strptime_valid; eassumption.
    - eapply strptime_valid; eassumption. }
  split.
  { exists (float_of_int (Datetime.days_between check_in_date check_out_date)).
    split; [exact Hexact|reflexivity]. }
  split; [|reflexivity].
  intros price Hprice Hpos Hsmall.
  exact (is_integer_mul _ _ _ _ Hprice Hexact Hpos ltac:(assumption) Hsmall).
Qed.

(** The example of the specification, and a longer stay in the same room:
    $100 a night, three nights for $300, five nights for $500. *)
Lemma booking_price_witness :
  (fst (book_hotel hundred_dollar_store "7c1d" "hotel_h" "room_h_1" "Ada Lovelace"
          "ada@example.com" "2025-07-25" "2025-07-28")
   = BookConfirmed hundred_dollar_confirmation
   /\ nights hundred_dollar_confirmation = 3
   /\ Booking.total_price (booking_confirmation hundred_dollar_confirmation)
      = 300%float
   /\ is_integer (Booking.total_price (booking_confirmation hundred_dollar_confirmation))
        (100 * 3))
  /\ (exists c st',
        book_hotel hundred_dollar_store "9e4b" "hotel_h" "room_h_1" "Ada Lovelace"
          "ada@example.com" "2025-07-25" "2025-07-30" = (BookConfirmed c, st')
        /\ nights c = 5
        /\ Booking.total_price (booking_confirmation c) = 500%float
        /\ is_integer (Booking.total_price (booking_confirmation c)) (100 * 5)).
Proof.
  assert (Hundred : is_integer 100%float 100).
  { exists 7036874417766400%positive, (-46).
    split; [vm_compute; reflexivity|]. split; [lia|reflexivity]. }
  split.
  - split; [vm_compute; reflexivity|].
    split; [reflexivity|]. split; [reflexivity|].
    destruct (booking_price hundred_dollar_store "7c1d" "hotel_h" "room_h_1"
                "Ada Lovelace" "ada@example.com" "2025-07-25" "2025-07-28"
                hundred_dollar_confirmation
                (mkstore (HOTELS hundred_dollar_store) (ROOMS hundred_dollar_store)
                   [booking_confirmation hundred_dollar_confirmation]))
      as (room & d_in & d_out & Hroom & _ & _ & _ & _ & _ & _ & _ & Hwhole & _);
      [vm_compute; reflexivity|].
    injection Hroom as <-.
    apply (Hwhole 100); [exact Hundred|lia|reflexivity].
  - destruct (book_hotel hundred_dollar_store "9e4b" "hotel_h" "room_h_1"
                "Ada Lovelace" "ada@example.com" "2025-07-25" "2025-07-30")
      as [r st'] eqn:Hcall.
    assert (Hr : exists c, r = BookConfirmed c /\ nights c = 5
                           /\ Booking.total_price (booking_confirmation c) = 500%float).
    { vm_compute in Hcall. injection Hcall as <- _. eexists.
      split; [reflexivity|]. split; reflexivity. }
    destruct Hr as (c & -> & Hn & Hp).
    exists c, st'. split; [reflexivity|]. split; [exact Hn|]. split; [exact Hp|].
    destruct (booking_price _ _ _ _ _ _ _ _ _ _ Hcall)
      as (room & d_in & d_out & Hroom & _ & _ & _ & _ & _ & _ & _ & Hwhole & _).
    injection Hroom as <-. rewrite <- Hn.
    apply (Hwhole 100); [exact Hundred|lia|rewrite Hn; reflexivity].
Defined.

(** The conflict answer, in terms of the overlap predicate on date strings:
    it is given exactly when the earlier checks pass and the ledger holds an
    active booking of the room that the predicate reports, and it lists the
    ranges of all such bookings. *)
Lemma conflict_answer_iff st booking_id hotel_id room_id guest_name guest_email
  check_in check_out dates :
  fst (book_hotel st booking_id hotel_id room_id guest_name guest_email check_in check_out)
  = BookConflict "Room is not available for these dates due to existing bookings" dates
  <->
  (exists hotel room check_in_date check_out_date,
      find_hotel st hotel_id = Some hotel
      /\ find_room st room_id hotel_id = Some room
      /\ Room.available room = true
      /\ Datetime.strptime check_in = Some check_in_date
      /\ Datetime.strptime check_out = Some check_out_date
      /\ 0 < Datetime.days_between check_in_date check_out_date)
  /\ (exists b, In b (BOOKINGS st) /\ Booking.room_id b = room_id
                /\ active b = true /\ overlaps check_in check_out b = true)
  /\ dates = List.map conflict_range
               (conflicting_bookings (BOOKINGS st) room_id check_in check_out).
Proof.
  split.
  - intros Hcall.
    destruct (book_hotel_outcome st booking_id hotel_id room_id guest_name
                guest_email check_in check_out) as
      [ | | | | | hotel room d1 d2 Hh Hr Ha Hi Ho Hn Hc | ]; simpl in Hcall;
      try discriminate.
    injection Hcall as <-.
    split; [eauto 10|]. split; [|reflexivity].
    destruct (conflicting_bookings (BOOKINGS st) room_id check_in check_out)
      as [|b bs] eqn:Hconf; [congruence|].
    exists b. apply in_conflicting_bookings. rewrite Hconf. now left.
  - intros [(hotel & room & d1 & d2 & Hh & Hr & Ha & Hi & Ho & Hn)
              [(b & Hb) ->]].
    apply in_conflicting_bookings in Hb.
    unfold book_hotel. rewrite Hh, Hr, Ha, Hi, Ho. simpl.
    destruct (Z.leb_spec (Datetime.days_between d1 d2) 0) as [Hle|_]; [lia|].
    destruct (conflicting_bookings (BOOKINGS st) room_id check_in check_out);
      [destruct Hb | reflexivity].
Qed.

(** No booking that checks out on the requested check-in day is a conflict. *)
Lemma no_conflict_after_check_out bookings room_id D check_out :
  (forall b, In b bookings -> Booking.room_id b = room_id -> active b = true ->
             Booking.check_out b = D) ->
  conflicting_bookings bookings room_id D check_out = [].
Proof.
  intros Hends.
  destruct (conflicting_bookings bookings room_id D check_out) as [|b bs] eqn:Hconf;
    [reflexivity|].
  assert (Hb : In b (conflicting_bookings bookings room_id D check_out))
    by (rewrite Hconf; now left).
  apply in_conflicting_bookings in Hb as (Hin & Hroom & Hactive & Hover).
  unfold overlaps in Hover. rewrite (Hends b Hin Hroom Hactive) in Hover.
  unfold ranges_overlap in Hover. rewrite ge_same, orb_true_r in Hover.
  discriminate.
Qed.

(** The rooms [check_availability] lists. *)
Lemma in_available_rooms st hotel_id check_in check_out guests r room :
  check_availability st hotel_id check_in check_out guests = Availability r ->
  In room (available_rooms r) <->
  In room (ROOMS st) /\ Room.hotel_id room = hotel_id
  /\ Room.available room = true /\ guests <= Room.capacity room
  /\ conflicting_bookings (BOOKINGS st) (Room.id room) check_in check_out = [].
Proof.
  unfold check_availability.
  destruct (find_hotel st hotel_id); [|discriminate].
  intros [= <-]. simpl.
  rewrite filter_In, !andb_true_iff, String.eqb_eq, Z.leb_le.
  destruct (conflicting_bookings _ _ _ _); intuition discriminate.
Qed.

(** The overlap predicate is half-open on the date strings.  Ranges [a, b)
    and [c, d) overlap unless [b <= c] or [a >= d]; so a request whose
    check-in is the very string D a booking has as its check-out, or whose
    check-out is the string a booking has as its check-in, never has that
    booking among its conflicts, on any room and in any ledger.  Hence, when
    the active bookings of a room all have the string D as check-out, a
    valid request for the room from D on is not answered with a conflict by
    [book_hotel], and [check_availability] lists the room.  With booking A =
    [2025-07-25, 2025-07-27) on the room, the request
    [2025-07-27, 2025-07-29) is confirmed by [book_hotel] and the room is
    among the rooms [check_availability] returns. *)
Theorem half_open_exclusive :
  (forall a b c d,
      ranges_overlap a b c d = false <-> PyStr.le b c = true \/ PyStr.ge a d = true)
  /\ (forall b check_out, overlaps (Booking.check_out b) check_out b = false)
  /\ (forall b check_in, overlaps check_in (Booking.check_in b) b = false)
  /\ (forall bookings room_id b check_out,
         ~ In b (conflicting_bookings bookings room_id (Booking.check_out b) check_out))
  /\ (forall bookings room_id b check_in,
         ~ In b (conflicting_bookings bookings room_id check_in (Booking.check_in b)))
  /\ (forall st booking_id hotel_id room_id guest_name guest_email D check_out
             hotel room check_in_date check_out_date,
         find_hotel st hotel_id = Some hotel ->
         find_room st room_id hotel_id = Some room ->
         Room.available room = true ->
         Datetime.strptime D = Some check_in_date ->
         Datetime.strptime check_out = Some check_out_date ->
         0 < Datetime.days_between check_in_date check_out_date ->
         (forall b, In b (BOOKINGS st) -> Booking.room_id b = room_id ->
                    active b = true -> Booking.check_out b = D) ->
         is_error
           (fst (book_hotel st booking_id hotel_id room_id guest_name guest_email
                   D check_out)) = false)
  /\ (forall st hotel_id D check_out guests room,
         find_hotel st hotel_id <> None ->
         In room (ROOMS st) -> Room.hotel_id room = hotel_id ->
         Room.available room = true -> guests <= Room.capacity room ->
         (forall b, In b (BOOKINGS st) -> Booking.room_id b = Room.id room ->
                    active b = true -> Booking.check_out b = D) ->
         exists r,
           check_availability st hotel_id D check_out guests = Availability r
           /\ In room (available_rooms r))
  /\ (exists A, In A (BOOKINGS store_with_booking_A)
                /\ Booking.room_id A = "room_1_2" /\ active A = true
                /\ Booking.check_in A = "2025-07-25"
                /\ Booking.check_out A = "2025-07-27")
  /\ is_error
       (fst (book_hotel store_with_booking_A "0b7e" "hotel_1" "room_1_2" "Bob"
               "bob@example.com" "2025-07-27" "2025-07-29")) = false
  /\ (exists r,
         check_availability store_with_booking_A "hotel_1" "2025-07-27" "2025-07-29" 2
         = Availability r
         /\ existsb (fun room => String.eqb (Room.id room) "room_1_2")
              (available_rooms r) = true).
Proof.
  assert (Hout : forall b check_out, overlaps (Booking.check_out b) check_out b = false).
  { intros b check_out. unfold overlaps. apply ranges_overlap_false.
    right. apply ge_same. }
  assert (Hin : forall b check_in, overlaps check_in (Booking.check_in b) b = false).
  { intros b check_in. unfold overlaps. apply ranges_overlap_false.
    left. apply le_same. }
  split; [intros; apply ranges_overlap_false|].
  split; [exact Hout|]. split; [exact Hin|].
  split; [|split; [|split; [|split; [|split; [|split]]]]].
  - intros bookings room_id b check_out H.
    apply in_conflicting_bookings in H. rewrite Hout in H.
    destruct H as (_ & _ & _ & H). discriminate.
  - intros bookings room_id b check_in H.
    apply in_conflicting_bookings in H. rewrite Hin in H.
    destruct H as (_ & _ & _ & H). discriminate.
  - intros st booking_id hotel_id room_id guest_name guest_email D check_out
      hotel room d1 d2 Hh Hr Ha Hi Ho Hn Hends.
    unfold book_hotel. rewrite Hh, Hr, Ha, Hi, Ho. simpl.
    destruct (Z.leb_spec (Datetime.days_between d1 d2) 0); [lia|].
    rewrite (no_conflict_after_check_out _ _ _ _ Hends). reflexivity.
  - intros st hotel_id D check_out guests room Hh Hroom Hhotel Ha Hcap Hends.
    destruct (check_availability st hotel_id D check_out guests) as [e|r] eqn:Hcall.
    + unfold check_availability in Hcall.
      destruct (find_hotel st hotel_id); [discriminate|contradiction].
    + exists r. split; [reflexivity|].
      apply (in_available_rooms _ _ _ _ _ _ _ Hcall).
      repeat split; try assumption.
      now apply no_conflict_after_check_out.
  - eexists. split; [vm_compute; do 5 right; left; reflexivity|].
    repeat split.
  - vm_compute. reflexivity.
  - eexists. split; vm_compute; reflexivity.
Qed.

(** The example of the specification through the general statement: the
    only active booking of [room_1_2] is booking A, which checks out on
    2025-07-27. *)
Lemma half_open_exclusive_witness :
  is_error
    (fst (book_hotel store_with_booking_A "0b7e" "hotel_1" "room_1_2" "Bob"
            "bob@example.com" "2025-07-27" "2025-07-29")) = false.
Proof.
  eapply (proj1 (proj2 (proj2 (proj2 (proj2 (proj2 half_open_exclusive)))))
            store_with_booking_A "0b7e" "hotel_1" "room_1_2" "Bob"
            "bob@example.com" "2025-07-27" "2025-07-29").
  - vm_compute. reflexivity.
  - vm_compute. reflexivity.
  - reflexivity.
  - vm_compute. reflexivity.
  - vm_compute. reflexivity.
  - vm_compute. reflexivity.
  - intros b Hin Hroom Hactive. vm_compute in Hin.
    repeat (destruct Hin as [<-|Hin]; [try discriminate Hroom; try reflexivity|]).
    destruct Hin.
Defined.

(** C2. The check-out day is not always free.  The same day can be written
    in two ways that [strptime] both accepts, ["2025-7-27"] and
    ["2025-07-27"], and the overlap predicate compares the strings.  On the
    initial data, [book_hotel] confirms a stay in [room_1_2] from
    ["2025-07-25"] to ["2025-7-27"]; it is then the only active booking of
    the room and it checks out on 27 July 2025.  A request for the room
    from ["2025-07-27"] to ["2025-07-29"], which checks in on that day, is
    answered by [book_hotel] with the conflict error, listing the stay, and
    [check_availability] leaves the room out. *)
Theorem check_out_day_blocked_by_spelling :
  is_error
    (fst (book_hotel initial_store "3d5a7c2e-91b4-4f6a-8e0d-5b2c7a9f1e44"
            "hotel_1" "room_1_2" "Ada Lovelace" "ada@example.com"
            "2025-07-25" "2025-7-27")) = false
  /\ (exists A, In A (BOOKINGS store_with_unpadded_check_out)
                /\ Booking.room_id A = "room_1_2" /\ active A = true
                /\ Booking.check_in A = "2025-07-25"
                /\ Booking.check_out A = "2025-7-27")
  /\ (forall b, In b (BOOKINGS store_with_unpadded_check_out) ->
                Booking.room_id b = "room_1_2" -> active b = true ->
                Datetime.strptime (Booking.check_out b)
                = Some (Datetime.mkdate 2025 7 27))
  /\ Datetime.strptime "2025-07-27" = Some (Datetime.mkdate 2025 7 27)
  /\ Datetime.strptime "2025-07-29" = Some (Datetime.mkdate 2025 7 29)
  /\ book_hotel store_with_unpadded_check_out "0b7e" "hotel_1" "room_1_2" "Bob"
       "bob@example.com" "2025-07-27" "2025-07-29"
     = (BookConflict "Room is not available for these dates due to existing bookings"
          ["2025-07-25 to 2025-7-27"],
        store_with_unpadded_check_out)
  /\ (exists r,
         check_availability store_with_unpadded_check_out "hotel_1" "2025-07-27"
           "2025-07-29" 2
         = Availability r
         /\ existsb (fun room => String.eqb (Room.id room) "room_1_2")
              (available_rooms r) = false).
Proof.
  split; [vm_compute; reflexivity|].
  split.
  { eexists. split; [vm_compute; do 5 right; left; reflexivity|]. repeat split. }
  split.
  { intros b Hb Hroom _. vm_compute in Hb.
    repeat (destruct Hb as [<-|Hb]; [try discriminate Hroom|]);
      [vm_compute; reflexivity|destruct Hb]. }
  split; [vm_compute; reflexivity|].
  split; [vm_compute; reflexivity|].
  split; [vm_compute; reflexivity|].
  eexists. split; vm_compute; reflexivity.
Qed.

(** C1, at the failing input.  Booking A = [2025-07-25, 2025-07-27) is active
    on [room_1_2].  A request for the same room from July 26 to July 28 is
    refused with the conflict answer when the dates are written
    ["2025-07-26"] and ["2025-07-28"].  Written ["2025-7-26"] and
    ["2025-7-28"] the same two days pass the format check ([strptime] takes a
    month without the leading zero), the stay is priced at two nights, but
    the overlap predicate compares the strings, where ["2025-7-26"] sorts
    after ["2025-07-27"]: no conflict is found and the room is booked twice
    for the night of July 26 (day 739458), which the two stays share. *)
Theorem unpadded_request_double_books :
  let padded :=
    book_hotel store_with_booking_A "0b7e" "hotel_1" "room_1_2" "Bob"
      "bob@example.com" "2025-07-26" "2025-07-28" in
  let unpadded :=
    book_hotel store_with_booking_A "0b7e" "hotel_1" "room_1_2" "Bob"
      "bob@example.com" "2025-7-26" "2025-7-28" in
  Datetime.strptime "2025-7-26" = Datetime.strptime "2025-07-26"
  /\ Datetime.strptime "2025-7-28" = Datetime.strptime "2025-07-28"
  /\ fst padded
     = BookConflict "Room is not available for these dates due to existing bookings"
         ["2025-07-25 to 2025-07-27"]
  /\ snd padded = store_with_booking_A
  /\ share_a_night
       (Datetime.mkdate 2025 7 25) (Datetime.mkdate 2025 7 27)
       (Datetime.mkdate 2025 7 26) (Datetime.mkdate 2025 7 28)
  /\ PyStr.ge "2025-7-26" "2025-07-27" = true
  /\ (exists c, fst unpadded = BookConfirmed c /\ nights c = 2)
  /\ List.map (fun b => (Booking.room_id b, Booking.status b,
                         option_map Datetime.toordinal (Datetime.strptime (Booking.check_in b)),
                         option_map Datetime.toordinal (Datetime.strptime (Booking.check_out b))))
       (skipn 5 (BOOKINGS (snd unpadded)))
     = [("room_1_2", "confirmed", Some 739457, Some 739459);
        ("room_1_2", "confirmed", Some 739458, Some 739460)].
Proof.
  cbv zeta. repeat apply conj; try (vm_compute; reflexivity).
  - exists 739458. vm_compute. intuition discriminate.
  - eexists. split; vm_compute; reflexivity.
Qed.

(** *** [book_hotel] on padded dates *)

Lemma initial_ledger_padded : ledger_padded initial_store.
Proof.
  unfold ledger_padded. simpl.
  repeat (apply List.Forall_cons;
          [eexists; eexists; split; [split; [vm_compute; reflexivity|reflexivity]|];
           split; [split; [vm_compute; reflexivity|reflexivity]|];
           vm_compute; reflexivity|]).
  apply List.Forall_nil.
Qed.

(** Bookings made from padded dates keep the ledger padded. *)
Lemma book_hotel_keeps_ledger_padded st booking_id hotel_id room_id guest_name
  guest_email check_in check_out d_in d_out :
  ledger_padded st ->
  padded check_in d_in -> padded check_out d_out ->
  ledger_padded
    (snd (book_hotel st booking_id hotel_id room_id guest_name guest_email
            check_in check_out)).
Proof.
  intros Hledger Hin Hout.
  destruct (book_hotel_outcome st booking_id hotel_id room_id guest_name
              guest_email check_in check_out)
    as [ | | | | | | hotel room d1 d2 Hh Hr Ha Hi Ho Hn Hc]; try assumption.
  unfold ledger_padded in *. simpl. apply List.Forall_app. split; [assumption|].
  constructor; [|constructor].
  exists d_in, d_out. simpl. repeat split; try apply Hin; try apply Hout.
  destruct Hin as [Hin _], Hout as [Hout _].
  assert (d1 = d_in) as -> by congruence.
  assert (d2 = d_out) as -> by congruence.
  unfold Datetime.days_between in Hn. lia.
Qed.

(** C1 on padded dates: with a padded ledger and a padded request that passes
    the earlier checks, the conflict answer is given exactly when an active
    booking of the room shares a night with the requested stay. *)
Lemma conflict_iff_shared_night_when_padded st booking_id hotel_id room_id
  guest_name guest_email check_in check_out hotel room d_in d_out :
  find_hotel st hotel_id = Some hotel ->
  find_room st room_id hotel_id = Some room ->
  Room.available room = true ->
  ledger_padded st ->
  padded check_in d_in -> padded check_out d_out ->
  Datetime.toordinal d_in < Datetime.toordinal d_out ->
  (exists dates,
      fst (book_hotel st booking_id hotel_id room_id guest_name guest_email
             check_in check_out)
      = BookConflict "Room is not available for these dates due to existing bookings"
          dates)
  <->
  (exists b b_in b_out,
      In b (BOOKINGS st) /\ Booking.room_id b = room_id
      /\ (Booking.status b = "confirmed" \/ Booking.status b = "pending")
      /\ Datetime.strptime (Booking.check_in b) = Some b_in
      /\ Datetime.strptime (Booking.check_out b) = Some b_out
      /\ share_a_night d_in d_out b_in b_out).
Proof.
  intros Hh Hr Ha Hledger Hin Hout Hnights.
  unfold ledger_padded in Hledger. rewrite List.Forall_forall in Hledger.
  split.
  - intros [dates Hcall].
    apply conflict_answer_iff in Hcall as (_ & (b & Hb & Hroom & Hact & Hover) & _).
    destruct (Hledger b Hb) as (b_in & b_out & Hbin & Hbout & Hstay).
    exists b, b_in, b_out. repeat split; try assumption.
    + now apply active_iff.
    + apply Hbin.
    + apply Hbout.
    + apply share_a_night_iff; try assumption.
      unfold overlaps in Hover.
      now apply (ranges_overlap_padded _ _ _ _ _ _ _ _ Hin Hout Hbin Hbout).
  - intros (b & b_in & b_out & Hb & Hroom & Hstatus & Hpin & Hpout & Hshare).
    eexists. apply conflict_answer_iff. split; [|split; [|reflexivity]].
    + exists hotel, room, d_in, d_out. repeat split; try assumption.
      * apply Hin.
      * apply Hout.
      * unfold Datetime.days_between. lia.
    + exists b. repeat split; try assumption; [now apply active_iff|].
      destruct (Hledger b Hb) as (b_in' & b_out' & Hbin & Hbout & Hstay).
      assert (b_in' = b_in) as -> by (destruct Hbin; congruence).
      assert (b_out' = b_out) as -> by (destruct Hbout; congruence).
      unfold overlaps.
      apply (ranges_overlap_padded _ _ _ _ _ _ _ _ Hin Hout Hbin Hbout).
      now apply share_a_night_iff.
Qed.

(** ** [cancel_booking] *)

Lemma find_update_first {A : Type} (p : A -> bool) (f : A -> A) (l : list A) x :
  (forall y, p (f y) = p y) ->
  List.find p l = Some x ->
  List.find p (update_first p f l) = Some (f x).
Proof.
  intros Hp. induction l as [|y l IH]; simpl; [discriminate|].
  destruct (p y) eqn:Hy; simpl.
  - intros [= ->]. rewrite Hp, Hy. reflexivity.
  - rewrite Hy. exact IH.
Qed.

Lemma find_booking_unique st b :
  List.NoDup (List.map Booking.id (BOOKINGS st)) ->
  In b (BOOKINGS st) ->
  find_booking st (Booking.id b) = Some b.
Proof.
  unfold find_booking. induction (BOOKINGS st) as [|b' l IH]; simpl.
  - intros _ [].
  - intros Hnd Hin. apply NoDup_cons_iff in Hnd as [Hfresh Hnd].
    destruct (String.eqb_spec (Booking.id b') (Booking.id b)) as [Heq|Hne].
    + destruct Hin as [->|Hin]; [reflexivity|].
      exfalso. apply Hfresh. rewrite Heq. now apply in_map.
    + destruct Hin as [->|Hin]; [congruence|]. now apply IH.
Qed.

Lemma find_booking_none st booking_id :
  (forall b, In b (BOOKINGS st) -> Booking.id b <> booking_id) ->
  find_booking st booking_id = None.
Proof.
  intros Hnone. unfold find_booking.
  destruct (List.find _ (BOOKINGS st)) as [b|] eqn:Hfind; [|reflexivity].
  apply find_some in Hfind as [Hin Hid].
  apply String.eqb_eq in Hid. now apply Hnone in Hin.
Qed.

Lemma cancel_cancelled st booking_id booking :
  find_booking st booking_id = Some booking ->
  Booking.status booking = "cancelled" ->
  cancel_booking st booking_id = (CancelError "Booking is already cancelled", st).
Proof.
  intros Hfind Hstatus. unfold cancel_booking.
  rewrite Hfind, Hstatus. reflexivity.
Qed.

(** C6. Cancelling is guarded.  (1) For a booking of the ledger whose status
    is already ["cancelled"] (ids being unique), [cancel_booking] on its id
    answers [{"error": "Booking is already cancelled"}] and the store is the
    same afterwards: the status stays, the answer carries no refund, no room
    flag moves.  (2) Hence a second cancellation right after a successful
    one is refused and changes nothing, whatever the ledger.  (3) An id that
    no booking has is answered [{"error": "Booking not found"}], the store
    unchanged. *)
Theorem cancel_is_guarded :
  (forall st b,
      List.NoDup (List.map Booking.id (BOOKINGS st)) ->
      In b (BOOKINGS st) ->
      Booking.status b = "cancelled" ->
      cancel_booking st (Booking.id b)
      = (CancelError "Booking is already cancelled", st))
  /\ (forall st booking_id r st1,
         cancel_booking st booking_id = (Cancelled r, st1) ->
         cancel_booking st1 booking_id
         = (CancelError "Booking is already cancelled", st1))
  /\ (forall st booking_id,
         (forall b, In b (BOOKINGS st) -> Booking.id b <> booking_id) ->
         cancel_booking st booking_id = (CancelError "Booking not found", st)).
Proof.
  split; [|split].
  - intros st b Hnd Hin Hstatus.
    apply cancel_cancelled with (booking := b); [|assumption].
    now apply find_booking_unique.
  - intros st booking_id r st1 Hcall.
    unfold cancel_booking in Hcall.
    destruct (find_booking st booking_id) as [booking|] eqn:Hfind; [|discriminate].
    destruct (String.eqb (Booking.status booking) "cancelled"); [discriminate|].
    injection Hcall as _ <-.
    apply cancel_cancelled with (booking := Booking.set_status "cancelled" booking);
      [|reflexivity].
    unfold find_booking in *. simpl.
    apply find_update_first; [|assumption].
    intros y. reflexivity.
  - intros st booking_id Hnone. unfold cancel_booking.
    rewrite (find_booking_none st booking_id Hnone). reflexivity.
Qed.

(** On the initial data: [booking_001] once cancelled cannot be cancelled
    again, and [booking_999] does not exist. *)
Lemma cancel_is_guarded_witness :
  cancel_booking store_cancelled_once (Booking.id cancelled_booking_001)
  = (CancelError "Booking is already cancelled", store_cancelled_once)
  /\ cancel_booking store_cancelled_once "booking_001"
     = (CancelError "Booking is already cancelled", store_cancelled_once)
  /\ cancel_booking initial_store "booking_999"
     = (CancelError "Booking not found", initial_store).
Proof.
  split; [|split].
  - apply (proj1 cancel_is_guarded store_cancelled_once cancelled_booking_001).
    + vm_compute. repeat constructor; simpl; intuition discriminate.
    + vm_compute. left. reflexivity.
    + reflexivity.
  - eapply (proj1 (proj2 cancel_is_guarded) initial_store "booking_001").
    vm_compute. reflexivity.
  - apply (proj2 (proj2 cancel_is_guarded) initial_store "booking_999").
    intros b Hin. vm_compute in Hin.
    repeat (destruct Hin as [<-|Hin]; [discriminate|]). destruct Hin.
Defined.

(** ** [search_hotels] *)

Lemma append_String c (s t : string) :
  String.append (String c s) t = String c (String.append s t).
Proof. reflexivity. Qed.

Lemma append_Empty (t : string) : String.append EmptyString t = t.
Proof. reflexivity. Qed.

Lemma prefix_iff (s1 s2 : string) :
  String.prefix s1 s2 = true <-> exists post, s2 = String.append s1 post.
Proof.
  revert s2. induction s1 as [|a s1 IH]; intros s2; simpl.
  - split; [|destruct s2; reflexivity]. intros _. exists s2. reflexivity.
  - destruct s2 as [|b s2]; simpl.
    + split; [discriminate|]. intros [post H]. discriminate.
    + destruct (ascii_dec a b) as [->|Hne].
      * rewrite IH. split; intros [post H]; exists post;
          rewrite append_String in *; congruence.
      * split; [discriminate|]. intros [post H].
        rewrite append_String in H. congruence.
Qed.

Lemma contains_Empty (sub : string) :
  PyStr.contains sub EmptyString = String.prefix sub EmptyString.
Proof. simpl. apply orb_false_r. Qed.

Lemma contains_String (sub : string) c (s : string) :
  PyStr.contains sub (String c s)
  = String.prefix sub (String c s) || PyStr.contains sub s.
Proof. reflexivity. Qed.

(** [sub in s] is the substring test. *)
Lemma contains_iff (sub s : string) :
  PyStr.contains sub s = true <-> is_substring sub s.
Proof.
  unfold is_substring. induction s as [|c s IH].
  - rewrite contains_Empty, prefix_iff. split.
    + intros [post H]. exists EmptyString, post. exact H.
    + intros ([|c pre] & post & H); [eauto|discriminate].
  - rewrite contains_String, orb_true_iff, prefix_iff, IH. split.
    + intros [[post H]|(pre & post & H)].
      * exists EmptyString, post. exact H.
      * exists (String c pre), post. rewrite append_String. congruence.
    + intros ([|c' pre] & post & H).
      * left. eauto.
      * right. rewrite append_String in H. injection H as _ H. eauto.
Qed.

Lemma in_parse_amenities amenities term :
  In term (parse_amenities amenities) <->
  exists raw, In raw (PyStr.split "," amenities)
              /\ PyStr.strip raw <> EmptyString
              /\ term = PyStr.lower (PyStr.strip raw).
Proof.
  unfold parse_amenities. rewrite in_map_iff. split.
  - intros (raw & <- & Hraw). apply filter_In in Hraw as [Hin Htruthy].
    exists raw. repeat split; [assumption|].
    intros Hempty. rewrite Hempty in Htruthy. discriminate.
  - intros (raw & Hin & Hne & ->). exists raw. split; [reflexivity|].
    apply filter_In. split; [assumption|].
    destruct (PyStr.strip raw); [congruence|reflexivity].
Qed.

Lemma amenity_match_iff amenity_list hotel :
  amenity_match amenity_list hotel = true <->
  exists term tag, In term amenity_list /\ In tag (Hotel.amenities hotel)
                   /\ is_substring term (PyStr.lower tag).
Proof.
  unfold amenity_match. rewrite existsb_exists. split.
  - intros (term & Hterm & Hany). apply existsb_exists in Hany as (low & Hlow & Hsub).
    apply in_map_iff in Hlow as (tag & <- & Htag).
    exists term, tag. rewrite <- contains_iff. auto.
  - intros (term & tag & Hterm & Htag & Hsub). exists term. split; [assumption|].
    apply existsb_exists. exists (PyStr.lower tag).
    rewrite contains_iff. split; [now apply in_map|assumption].
Qed.

(** The answer lists, in inventory order, the hotels the loop body keeps. *)
Lemma in_search_hotels st location min_rating max_price amenities hotel :
  In hotel (hotels (search_hotels st location min_rating max_price amenities)) <->
  In hotel (HOTELS st)
  /\ hotel_kept location min_rating max_price (parse_amenities amenities) hotel = true.
Proof. unfold search_hotels. simpl. apply filter_In. Qed.

(** C7. The amenity filter is an OR over the requested terms, each a
    case-insensitive substring test.  When the comma-separated request yields
    at least one term, a hotel of the inventory that passes the location,
    rating and price tests is in the answer of [search_hotels] if and only
    if some requested term (stripped and lowercased) occurs in some amenity
    tag of the hotel (lowercased).  One matching term is enough: the others
    need not match anything. *)
Theorem amenity_filter_is_any_substring st location min_rating max_price
  amenities hotel :
  parse_amenities amenities <> [] ->
  In hotel (HOTELS st) ->
  location_ok location hotel = true ->
  PrimFloat.ltb (Hotel.rating hotel) min_rating = false ->
  PrimFloat.ltb max_price (Hotel.price_per_night hotel) = false ->
  In hotel (hotels (search_hotels st location min_rating max_price amenities))
  <->
  exists raw tag,
    In raw (PyStr.split "," amenities) /\ PyStr.strip raw <> EmptyString
    /\ In tag (Hotel.amenities hotel)
    /\ is_substring (PyStr.lower (PyStr.strip raw)) (PyStr.lower tag).
Proof.
  intros Hterms Hin Hloc Hrating Hprice.
  rewrite in_search_hotels. unfold hotel_kept.
  rewrite Hloc, Hrating, Hprice. simpl.
  destruct (parse_amenities amenities) as [|t ts] eqn:Hparse; [congruence|].
  rewrite amenity_match_iff, <- Hparse. split.
  - intros (_ & term & tag & Hterm & Htag & Hsub).
    apply in_parse_amenities in Hterm as (raw & Hraw & Hne & ->).
    exists raw, tag. auto.
  - intros (raw & tag & Hraw & Hne & Htag & Hsub). split; [assumption|].
    exists (PyStr.lower (PyStr.strip raw)), tag. repeat split; try assumption.
    apply in_parse_amenities. eauto.
Qed.

(** The example of the specification: amenities ["Beach Access", "Pool"],
    request ["spa,beach"]: the hotel is returned, for ["beach"]; ["spa"] is
    in no tag. *)
Lemma amenity_filter_is_any_substring_witness :
  In beach_pool_hotel
    (hotels (search_hotels beach_pool_store EmptyString 0%float 1000%float "spa,beach"))
  /\ parse_amenities "spa,beach" = ["spa"; "beach"]
  /\ List.forallb (fun tag => negb (PyStr.contains "spa" (PyStr.lower tag)))
       (Hotel.amenities beach_pool_hotel) = true.
Proof.
  split; [|split; reflexivity].
  apply (amenity_filter_is_any_substring beach_pool_store EmptyString 0%float 1000%float
           "spa,beach" beach_pool_hotel).
  - discriminate.
  - left. reflexivity.
  - reflexivity.
  - reflexivity.
  - reflexivity.
  - exists "beach", "Beach Access".
    split; [right; left; reflexivity|].
    split; [discriminate|].
    split; [left; reflexivity|].
    exists EmptyString, " access". reflexivity.
Defined.

(** ** The workflow gate *)

Section Gate.
Import Workflow.

Lemma should_proceed_to_booking_cases state :
  should_proceed_to_booking state = "book"
  \/ should_proceed_to_booking state = "end"
  \/ should_proceed_to_booking state = "error".
Proof.
  unfold should_proceed_to_booking.
  destruct (PyStr.truthy (error_message state)); [auto|].
  destruct (_ && _); auto.
Qed.

Lemma should_proceed_to_booking_book state :
  should_proceed_to_booking state = "book" <->
  error_message state = EmptyString
  /\ selected_hotel state <> ∅
  /\ truthy (get "name" (guest_info state)) = true
  /\ truthy (get "email" (guest_info state)) = true.
Proof.
  unfold should_proceed_to_booking.
  destruct (error_message state) as [|c msg]; simpl.
  - destruct (bool_decide_reflect (selected_hotel state = ∅)) as [Hempty|Hsome];
      simpl.
    + split; [discriminate|]. intros (_ & H & _). contradiction.
    + destruct (truthy (get "name" (guest_info state))); simpl;
        [|split; [discriminate|]; intros (_ & _ & H & _); discriminate].
      destruct (truthy (get "email" (guest_info state))); simpl;
        [|split; [discriminate|]; intros (_ & _ & _ & H); discriminate].
      split; auto.
  - split; [discriminate|]. intros (H & _). discriminate.
Qed.

(** No node writes [guest_info]. *)
Lemma node_keeps_guest_info n s s' :
  node_returns n s s' -> guest_info s' = guest_info s.
Proof. intros H. destruct H; reflexivity. Qed.

(** Only [booking_executor] writes [booking_result]. *)
Lemma node_keeps_booking_result n s s' :
  node_returns n s s' -> n <> booking_executor ->
  booking_result s' = booking_result s.
Proof. intros H Hn. destruct H; try reflexivity; contradiction. Qed.

(** The only edge into [booking_executor] is the label ["book"] of the
    router after [availability_checker]. *)
Lemma edge_into_booking_executor n state :
  next_position n state = Some (At booking_executor) ->
  n = availability_checker /\ should_proceed_to_booking state = "book".
Proof.
  destruct n; simpl; try discriminate.
  - unfold should_search_hotels.
    destruct (PyStr.truthy _); [discriminate|].
    destruct (truthy _); discriminate.
  - unfold should_check_availability.
    destruct (PyStr.truthy _); [discriminate|].
    destruct (truthy _); discriminate.
  - intros H. split; [reflexivity|].
    destruct (should_proceed_to_booking_cases state) as [Hb|[He|He]];
      [assumption| |]; rewrite He in H; discriminate.
Qed.

Lemma gate_invariant s0 c :
  truthy (get "name" (guest_info s0)) = false
  \/ truthy (get "email" (guest_info s0)) = false ->
  reaches (At entry_point, s0) c ->
  fst c <> At booking_executor
  /\ guest_info (snd c) = guest_info s0
  /\ booking_result (snd c) = booking_result s0.
Proof.
  intros Hlacks Hrun.
  remember (At entry_point, s0) as c0 eqn:Hc0.
  induction Hrun as [c|c1 c2 c3 Hrun IH Hstep]; subst.
  - simpl. repeat split. discriminate.
  - destruct (IH eq_refl) as (Hpos & Hguest & Hresult). clear IH.
    destruct Hstep as [n s s' p Hnode Hnext]. simpl in *.
    pose proof (node_keeps_guest_info _ _ _ Hnode) as Hkeep.
    split; [|split].
    + intros ->. apply edge_into_booking_executor in Hnext as [_ Hbook].
      apply should_proceed_to_booking_book in Hbook as (_ & _ & Hname & Hemail).
      rewrite Hkeep, Hguest in Hname, Hemail.
      destruct Hlacks; congruence.
    + congruence.
    + rewrite <- Hresult. apply (node_keeps_booking_result n); [assumption|].
      congruence.
Qed.

End Gate.

(** C9. The booking gate.  [should_proceed_to_booking] answers ["book"],
    ["end"] or ["error"], and ["book"] exactly when no error message is set,
    a selected hotel is present, and [guest_info] holds a non-empty name and
    a non-empty email.  Since no node writes [guest_info] and ["book"] is
    the only edge into [booking_executor], a run started with a
    [guest_info] that lacks a name or lacks an email never stands at
    [booking_executor], whatever the collaborators return (any hotels, any
    availability), and its [booking_result] is never written.  The
    search-only workflow starts with an empty [guest_info], so none of its
    runs reaches [booking_executor]. *)
Theorem booking_gate :
  (forall state,
      Workflow.should_proceed_to_booking state = "book"
      \/ Workflow.should_proceed_to_booking state = "end"
      \/ Workflow.should_proceed_to_booking state = "error")
  /\ (forall state,
         Workflow.should_proceed_to_booking state = "book" <->
         Workflow.error_message state = EmptyString
         /\ Workflow.selected_hotel state <> ∅
         /\ Workflow.truthy (Workflow.get "name" (Workflow.guest_info state)) = true
         /\ Workflow.truthy (Workflow.get "email" (Workflow.guest_info state)) = true)
  /\ (forall s0 p s,
         Workflow.truthy (Workflow.get "name" (Workflow.guest_info s0)) = false
         \/ Workflow.truthy (Workflow.get "email" (Workflow.guest_info s0)) = false ->
         Workflow.reaches (Workflow.At Workflow.entry_point, s0) (p, s) ->
         p <> Workflow.At Workflow.booking_executor
         /\ Workflow.booking_result s = Workflow.booking_result s0)
  /\ (forall user_query p s,
         Workflow.reaches
           (Workflow.At Workflow.entry_point, Workflow.search_initial_state user_query)
           (p, s) ->
         p <> Workflow.At Workflow.booking_executor).
Proof.
  split; [exact should_proceed_to_booking_cases|].
  split; [exact should_proceed_to_booking_book|].
  split.
  - intros s0 p s Hlacks Hrun.
    destruct (gate_invariant s0 (p, s) Hlacks Hrun) as (Hpos & _ & Hresult).
    auto.
  - intros user_query p s Hrun.
    apply (gate_invariant (Workflow.search_initial_state user_query) (p, s));
      [|assumption].
    left. reflexivity.
Qed.

(** A search-only run on which the gate is exercised: the search returns one
    hotel, the availability check completes and selects it, and the run ends
    there. *)
Lemma booking_gate_witness :
  Workflow.reaches (Workflow.At Workflow.entry_point, SearchRun.s0)
    (Workflow.END, SearchRun.s4)
  /\ Workflow.selected_hotel SearchRun.s4 <> ∅
  /\ Workflow.END <> Workflow.At Workflow.booking_executor
  /\ Workflow.booking_result SearchRun.s4 = Workflow.booking_result SearchRun.s0.
Proof.
  assert (Hrun : Workflow.reaches (Workflow.At Workflow.entry_point, SearchRun.s0)
                   (Workflow.END, SearchRun.s4)).
  { eapply Workflow.reaches_step.
    eapply Workflow.reaches_step.
    eapply Workflow.reaches_step.
    eapply Workflow.reaches_step.
    apply Workflow.reaches_refl.
    - apply Workflow.step_node with (s' := SearchRun.s1);
        [apply Workflow.date_extraction_complete | reflexivity].
    - apply Workflow.step_node with (s' := SearchRun.s2);
        [apply Workflow.query_analysis_complete | vm_compute; reflexivity].
    - apply Workflow.step_node with (s' := SearchRun.s3);
        [apply Workflow.hotel_search_complete | vm_compute; reflexivity].
    - apply Workflow.step_node with (s' := SearchRun.s4).
      + eapply Workflow.availability_check_complete. vm_compute. reflexivity.
      + vm_compute. reflexivity. }
  split; [exact Hrun|].
  split; [vm_compute; discriminate|].
  apply (proj1 (proj2 (proj2 booking_gate)) SearchRun.s0 Workflow.END SearchRun.s4).
  - left. reflexivity.
  - exact Hrun.
Defined.

(** ** [get_booking_statistics] *)

(** *** The stable sort *)

Lemma insert_desc_perm x l : Permutation (insert_desc x l) (x :: l).
Proof.
  induction l as [|y l IH]; simpl; [reflexivity|].
  destruct (snd x <? snd y); [|reflexivity].
  rewrite IH. apply perm_swap.
Qed.

Lemma sorted_by_count_desc_perm items :
  Permutation (sorted_by_count_desc items) items.
Proof.
  induction items as [|x items IH]; simpl; [reflexivity|].
  rewrite insert_desc_perm. now apply perm_skip.
Qed.

Lemma insert_desc_sorted x l :
  by_count_desc l -> by_count_desc (insert_desc x l).
Proof.
  unfold by_count_desc. induction l as [|y l IH]; simpl; intros Hs.
  - constructor; constructor.
  - apply StronglySorted_inv in Hs as [Hs Hy].
    destruct (Z.ltb_spec (snd x) (snd y)) as [Hlt|Hge].
    + constructor; [now apply IH|].
      rewrite List.Forall_forall in *. intros z Hz.
      apply (Permutation_in _ (insert_desc_perm x l)) in Hz as [<-|Hz];
        [lia|now apply Hy].
    + constructor; [now constructor|].
      constructor; [lia|].
      rewrite List.Forall_forall in *. intros z Hz. apply Hy in Hz. lia.
Qed.

Lemma sorted_by_count_desc_sorted items :
  by_count_desc (sorted_by_count_desc items).
Proof.
  induction items as [|x items IH]; simpl.
  - constructor.
  - now apply insert_desc_sorted.
Qed.

Lemma with_count_insert_desc c x l :
  with_count c (insert_desc x l) = with_count c (x :: l).
Proof.
  unfold with_count. induction l as [|y l IH]; simpl; [reflexivity|].
  destruct (Z.ltb_spec (snd x) (snd y)) as [Hlt|Hge]; [|reflexivity].
  simpl. rewrite IH. simpl.
  destruct (Z.eqb_spec (snd x) c) as [Hx|Hx]; [|reflexivity].
  destruct (Z.eqb_spec (snd y) c) as [Hy|Hy]; [lia|reflexivity].
Qed.

(** Stability: the items of any one count keep the order they had. *)
Lemma sorted_by_count_desc_stable c items :
  with_count c (sorted_by_count_desc items) = with_count c items.
Proof.
  induction items as [|x items IH]; simpl; [reflexivity|].
  rewrite with_count_insert_desc. unfold with_count in *. simpl.
  rewrite IH. reflexivity.
Qed.

(** Sortedness and stability leave no choice: every stable sort by
    descending count returns the list [sorted_by_count_desc] returns. *)
Lemma stable_sort_unique l1 l2 :
  by_count_desc l1 -> by_count_desc l2 ->
  (forall c, with_count c l1 = with_count c l2) ->
  l1 = l2.
Proof.
  unfold by_count_desc, with_count.
  revert l2. induction l1 as [|a l1 IH]; intros l2 Hs1 Hs2 Hsame.
  - destruct l2 as [|b l2]; [reflexivity|].
    specialize (Hsame (snd b)). simpl in Hsame.
    rewrite Z.eqb_refl in Hsame. discriminate.
  - destruct l2 as [|b l2].
    { specialize (Hsame (snd a)). simpl in Hsame.
      rewrite Z.eqb_refl in Hsame. discriminate. }
    apply StronglySorted_inv in Hs1 as [Hs1 Ha].
    apply StronglySorted_inv in Hs2 as [Hs2 Hb].
    rewrite List.Forall_forall in Ha, Hb.
    assert (Hab : snd a = snd b).
    { destruct (Z.lt_total (snd a) (snd b)) as [Hlt|[Heq|Hgt]]; [|assumption|].
      - assert (Hin : In b (List.filter (fun x => snd x =? snd b) (a :: l1))).
        { rewrite (Hsame (snd b)). simpl. rewrite Z.eqb_refl. now left. }
        apply filter_In in Hin as [[->|Hin] _]; [lia|].
        apply Ha in Hin. lia.
      - assert (Hin : In a (List.filter (fun x => snd x =? snd a) (b :: l2))).
        { rewrite <- (Hsame (snd a)). simpl. rewrite Z.eqb_refl. now left. }
        apply filter_In in Hin as [[->|Hin] _]; [lia|].
        apply Hb in Hin. lia. }
    pose proof (Hsame (snd a)) as Hhead. simpl in Hhead.
    rewrite <- Hab, Z.eqb_refl in Hhead. injection Hhead as <- Htail.
    f_equal. apply IH; try assumption.
    intros c. specialize (Hsame c). simpl in Hsame.
    destruct (snd a =? c); [now injection Hsame|assumption].
Qed.

(** *** The counting dictionary *)

Lemma keys_dict_set k v d :
  List.map fst (dict_set k v d)
  = if has_key k d then List.map fst d else (List.map fst d ++ [k])%list.
Proof.
  unfold has_key. induction d as [|[k' v'] d IH]; simpl; [reflexivity|].
  rewrite (String.eqb_sym k k').
  destruct (String.eqb k' k); simpl; [reflexivity|].
  rewrite IH. destruct (existsb _ _); reflexivity.
Qed.

Lemma dict_get_dict_set k' k v d dflt :
  dict_get k' (dict_set k v d) dflt
  = if String.eqb k' k then v else dict_get k' d dflt.
Proof.
  induction d as [|[k0 v0] d IH]; simpl.
  - rewrite (String.eqb_sym k k'). reflexivity.
  - destruct (String.eqb_spec k0 k) as [->|Hne]; simpl.
    + rewrite (String.eqb_sym k k').
      destruct (String.eqb k' k); reflexivity.
    + destruct (String.eqb_spec k0 k') as [->|Hne'].
      * destruct (String.eqb_spec k' k); [congruence|reflexivity].
      * exact IH.
Qed.

Lemma filter_filter_and {A : Type} (p q : A -> bool) (l : list A) :
  List.filter p (List.filter q l) = List.filter (fun x => q x && p x) l.
Proof.
  induction l as [|x l IH]; simpl; [reflexivity|].
  destruct (q x); simpl; [|assumption].
  destruct (p x); simpl; congruence.
Qed.

Lemma has_key_dict_set y k v d :
  has_key y (dict_set k v d) = has_key y d || String.eqb y k.
Proof.
  unfold has_key. rewrite keys_dict_set. fold (has_key k d).
  destruct (has_key k d) eqn:Hk.
  - destruct (String.eqb_spec y k) as [->|_]; [|now rewrite orb_false_r].
    unfold has_key in Hk. rewrite Hk. reflexivity.
  - rewrite existsb_app. simpl. now rewrite orb_false_r.
Qed.

Lemma active_hotel_ids_cons b bookings :
  active_hotel_ids (b :: bookings)
  = if active b then Booking.hotel_id b :: active_hotel_ids bookings
    else active_hotel_ids bookings.
Proof. unfold active_hotel_ids. simpl. destruct (active b); reflexivity. Qed.

Lemma active_count_cons k b bookings :
  active_count k (b :: bookings)
  = (if active b && String.eqb (Booking.hotel_id b) k then 1 else 0)
    + active_count k bookings.
Proof.
  unfold active_count. simpl.
  destruct (active b && String.eqb (Booking.hotel_id b) k); simpl length; lia.
Qed.

Lemma filter_cons {A : Type} (p : A -> bool) x (l : list A) :
  List.filter p (x :: l) = if p x then x :: List.filter p l else List.filter p l.
Proof. reflexivity. Qed.

(** The fold, from any dictionary [d]: the keys of [d] stay where they are,
    the new hotels follow in the order of their first active booking, and
    every count grows by the number of active bookings of its hotel. *)
Lemma counts_fold bookings d :
  List.map fst (List.fold_left count_booking bookings d)
  = (List.map fst d
     ++ List.filter (fun y => negb (has_key y d))
          (first_occurrences (active_hotel_ids bookings)))%list
  /\ forall k,
       dict_get k (List.fold_left count_booking bookings d) 0
       = dict_get k d 0 + active_count k bookings.
Proof.
  revert d. induction bookings as [|b bookings IH]; intros d.
  - simpl. rewrite app_nil_r. split; [reflexivity|].
    intros k. unfold active_count. simpl. lia.
  - simpl List.fold_left. destruct (IH (count_booking d b)) as [IHkeys IHget].
    rewrite IHkeys, active_hotel_ids_cons. clear IHkeys IH.
    unfold count_booking in *.
    destruct (active b) eqn:Hactive.
    + set (h := Booking.hotel_id b) in *. split.
      * rewrite keys_dict_set. simpl first_occurrences.
        rewrite filter_cons, !filter_filter_and.
        destruct (has_key h d) eqn:Hh; simpl negb; cbv iota.
        -- f_equal. apply filter_ext.
           intros y. rewrite has_key_dict_set.
           destruct (String.eqb_spec y h) as [->|Hne]; simpl.
           ++ rewrite Hh. reflexivity.
           ++ now rewrite orb_false_r.
        -- rewrite <- app_assoc. simpl. do 2 f_equal. apply filter_ext.
           intros y. rewrite has_key_dict_set, negb_orb. apply andb_comm.
      * intros k. rewrite IHget, dict_get_dict_set, active_count_cons, Hactive.
        simpl andb. fold h. rewrite (String.eqb_sym h k).
        destruct (String.eqb_spec k h) as [->|Hne]; lia.
    + split; [reflexivity|].
      intros k. rewrite IHget, active_count_cons, Hactive. simpl. lia.
Qed.

Lemma first_occurrences_NoDup l : List.NoDup (first_occurrences l).
Proof.
  induction l as [|x l IH]; simpl; constructor.
  - intros Hin. apply filter_In in Hin as [_ Hne].
    rewrite String.eqb_refl in Hne. discriminate.
  - now apply List.NoDup_filter.
Qed.

(** A dictionary is its keys paired with what [get] returns for them. *)
Lemma dict_items d dflt :
  List.NoDup (List.map fst d) ->
  d = List.map (fun k => (k, dict_get k d dflt)) (List.map fst d).
Proof.
  induction d as [|[k v] d IH]; simpl; intros Hnd; [reflexivity|].
  apply List.NoDup_cons_iff in Hnd as [Hfresh Hnd].
  rewrite String.eqb_refl. f_equal.
  rewrite (IH Hnd) at 1. apply map_ext_in.
  intros k' Hk'. destruct (String.eqb_spec k k') as [->|_]; [contradiction|].
  reflexivity.
Qed.

(** [hotel_booking_counts]: one item for each hotel with an active booking,
    in the order of the hotels' first active bookings, with the number of
    the hotel's active bookings. *)
Lemma hotel_booking_counts_items bookings :
  hotel_booking_counts bookings
  = List.map (fun k => (k, active_count k bookings))
      (first_occurrences (active_hotel_ids bookings)).
Proof.
  unfold hotel_booking_counts.
  destruct (counts_fold bookings []) as [Hkeys Hget]. simpl in Hkeys, Hget.
  assert (Hk : List.map fst (List.fold_left count_booking bookings [])
               = first_occurrences (active_hotel_ids bookings)).
  { rewrite Hkeys. clear. induction (first_occurrences _) as [|x l IH];
      simpl; congruence. }
  rewrite (dict_items (List.fold_left count_booking bookings []) 0).
  - rewrite Hk. apply map_ext. intros k. now rewrite Hget.
  - rewrite Hk. apply first_occurrences_NoDup.
Qed.

Lemma popular_hotels_listed hotels bookings :
  popular_hotels hotels bookings
  = List.flat_map (listed_name hotels)
      (sorted_by_count_desc (hotel_booking_counts bookings)).
Proof. reflexivity. Qed.

Lemma in_firstn {A : Type} n (l : list A) x : In x (firstn n l) -> In x l.
Proof.
  revert l. induction n as [|n IH]; intros [|y l]; simpl; try tauto.
  intros [->|Hin]; [now left|right; now apply IH].
Qed.

Lemma firstn_by_count_desc n items :
  by_count_desc items -> by_count_desc (firstn n items).
Proof.
  unfold by_count_desc. revert items.
  induction n as [|n IH]; intros [|x items] Hs; simpl; try constructor.
  - apply IH. now apply StronglySorted_inv in Hs.
  - apply StronglySorted_inv in Hs as [_ Hx].
    rewrite List.Forall_forall in *. intros y Hy. apply Hx.
    now apply in_firstn in Hy.
Qed.

Lemma listed_by_count_desc hotels items :
  by_count_desc items ->
  by_count_desc (List.flat_map (listed_name hotels) items).
Proof.
  unfold by_count_desc. induction items as [|x items IH]; intros Hs; simpl.
  - constructor.
  - apply StronglySorted_inv in Hs as [Hs Hx].
    unfold listed_name at 1.
    destruct (List.find _ hotels) as [hotel|]; simpl; [|now apply IH].
    constructor; [now apply IH|].
    rewrite List.Forall_forall in *. intros y Hy.
    apply in_flat_map in Hy as (z & Hz & Hy). unfold listed_name in Hy.
    destruct (List.find _ hotels); [|destruct Hy].
    destruct Hy as [<-|[]]. simpl. now apply Hx.
Qed.

Lemma confirmed_only_drop l1 b l2 :
  Booking.status b <> "confirmed" ->
  List.filter (has_status "confirmed") (l1 ++ b :: l2)
  = List.filter (has_status "confirmed") (l1 ++ l2).
Proof.
  intros Hstatus. rewrite !List.filter_app. simpl.
  unfold has_status at 2.
  destruct (String.eqb_spec (Booking.status b) "confirmed"); [contradiction|].
  reflexivity.
Qed.

(** C8, as the code has it.  The items ranked are the hotels with an active
    (confirmed or pending) booking, each with the number of its active
    bookings, taken in the order in which the hotels first get an active
    booking in the ledger.  The ranking is a permutation of them with counts
    in descending order, and hotels of equal count stay in that ledger order:
    the sort is stable and compares counts only, never ids.  The list
    returned names the ranked hotels the inventory knows, at most five, its
    counts in descending order.
    [total_revenue] is the sum of [total_price] over the bookings whose
    status is ["confirmed"]; a booking of any other status can be taken out
    of the ledger without changing it. *)
Theorem popular_hotels_ranking (py_sum : list float -> float) (st : store) :
  let items := hotel_booking_counts (BOOKINGS st) in
  let ranked := sorted_by_count_desc items in
  items = List.map (fun k => (k, active_count k (BOOKINGS st)))
            (first_occurrences (active_hotel_ids (BOOKINGS st)))
  /\ by_count_desc ranked
  /\ Permutation ranked items
  /\ (forall c, with_count c ranked = with_count c items)
  /\ most_popular_hotels (get_booking_statistics py_sum st)
     = firstn 5 (List.flat_map (listed_name (HOTELS st)) ranked)
  /\ by_count_desc (most_popular_hotels (get_booking_statistics py_sum st))
  /\ total_revenue (get_booking_statistics py_sum st)
     = py_sum (List.map Booking.total_price
                 (List.filter (fun b => String.eqb (Booking.status b) "confirmed")
                    (BOOKINGS st)))
  /\ (forall l1 b l2,
         BOOKINGS st = (l1 ++ b :: l2)%list ->
         Booking.status b <> "confirmed" ->
         total_revenue (get_booking_statistics py_sum st)
         = total_revenue
             (get_booking_statistics py_sum
                (mkstore (HOTELS st) (ROOMS st) (l1 ++ l2)))).
Proof.
  cbv zeta.
  split; [apply hotel_booking_counts_items|].
  split; [apply sorted_by_count_desc_sorted|].
  split; [apply sorted_by_count_desc_perm|].
  split; [intros c; apply sorted_by_count_desc_stable|].
  split; [reflexivity|].
  split; [apply firstn_by_count_desc, listed_by_count_desc,
            sorted_by_count_desc_sorted|].
  split; [reflexivity|].
  intros l1 b l2 Hledger Hstatus. simpl. rewrite Hledger.
  now rewrite confirmed_only_drop.
Qed.

(** C8, the tie-break of the claim refuted.  After one booking at [hotel_3]
    on the initial data, six hotels have one active booking each.  The
    ranking keeps them in ledger order, [hotel_3] last, after [hotel_9]:
    ids do not ascend among equal counts, and the list of five names leaves
    out [hotel_3] (Mountain View Lodge) while it lists [hotel_6], [hotel_7]
    and [hotel_9]. *)
Lemma ties_follow_the_ledger_not_the_id :
  let ranked :=
    sorted_by_count_desc (hotel_booking_counts (BOOKINGS store_with_hotel_3_booking)) in
  ranked = [("hotel_1", 1); ("hotel_2", 1); ("hotel_6", 1); ("hotel_7", 1);
            ("hotel_9", 1); ("hotel_3", 1)]
  /\ ~ ties_by_id_ascending ranked
  /\ most_popular_hotels (get_booking_statistics sum_left store_with_hotel_3_booking)
     = [("Grand Plaza Hotel", 1); ("Seaside Resort", 1); ("Ocean View Resort", 1);
        ("Bay Side Hotel", 1); ("Budget Beach Motel", 1)].
Proof.
  cbv zeta.
  assert (Hranked :
           sorted_by_count_desc
             (hotel_booking_counts (BOOKINGS store_with_hotel_3_booking))
           = [("hotel_1", 1); ("hotel_2", 1); ("hotel_6", 1); ("hotel_7", 1);
              ("hotel_9", 1); ("hotel_3", 1)])
    by (vm_compute; reflexivity).
  split; [exact Hranked|]. rewrite Hranked. split.
  - intros Hties.
    specialize (Hties 4%nat 5%nat ("hotel_9", 1) ("hotel_3", 1)).
    simpl in Hties. discriminate Hties; [lia|reflexivity..].
  - vm_compute. reflexivity.
Qed.

(** * Further properties of the booking engine *)

(** ** Assignments through [update_first] *)

Lemma update_first_length {A : Type} (p : A -> bool) (f : A -> A) (l : list A) :
  List.length (update_first p f l) = List.length l.
Proof.
  induction l as [|x l IH]; simpl; [reflexivity|].
  destruct (p x); simpl; congruence.
Qed.

Lemma update_first_map {A B : Type} (g : A -> B) (p : A -> bool) (f : A -> A)
  (l : list A) :
  (forall x, g (f x) = g x) ->
  List.map g (update_first p f l) = List.map g l.
Proof.
  intros Hg. induction l as [|x l IH]; simpl; [reflexivity|].
  destruct (p x); simpl; congruence.
Qed.

Lemma update_first_none {A : Type} (p : A -> bool) (f : A -> A) (l : list A) :
  (forall x, In x l -> p x = false) -> update_first p f l = l.
Proof.
  induction l as [|x l IH]; simpl; intros Hp; [reflexivity|].
  rewrite (Hp x) by now left. f_equal. apply IH. intros y Hy. apply Hp. now right.
Qed.

Lemma update_first_app_last {A : Type} (p : A -> bool) (f : A -> A) (l : list A) y :
  (forall x, In x l -> p x = false) -> p y = true ->
  update_first p f (l ++ [y]) = (l ++ [f y])%list.
Proof.
  induction l as [|x l IH]; simpl; intros Hp Hy.
  - rewrite Hy. reflexivity.
  - rewrite (Hp x) by now left. f_equal. apply IH; [|assumption].
    intros z Hz. apply Hp. now right.
Qed.

Lemma find_app_last {A : Type} (p : A -> bool) (l : list A) y :
  (forall x, In x l -> p x = false) -> p y = true ->
  List.find p (l ++ [y]) = Some y.
Proof.
  induction l as [|x l IH]; simpl; intros Hp Hy.
  - now rewrite Hy.
  - rewrite (Hp x) by now left. apply IH; [|assumption].
    intros z Hz. apply Hp. now right.
Qed.

Lemma find_update_first_other {A : Type} (p q : A -> bool) (f : A -> A) (l : list A) :
  (forall x, q (f x) = q x) ->
  (forall x, p x = true -> q x = false) ->
  List.find q (update_first p f l) = List.find q l.
Proof.
  intros Hq Hpq. induction l as [|x l IH]; simpl; [reflexivity|].
  destruct (p x) eqn:Hp; simpl.
  - rewrite Hq, (Hpq x Hp). reflexivity.
  - destruct (q x); [reflexivity|exact IH].
Qed.

Lemma in_update_first {A : Type} (p : A -> bool) (f : A -> A) (l : list A) b :
  In b (update_first p f l) ->
  In b l \/ exists x, List.find p l = Some x /\ b = f x.
Proof.
  induction l as [|x l IH]; simpl; [tauto|].
  destruct (p x) eqn:Hp; simpl.
  - intros [<-|Hin]; [right; eauto|left; now right].
  - intros [<-|Hin]; [left; now left|].
    destruct (IH Hin) as [?|?]; [left; now right|now right].
Qed.

Lemma set_available_same room :
  Room.available room = true -> Room.set_available true room = room.
Proof. destruct room. simpl. now intros ->. Qed.

(** A lookup that does not read the flag still finds an available room after
    some room's flag has been set. *)
Lemma find_after_set_available (p q : Room.t -> bool) (l : list Room.t) room :
  (forall r, q (Room.set_available true r) = q r) ->
  List.find q l = Some room -> Room.available room = true ->
  List.find q (update_first p (Room.set_available true) l) = Some room.
Proof.
  intros Hq. induction l as [|x l IH]; simpl; [discriminate|].
  destruct (p x); simpl.
  - rewrite Hq. destruct (q x); [|tauto].
    intros [= ->] Ha. now rewrite set_available_same.
  - destruct (q x); [tauto|exact IH].
Qed.

(** ** A successful cancellation *)

(** X1. What a successful [cancel_booking] does.  When the id is that of a
    booking not yet cancelled, the answer reports the booking's former status
    and refunds its [total_price]; afterwards the same id finds the booking
    with status ["cancelled"] and nothing else changed in it, every other id
    finds what it found before, the ledger has the same ids in the same
    order (nothing is deleted), the hotels are untouched, and the first room
    that carries the booking's room id is flagged available, the rooms
    keeping their ids and order. *)
Theorem cancel_booking_effect st booking_id booking :
  find_booking st booking_id = Some booking ->
  Booking.status booking <> "cancelled" ->
  exists r st',
    cancel_booking st booking_id = (Cancelled r, st')
    /\ c_booking_id r = booking_id
    /\ previous_status r = Booking.status booking
    /\ new_status r = "cancelled"
    /\ refund_amount r = Booking.total_price booking
    /\ HOTELS st' = HOTELS st
    /\ find_booking st' booking_id = Some (Booking.set_status "cancelled" booking)
    /\ (forall other, other <> booking_id ->
           find_booking st' other = find_booking st other)
    /\ List.map Booking.id (BOOKINGS st') = List.map Booking.id (BOOKINGS st)
    /\ List.map Room.id (ROOMS st') = List.map Room.id (ROOMS st)
    /\ List.find (fun r => String.eqb (Room.id r) (Booking.room_id booking)) (ROOMS st')
       = option_map (Room.set_available true)
           (List.find (fun r => String.eqb (Room.id r) (Booking.room_id booking))
              (ROOMS st))
    /\ (forall room_id, room_id <> Booking.room_id booking ->
           List.find (fun r => String.eqb (Room.id r) room_id) (ROOMS st')
           = List.find (fun r => String.eqb (Room.id r) room_id) (ROOMS st)).
Proof.
  intros Hfind Hstatus. unfold cancel_booking. rewrite Hfind.
  destruct (String.eqb_spec (Booking.status booking) "cancelled"); [contradiction|].
  eexists. eexists. split; [reflexivity|]. simpl.
  repeat split.
  - unfold find_booking in *. simpl. apply find_update_first; [|assumption].
    intros y. reflexivity.
  - intros other Hother. unfold find_booking. simpl.
    apply find_update_first_other; [intros x; reflexivity|].
    intros x Hx. apply String.eqb_eq in Hx. apply String.eqb_neq. congruence.
  - apply update_first_map. intros x. reflexivity.
  - apply update_first_map. intros x. reflexivity.
  - destruct (List.find _ (ROOMS st)) as [room|] eqn:Hroom; simpl.
    + apply find_update_first; [|assumption]. intros y. reflexivity.
    + rewrite update_first_none; [assumption|].
      intros x Hx. apply (find_none _ _ Hroom x Hx).
  - intros room_id Hother.
    apply find_update_first_other; [intros x; reflexivity|].
    intros x Hx. apply String.eqb_eq in Hx. apply String.eqb_neq. congruence.
Qed.

(** On the initial data, [booking_004] (pending, $340). *)
Lemma cancel_booking_effect_witness :
  exists r st',
    cancel_booking initial_store "booking_004" = (Cancelled r, st')
    /\ previous_status r = "pending"
    /\ refund_amount r = 340%float
    /\ option_map Booking.status (find_booking st' "booking_004") = Some "cancelled".
Proof.
  destruct (cancel_booking_effect initial_store "booking_004"
              (Booking.mk "booking_004" "hotel_7" "room_7_1" "Emma Wilson"
                 "emma.wilson@email.com" "2025-02-10" "2025-02-12" 340%float "pending"))
    as (r & st' & Hcall & _ & Hprev & _ & Hrefund & _ & Hfound & _).
  - vm_compute. reflexivity.
  - discriminate.
  - exists r, st'. rewrite Hfound. auto.
Defined.

(** ** Booking, cancelling, booking again *)

Lemma conflicting_bookings_app bookings1 bookings2 room_id check_in check_out :
  conflicting_bookings (bookings1 ++ bookings2) room_id check_in check_out
  = (conflicting_bookings bookings1 room_id check_in check_out
     ++ conflicting_bookings bookings2 room_id check_in check_out)%list.
Proof. unfold conflicting_bookings. apply List.filter_app. Qed.

Lemma cancelled_is_no_conflict b room_id check_in check_out :
  conflicting_bookings [Booking.set_status "cancelled" b] room_id check_in check_out
  = [].
Proof.
  unfold conflicting_bookings. simpl.
  destruct (String.eqb _ room_id); reflexivity.
Qed.

Lemma find_hotel_mkstore st rooms bookings hotel_id :
  find_hotel (mkstore (HOTELS st) rooms bookings) hotel_id = find_hotel st hotel_id.
Proof. reflexivity. Qed.

Lemma find_room_after_set_available st p bookings room_id hotel_id room :
  find_room st room_id hotel_id = Some room ->
  Room.available room = true ->
  find_room
    (mkstore (HOTELS st) (update_first p (Room.set_available true) (ROOMS st)) bookings)
    room_id hotel_id
  = Some room.
Proof.
  intros Hroom Ha. unfold find_room in *. simpl.
  apply find_after_set_available; [intros r; reflexivity|assumption..].
Qed.

(** X2. Cancelling undoes a booking for availability.  After a confirmed
    [book_hotel] under a fresh id, [cancel_booking] on that id succeeds,
    names ["confirmed"] as the former status and refunds exactly the price
    charged; and the same stay in the same room can then be booked again
    (under any id), for the same number of nights and the same price. *)
Theorem book_cancel_book_again st booking_id hotel_id room_id guest_name
  guest_email check_in check_out c st1 :
  fresh_id st booking_id ->
  book_hotel st booking_id hotel_id room_id guest_name guest_email check_in check_out
  = (BookConfirmed c, st1) ->
  exists r st2,
    cancel_booking st1 booking_id = (Cancelled r, st2)
    /\ previous_status r = "confirmed"
    /\ refund_amount r = Booking.total_price (booking_confirmation c)
    /\ forall booking_id' guest_name' guest_email',
        exists c' st3,
          book_hotel st2 booking_id' hotel_id room_id guest_name' guest_email'
            check_in check_out
          = (BookConfirmed c', st3)
          /\ nights c' = nights c
          /\ Booking.total_price (booking_confirmation c')
             = Booking.total_price (booking_confirmation c).
Proof.
  intros Hfresh Hcall.
  pose proof (book_hotel_outcome st booking_id hotel_id room_id guest_name
                guest_email check_in check_out) as Hout.
  rewrite Hcall in Hout. inversion Hout; subst; clear Hout.
  assert (Hother : forall x, In x (BOOKINGS st) ->
                             String.eqb (Booking.id x) booking_id = false).
  { intros x Hx. apply String.eqb_neq. now apply Hfresh. }
  assert (Hself : String.eqb (Booking.id booking) booking_id = true)
    by apply String.eqb_refl.
  assert (Hfind : List.find (fun b => String.eqb (Booking.id b) booking_id)
                    (BOOKINGS st ++ [booking]) = Some booking).
  { now apply find_app_last. }
  unfold cancel_booking, find_booking. simpl BOOKINGS. rewrite Hfind. simpl.
  eexists. eexists. split; [reflexivity|]. simpl.
  split; [reflexivity|]. split; [reflexivity|].
  intros booking_id' guest_name' guest_email'.
  unfold book_hotel.
  rewrite find_hotel_mkstore, H1.
  rewrite (find_room_after_set_available st _ _ _ _ _ H2 H3), H3. simpl.
  rewrite H4, H5.
  destruct (Z.leb_spec (Datetime.days_between check_in_date check_out_date) 0);
    [lia|].
  simpl BOOKINGS.
  rewrite (update_first_app_last _ _ _ booking Hother Hself).
  rewrite conflicting_bookings_app, cancelled_is_no_conflict, H7.
  simpl. eexists. eexists. split; [reflexivity|]. split; reflexivity.
Qed.

(** On the initial data: a stay in [room_3_1], cancelled, booked again. *)
Lemma book_cancel_book_again_witness :
  exists r st2,
    cancel_booking store_with_hotel_3_booking "c2a9d1f4-7b3e-4c58-8f60-2d9b5e7a1c33"
    = (Cancelled r, st2)
    /\ previous_status r = "confirmed"
    /\ refund_amount r = 240%float
    /\ is_error
         (fst (book_hotel st2 "another" "hotel_3" "room_3_1" "Alan Turing"
                 "alan@example.com" "2025-08-01" "2025-08-03")) = false.
Proof.
  destruct (book_cancel_book_again initial_store
              "c2a9d1f4-7b3e-4c58-8f60-2d9b5e7a1c33" "hotel_3" "room_3_1"
              "Grace Hopper" "grace@example.com" "2025-08-01" "2025-08-03"
              (match fst (book_hotel initial_store
                            "c2a9d1f4-7b3e-4c58-8f60-2d9b5e7a1c33" "hotel_3"
                            "room_3_1" "Grace Hopper" "grace@example.com"
                            "2025-08-01" "2025-08-03") with
               | BookConfirmed c => c
               | _ => hundred_dollar_confirmation
               end)
              store_with_hotel_3_booking)
    as (r & st2 & Hcancel & Hprev & Hrefund & Hagain).
  - intros b Hin. vm_compute in Hin.
    repeat (destruct Hin as [<-|Hin]; [discriminate|]). destruct Hin.
  - vm_compute. reflexivity.
  - exists r, st2. repeat split; try assumption.
    destruct (Hagain "another" "Alan Turing" "alan@example.com")
      as (c' & st3 & Hcall & _). rewrite Hcall. reflexivity.
Defined.

(** ** The same stay twice *)

Lemma padded_stay_overlaps_itself check_in check_out d_in d_out :
  padded check_in d_in -> padded check_out d_out ->
  Datetime.toordinal d_in < Datetime.toordinal d_out ->
  ranges_overlap check_in check_out check_in check_out = true.
Proof.
  intros Hin Hout Hnights.
  apply (ranges_overlap_padded _ _ _ _ _ _ _ _ Hin Hout Hin Hout). lia.
Qed.

(** X3. A stay cannot be booked twice.  After a confirmed [book_hotel] with
    zero-padded dates, the same request (under any id, for any guest) is
    answered with the conflict error, which lists the range just booked,
    and the store stays as the first booking left it.  The padding matters:
    from ["2025-7-9"] to ["2025-7-10"] the same room is confirmed twice on
    the initial data. *)
Theorem same_stay_twice_is_refused :
  (forall st booking_id hotel_id room_id guest_name guest_email check_in check_out
          d_in d_out c st1,
      padded check_in d_in -> padded check_out d_out ->
      book_hotel st booking_id hotel_id room_id guest_name guest_email check_in check_out
      = (BookConfirmed c, st1) ->
      forall booking_id' guest_name' guest_email',
      exists dates,
        book_hotel st1 booking_id' hotel_id room_id guest_name' guest_email'
          check_in check_out
        = (BookConflict "Room is not available for these dates due to existing bookings"
             dates, st1)
        /\ In (String.append check_in (String.append " to " check_out)) dates)
  /\ (let st1 :=
        snd (book_hotel initial_store "first" "hotel_4" "room_4_1" "Ada Lovelace"
               "ada@example.com" "2025-7-9" "2025-7-10") in
      map Booking.room_id (skipn 5 (BOOKINGS st1)) = ["room_4_1"]
      /\ is_error
           (fst (book_hotel st1 "second" "hotel_4" "room_4_1" "Bob" "bob@example.com"
                   "2025-7-9" "2025-7-10")) = false).
Proof.
  split; [|cbv zeta; split; vm_compute; reflexivity].
  intros st booking_id hotel_id room_id guest_name guest_email check_in check_out
    d_in d_out c st1 Hpin Hpout Hcall booking_id' guest_name' guest_email'.
  pose proof (book_hotel_outcome st booking_id hotel_id room_id guest_name
                guest_email check_in check_out) as Hout.
  rewrite Hcall in Hout. inversion Hout; subst; clear Hout.
  assert (d_in = check_in_date) as -> by (destruct Hpin; congruence).
  assert (d_out = check_out_date) as -> by (destruct Hpout; congruence).
  assert (Hself : overlaps check_in check_out booking = true).
  { unfold overlaps. simpl.
    apply (padded_stay_overlaps_itself _ _ _ _ Hpin Hpout).
    unfold Datetime.days_between in *. lia. }
  assert (Hin : In booking
                  (conflicting_bookings (BOOKINGS st ++ [booking]) room_id
                     check_in check_out)).
  { apply in_conflicting_bookings. repeat split; [|assumption].
    apply in_or_app. right. now left. }
  unfold book_hotel. rewrite find_hotel_mkstore, H1.
  change (find_room (mkstore (HOTELS st) (ROOMS st) (BOOKINGS st ++ [booking]))
            room_id hotel_id) with (find_room st room_id hotel_id).
  rewrite H2, H3. simpl. rewrite H4, H5.
  destruct (Z.leb_spec (Datetime.days_between check_in_date check_out_date) 0);
    [lia|].
  simpl BOOKINGS.
  destruct (conflicting_bookings (BOOKINGS st ++ [booking]) room_id check_in check_out)
    as [|b bs] eqn:Hconf; [destruct Hin|].
  eexists. split; [reflexivity|].
  exact (in_map conflict_range _ _ Hin).
Qed.

(** On the initial data, two nights in [room_4_1] asked for twice. *)
Lemma same_stay_twice_is_refused_witness :
  exists dates,
    book_hotel
      (snd (book_hotel initial_store "first" "hotel_4" "room_4_1" "Ada Lovelace"
              "ada@example.com" "2025-09-01" "2025-09-03"))
      "second" "hotel_4" "room_4_1" "Bob" "bob@example.com" "2025-09-01" "2025-09-03"
    = (BookConflict "Room is not available for these dates due to existing bookings"
         dates,
       snd (book_hotel initial_store "first" "hotel_4" "room_4_1" "Ada Lovelace"
              "ada@example.com" "2025-09-01" "2025-09-03"))
    /\ In "2025-09-01 to 2025-09-03" dates.
Proof.
  eapply (proj1 same_stay_twice_is_refused initial_store "first" "hotel_4" "room_4_1"
            "Ada Lovelace" "ada@example.com" "2025-09-01" "2025-09-03"
            (Datetime.mkdate 2025 9 1) (Datetime.mkdate 2025 9 3)).
  - split; vm_compute; reflexivity.
  - split; vm_compute; reflexivity.
  - vm_compute. reflexivity.
Defined.

(** ** No room is booked twice for a night *)

Lemma ForallOrdPairs_app {A : Type} (R : A -> A -> Prop) (l1 l2 : list A) :
  ForallOrdPairs R l1 -> ForallOrdPairs R l2 ->
  (forall x y, In x l1 -> In y l2 -> R x y) ->
  ForallOrdPairs R (l1 ++ l2).
Proof.
  intros H1 H2 Hcross. induction H1 as [|a l Ha Hl IH]; simpl; [assumption|].
  constructor.
  - apply List.Forall_app. split; [assumption|].
    apply List.Forall_forall. intros y Hy. apply Hcross; [now left|assumption].
  - apply IH. intros x y Hx Hy. apply Hcross; [now right|assumption].
Qed.

Lemma ForallOrdPairs_update_first {A : Type} (R : A -> A -> Prop) (p : A -> bool)
  (f : A -> A) (l : list A) :
  (forall x y, R (f x) y) -> (forall x y, R y (f x)) ->
  ForallOrdPairs R l -> ForallOrdPairs R (update_first p f l).
Proof.
  intros Hleft Hright Hl. induction Hl as [|a l Ha Hl IH]; simpl; [constructor|].
  destruct (p a).
  - constructor; [|assumption]. apply List.Forall_forall. intros y _. apply Hleft.
  - constructor; [|assumption]. rewrite List.Forall_forall in *.
    intros y Hy. apply in_update_first in Hy as [Hy|(x & _ & ->)];
      [now apply Ha|apply Hright].
Qed.

Lemma cancelled_is_compatible b other :
  compatible (Booking.set_status "cancelled" b) other
  /\ compatible other (Booking.set_status "cancelled" b).
Proof. split; intros _ H1 H2; discriminate. Qed.

Lemma initial_no_double_booking : no_double_booking initial_store.
Proof.
  unfold no_double_booking. simpl.
  repeat (constructor; [repeat (constructor; [intros Hroom; discriminate Hroom|]);
                        constructor|]).
  constructor.
Qed.

Lemma cancel_keeps_ledger_padded st booking_id :
  ledger_padded st -> ledger_padded (snd (cancel_booking st booking_id)).
Proof.
  intros Hledger. unfold cancel_booking.
  destruct (find_booking st booking_id) as [booking|]; [|assumption].
  destruct (String.eqb _ "cancelled"); [assumption|].
  unfold ledger_padded in *. simpl. rewrite List.Forall_forall in *.
  intros b Hb. apply in_update_first in Hb as [Hb|(x & Hx & ->)]; [now apply Hledger|].
  apply find_some in Hx as [Hx _]. exact (Hledger x Hx).
Qed.

Lemma cancel_keeps_no_double_booking st booking_id :
  no_double_booking st -> no_double_booking (snd (cancel_booking st booking_id)).
Proof.
  intros Hnd. unfold cancel_booking.
  destruct (find_booking st booking_id) as [booking|]; [|assumption].
  destruct (String.eqb _ "cancelled"); [assumption|].
  unfold no_double_booking in *. simpl.
  apply ForallOrdPairs_update_first; [| |assumption];
    intros x y; apply cancelled_is_compatible.
Qed.

Lemma book_keeps_no_double_booking st booking_id hotel_id room_id guest_name
  guest_email check_in check_out d_in d_out :
  ledger_padded st -> no_double_booking st ->
  padded check_in d_in -> padded check_out d_out ->
  no_double_booking
    (snd (book_hotel st booking_id hotel_id room_id guest_name guest_email
            check_in check_out)).
Proof.
  intros Hledger Hnd Hpin Hpout.
  destruct (book_hotel_outcome st booking_id hotel_id room_id guest_name
              guest_email check_in check_out)
    as [ | | | | | | hotel room d1 d2 Hh Hr Ha Hi Ho Hn Hc]; try assumption.
  unfold no_double_booking in *. simpl.
  apply ForallOrdPairs_app; [assumption|constructor; constructor|].
  intros x y Hx [<-|[]] Hroom Hax _ in1 out1 in2 out2 Hin1 Hout1 Hin2 Hout2 Hshare.
  simpl in *.
  unfold ledger_padded in Hledger. rewrite List.Forall_forall in Hledger.
  destruct (Hledger x Hx) as (b_in & b_out & Hbin & Hbout & Hstay).
  assert (b_in = in1) as -> by (destruct Hbin; congruence).
  assert (b_out = out1) as -> by (destruct Hbout; congruence).
  assert (d_in = in2) as -> by (destruct Hpin; congruence).
  assert (d_out = out2) as -> by (destruct Hpout; congruence).
  assert (Hconf : In x (conflicting_bookings (BOOKINGS st) room_id check_in check_out)).
  { apply in_conflicting_bookings. repeat split; try assumption.
    unfold overlaps.
    apply (ranges_overlap_padded _ _ _ _ _ _ _ _ Hpin Hpout Hbin Hbout).
    destruct Hshare as (night & ? & ?). lia. }
  rewrite Hc in Hconf. destruct Hconf.
Qed.

(** X4. No room is ever booked twice for a night, as long as dates come
    zero-padded.  In every store reached from the initial data by
    [book_hotel] calls with zero-padded dates and by [cancel_booking] calls,
    in any order and whatever their answers, two active bookings of the same
    room never share a night, and every booking of the ledger has
    zero-padded dates with check-out after check-in. *)
Theorem no_room_is_booked_twice st :
  reachable_padded st -> no_double_booking st /\ ledger_padded st.
Proof.
  intros Hreach. induction Hreach as [|st ? ? ? ? ? ? ? ? ? _ [IHnd IHp] Hin Hout
                                       |st ? _ [IHnd IHp]].
  - split; [apply initial_no_double_booking|apply initial_ledger_padded].
  - split.
    + now apply book_keeps_no_double_booking with (d_in := d_in) (d_out := d_out).
    + now apply book_hotel_keeps_ledger_padded with (d_in := d_in) (d_out := d_out).
  - split.
    + now apply cancel_keeps_no_double_booking.
    + now apply cancel_keeps_ledger_padded.
Qed.

(** A store three calls away from the initial data: a booking, an
    overlapping request, a cancellation. *)
Lemma no_room_is_booked_twice_witness :
  no_double_booking
    (snd (cancel_booking
            (snd (book_hotel store_with_booking_A "0b7e" "hotel_1" "room_1_2" "Bob"
                    "bob@example.com" "2025-07-26" "2025-07-28"))
            "booking_001"))
  /\ ledger_padded
       (snd (cancel_booking
               (snd (book_hotel store_with_booking_A "0b7e" "hotel_1" "room_1_2" "Bob"
                       "bob@example.com" "2025-07-26" "2025-07-28"))
               "booking_001")).
Proof.
  apply no_room_is_booked_twice.
  apply reach_cancel.
  apply reach_book with (d_in := Datetime.mkdate 2025 7 26)
                        (d_out := Datetime.mkdate 2025 7 28);
    [|split; vm_compute; reflexivity..].
  apply reach_book with (d_in := Datetime.mkdate 2025 7 25)
                        (d_out := Datetime.mkdate 2025 7 27);
    [|split; vm_compute; reflexivity..].
  apply reach_initial.
Defined.

(** * The read-only tools and the statistics, against the ledger *)

Lemma find_room_some st room_id hotel_id room :
  find_room st room_id hotel_id = Some room ->
  In room (ROOMS st) /\ Room.id room = room_id /\ Room.hotel_id room = hotel_id.
Proof.
  intros Hfind. apply find_some in Hfind as [Hin Hp].
  apply andb_true_iff in Hp as [H1 H2].
  apply String.eqb_eq in H1, H2. auto.
Qed.

Lemma check_availability_hotel st hotel_id check_in check_out guests r :
  check_availability st hotel_id check_in check_out guests = Availability r ->
  exists hotel, find_hotel st hotel_id = Some hotel.
Proof.
  unfold check_availability.
  destruct (find_hotel st hotel_id) as [hotel|]; [eauto|discriminate].
Qed.

(** X5. [check_availability] and [book_hotel] agree.  For a request with
    well-formed dates and at least one night, and a room of the hotel that
    is large enough for the guests (the room being the one [book_hotel]
    finds under its id), [check_availability] lists the room exactly when
    [book_hotel] confirms a booking of it for the same dates; the
    confirmation then names that room. *)
Theorem availability_agrees_with_booking st hotel_id check_in check_out guests r
  room d_in d_out :
  check_availability st hotel_id check_in check_out guests = Availability r ->
  find_room st (Room.id room) hotel_id = Some room ->
  guests <= Room.capacity room ->
  Datetime.strptime check_in = Some d_in ->
  Datetime.strptime check_out = Some d_out ->
  0 < Datetime.days_between d_in d_out ->
  forall booking_id guest_name guest_email,
    In room (available_rooms r) <->
    exists c st',
      book_hotel st booking_id hotel_id (Room.id room) guest_name guest_email
        check_in check_out = (BookConfirmed c, st')
      /\ conf_room c = room.
Proof.
  intros Hav Hroom Hcap Hin Hout Hn booking_id guest_name guest_email.
  destruct (check_availability_hotel _ _ _ _ _ _ Hav) as [hotel Hhotel].
  destruct (find_room_some _ _ _ _ Hroom) as (Hmem & _ & Hhid).
  rewrite (in_available_rooms _ _ _ _ _ _ room Hav).
  unfold book_hotel. rewrite Hhotel, Hroom, Hin, Hout.
  destruct (Z.leb_spec (Datetime.days_between d_in d_out) 0) as [Hle|_]; [lia|].
  destruct (Room.available room); simpl.
  - destruct (conflicting_bookings (BOOKINGS st) (Room.id room) check_in check_out)
      as [|b bs].
    + split; [intros _; eauto|]. intros _. repeat split; auto.
    + split.
      * intros (_ & _ & _ & _ & Hnil). discriminate Hnil.
      * intros (c & st' & Heq & _). discriminate Heq.
  - split.
    + intros (_ & _ & Ha & _). discriminate Ha.
    + intros (c & st' & Heq & _). discriminate Heq.
Qed.

(** The standard room of the Grand Plaza for two, a stay of two nights. *)
Lemma availability_agrees_with_booking_witness :
  exists r room,
    check_availability initial_store "hotel_1" "2025-07-25" "2025-07-27" 2
    = Availability r
    /\ Room.id room = "room_1_1"
    /\ (In room (available_rooms r) <->
        exists c st',
          book_hotel initial_store "0b7e" "hotel_1" (Room.id room) "Ann"
            "ann@example.com" "2025-07-25" "2025-07-27" = (BookConfirmed c, st')
          /\ conf_room c = room).
Proof.
  destruct (find_room initial_store "room_1_1" "hotel_1") as [room|] eqn:Hroom;
    [|discriminate Hroom].
  eexists. exists room.
  split; [reflexivity|].
  split; [injection Hroom as <-; reflexivity|].
  apply (availability_agrees_with_booking initial_store "hotel_1" "2025-07-25"
           "2025-07-27" 2 _ room (Datetime.mkdate 2025 7 25) (Datetime.mkdate 2025 7 27)).
  - reflexivity.
  - injection Hroom as <-. reflexivity.
  - injection Hroom as <-. vm_compute. discriminate.
  - vm_compute. reflexivity.
  - vm_compute. reflexivity.
  - vm_compute. reflexivity.
Defined.

Lemma find_app {A : Type} (p : A -> bool) (l1 l2 : list A) :
  List.find p (l1 ++ l2)
  = match List.find p l1 with Some x => Some x | None => List.find p l2 end.
Proof.
  induction l1 as [|x l1 IH]; simpl; [reflexivity|].
  destruct (p x); [reflexivity|exact IH].
Qed.

Lemma find_by_id_unique (rooms : list Room.t) room :
  List.NoDup (List.map Room.id rooms) -> In room rooms ->
  List.find (fun r => String.eqb (Room.id r) (Room.id room)) rooms = Some room.
Proof.
  induction rooms as [|r rooms IH]; simpl; [intros _ []|].
  intros Hnd Hin. apply NoDup_cons_iff in Hnd as [Hfresh Hnd].
  destruct (String.eqb_spec (Room.id r) (Room.id room)) as [Heq|Hne].
  - destruct Hin as [->|Hin]; [reflexivity|].
    exfalso. apply Hfresh. rewrite Heq. now apply in_map.
  - destruct Hin as [->|Hin]; [congruence|]. now apply IH.
Qed.

(** X6. A confirmed booking can be looked up.  After [book_hotel] has
    confirmed a booking under an id the ledger did not hold,
    [get_booking_details] on that id returns the booking of the
    confirmation, the hotel of the confirmation, and a room with the booked
    room's id, which is the room of the confirmation when room ids are
    unique in the inventory ([get_booking_details] looks the room up by its
    id alone, [book_hotel] by id and hotel).  The details of every other id
    are what they were before the booking. *)
Theorem booked_stay_can_be_looked_up st booking_id hotel_id room_id guest_name
  guest_email check_in check_out c st1 :
  fresh_id st booking_id ->
  book_hotel st booking_id hotel_id room_id guest_name guest_email check_in check_out
  = (BookConfirmed c, st1) ->
  (exists room,
      get_booking_details st1 booking_id
      = BookingDetails {| bd_booking := booking_confirmation c;
                          bd_hotel := Some (conf_hotel c);
                          bd_room := Some room |}
      /\ Room.id room = room_id
      /\ (List.NoDup (List.map Room.id (ROOMS st)) -> room = conf_room c))
  /\ (forall other, other <> booking_id ->
        get_booking_details st1 other = get_booking_details st other).
Proof.
  intros Hfresh Hbook.
  pose proof (book_hotel_outcome st booking_id hotel_id room_id guest_name
                guest_email check_in check_out) as Hout.
  rewrite Hbook in Hout. inversion Hout; subst; clear Hout. simpl.
  split.
  - unfold get_booking_details, find_booking. simpl.
    rewrite find_app_last;
      [|intros x Hx; apply String.eqb_neq; now apply Hfresh
       |apply String.eqb_refl].
    simpl. rewrite find_hotel_mkstore.
    destruct (find_room_some _ _ _ _ H2) as (Hmem & Hid & Hhid).
    destruct (List.find (fun r => String.eqb (Room.id r) room_id) (ROOMS st))
      as [room'|] eqn:Hfind.
    + exists room'. split; [now rewrite H1|].
      split.
      * apply find_some in Hfind as [_ Heq]. now apply String.eqb_eq in Heq.
      * intros Hnd. rewrite <- Hid in Hfind.
        rewrite (find_by_id_unique _ _ Hnd Hmem) in Hfind. congruence.
    + exfalso. apply (find_none _ _ Hfind) in Hmem.
      rewrite Hid, String.eqb_refl in Hmem. discriminate.
  - intros other Hother. unfold get_booking_details, find_booking. simpl.
    rewrite find_app. simpl.
    destruct (String.eqb_spec booking_id other) as [Heq|_]; [congruence|].
    destruct (List.find _ (BOOKINGS st)); reflexivity.
Qed.

Lemma booked_stay_can_be_looked_up_witness :
  exists c st1,
    book_hotel initial_store "0b7e" "hotel_3" "room_3_1" "Ann" "ann@example.com"
      "2025-07-25" "2025-07-27" = (BookConfirmed c, st1)
    /\ (exists room,
          get_booking_details st1 "0b7e"
          = BookingDetails {| bd_booking := booking_confirmation c;
                              bd_hotel := Some (conf_hotel c);
                              bd_room := Some room |}
          /\ Room.id room = "room_3_1"
          /\ (List.NoDup (List.map Room.id (ROOMS initial_store)) ->
              room = conf_room c))
    /\ (forall other, other <> "0b7e" ->
          get_booking_details st1 other = get_booking_details initial_store other).
Proof.
  do 2 eexists. split; [reflexivity|].
  apply (booked_stay_can_be_looked_up initial_store "0b7e" "hotel_3" "room_3_1" "Ann"
           "ann@example.com" "2025-07-25" "2025-07-27").
  - intros b Hb. simpl in Hb.
    repeat (destruct Hb as [<-|Hb]; [discriminate|]). destruct Hb.
  - reflexivity.
Defined.

(** * What the tools never change, and what the statistics count *)

Lemma update_first_same {A : Type} (p : A -> bool) (f : A -> A) (l : list A) :
  (forall x, In x l -> f x = x) -> update_first p f l = l.
Proof.
  induction l as [|x l IH]; simpl; intros Hf; [reflexivity|].
  destruct (p x).
  - f_equal. apply Hf. now left.
  - f_equal. apply IH. intros y Hy. apply Hf. now right.
Qed.

Lemma update_first_split {A : Type} (p : A -> bool) (f : A -> A) (l : list A) b :
  List.find p l = Some b ->
  exists l1 l2, l = (l1 ++ b :: l2)%list /\ update_first p f l = (l1 ++ f b :: l2)%list.
Proof.
  induction l as [|x l IH]; simpl; [discriminate|].
  destruct (p x).
  - intros [= ->]. exists [], l. split; reflexivity.
  - intros Hfind. destruct (IH Hfind) as (l1 & l2 & -> & ->).
    exists (x :: l1), l2. split; reflexivity.
Qed.

Lemma initial_rooms_available :
  forall room, In room initial_ROOMS -> Room.available room = true.
Proof.
  apply List.Forall_forall. unfold initial_ROOMS.
  repeat (constructor; [reflexivity|]). constructor.
Qed.

Lemma book_hotel_inventory st booking_id hotel_id room_id guest_name guest_email
  check_in check_out :
  let st' := snd (book_hotel st booking_id hotel_id room_id guest_name guest_email
                    check_in check_out) in
  HOTELS st' = HOTELS st /\ ROOMS st' = ROOMS st
  /\ exists added, BOOKINGS st' = (BOOKINGS st ++ added)%list.
Proof.
  destruct (book_hotel_outcome st booking_id hotel_id room_id guest_name
              guest_email check_in check_out); simpl;
    repeat split; try reflexivity;
    try (exists []; symmetry; apply app_nil_r).
  eexists [_]. reflexivity.
Qed.

Lemma cancel_booking_inventory st booking_id :
  (forall room, In room (ROOMS st) -> Room.available room = true) ->
  let st' := snd (cancel_booking st booking_id) in
  HOTELS st' = HOTELS st /\ ROOMS st' = ROOMS st
  /\ List.map Booking.id (BOOKINGS st') = List.map Booking.id (BOOKINGS st).
Proof.
  intros Hav. unfold cancel_booking.
  destruct (find_booking st booking_id) as [booking|]; simpl; [|auto].
  destruct (String.eqb _ "cancelled"); simpl; [auto|].
  repeat split.
  - apply update_first_same. intros room Hroom.
    apply set_available_same. now apply Hav.
  - apply update_first_map. intros b. reflexivity.
Qed.

(** X7. The inventory never changes.  In every store the server can reach
    from its initial data, by any [book_hotel] and [cancel_booking] calls,
    the hotels and the rooms are the initial ones, every room still flagged
    available; bookings are only ever added at the end of the ledger (the
    initial ids stay its first entries, in order).  So [book_hotel] never
    answers "Room is not available", and [get_hotel_details] answers the
    same for every hotel whatever has been booked. *)
Theorem inventory_never_changes st :
  reachable st ->
  HOTELS st = initial_HOTELS
  /\ ROOMS st = initial_ROOMS
  /\ (exists later,
        List.map Booking.id (BOOKINGS st)
        = (List.map Booking.id initial_BOOKINGS ++ later)%list)
  /\ (forall booking_id hotel_id room_id guest_name guest_email check_in check_out,
        fst (book_hotel st booking_id hotel_id room_id guest_name guest_email
               check_in check_out)
        <> BookError "Room is not available")
  /\ (forall hotel_id,
        get_hotel_details st hotel_id = get_hotel_details initial_store hotel_id).
Proof.
  intros Hreach.
  assert (Hinv : HOTELS st = initial_HOTELS /\ ROOMS st = initial_ROOMS
                 /\ exists later,
                      List.map Booking.id (BOOKINGS st)
                      = (List.map Booking.id initial_BOOKINGS ++ later)%list).
  { induction Hreach as [|st ? ? ? ? ? ? ? _ (IHh & IHr & later & IHb)
                         |st ? _ (IHh & IHr & later & IHb)].
    - repeat split. exists []. symmetry. apply app_nil_r.
    - destruct (book_hotel_inventory st booking_id hotel_id room_id guest_name
                  guest_email check_in check_out) as (Hh & Hr & added & Hb).
      rewrite Hh, Hr, Hb. repeat split; try assumption.
      exists (later ++ List.map Booking.id added)%list.
      now rewrite List.map_app, IHb, <- app_assoc.
    - destruct (cancel_booking_inventory st booking_id) as (Hh & Hr & Hb).
      { rewrite IHr. apply initial_rooms_available. }
      rewrite Hh, Hr, Hb. repeat split; try assumption. now exists later. }
  destruct Hinv as (Hh & Hr & Hb). repeat split; try assumption.
  - intros booking_id hotel_id room_id guest_name guest_email check_in check_out.
    destruct (book_hotel_outcome st booking_id hotel_id room_id guest_name
                guest_email check_in check_out)
      as [ | |hotel room _ Hroom Ha| | | | ]; simpl; try discriminate.
    exfalso. apply find_room_some in Hroom as (Hin & _).
    rewrite Hr in Hin. apply initial_rooms_available in Hin. congruence.
  - intros hotel_id. unfold get_hotel_details, find_hotel.
    rewrite Hh, Hr. reflexivity.
Qed.

(** The store after a booking, a refused request and two cancellations. *)
Lemma inventory_never_changes_witness :
  ROOMS
    (snd (cancel_booking
            (snd (cancel_booking
                    (snd (book_hotel store_with_booking_A "0b7e" "hotel_1" "room_1_2"
                            "Bob" "bob@example.com" "2025-7-26" "2025-7-28"))
                    "booking_001"))
            "0b7e"))
  = initial_ROOMS.
Proof.
  apply inventory_never_changes.
  do 2 apply reachable_cancel.
  apply reachable_book.
  unfold store_with_booking_A. apply reachable_book. apply reachable_initial.
Defined.

(** ** Counters *)

Lemma count_update_first {A : Type} (p q : A -> bool) (f : A -> A) (l : list A) b :
  List.find p l = Some b ->
  (List.length (List.filter q (update_first p f l)) + one_if (q b)
   = List.length (List.filter q l) + one_if (q (f b)))%nat.
Proof.
  intros Hfind.
  destruct (update_first_split p f l b Hfind) as (l1 & l2 & -> & ->).
  rewrite !List.filter_app, !length_app. simpl.
  destruct (q b), (q (f b)); simpl; lia.
Qed.

Lemma count_by_status (l : list Booking.t) :
  List.Forall known_status l ->
  List.length l
  = (List.length (List.filter (has_status "confirmed") l)
     + List.length (List.filter (has_status "pending") l)
     + List.length (List.filter (has_status "cancelled") l))%nat.
Proof.
  induction 1 as [|b l Hb _ IH]; [reflexivity|].
  rewrite !filter_cons.
  change (has_status "confirmed" b) with (String.eqb (Booking.status b) "confirmed").
  change (has_status "pending" b) with (String.eqb (Booking.status b) "pending").
  change (has_status "cancelled" b) with (String.eqb (Booking.status b) "cancelled").
  destruct Hb as [-> | [-> | ->]]; simpl; lia.
Qed.

Lemma reachable_known_status st :
  reachable st -> List.Forall known_status (BOOKINGS st).
Proof.
  induction 1 as [|st ? ? ? ? ? ? ? _ IH|st booking_id _ IH].
  - unfold known_status. simpl.
    repeat (constructor; [auto|]). constructor.
  - destruct (book_hotel_outcome st booking_id hotel_id room_id guest_name
                guest_email check_in check_out); simpl; try assumption.
    apply List.Forall_app. split; [assumption|].
    constructor; [|constructor]. now left.
  - unfold cancel_booking.
    destruct (find_booking st booking_id) as [booking|]; simpl; [|assumption].
    destruct (String.eqb _ "cancelled"); simpl; [assumption|].
    rewrite List.Forall_forall in *. intros b Hb.
    apply in_update_first in Hb as [Hb|(x & _ & ->)]; [now apply IH|].
    right; right. reflexivity.
Qed.

(** X8. The statistics account for every booking.  In every store the
    server can reach from its initial data, [total_bookings] is the sum of
    [confirmed_bookings], [pending_bookings] and [cancelled_bookings]: no
    booking has a status outside the three that are counted. *)
Theorem every_booking_is_counted (py_sum : list float -> float) st :
  reachable st ->
  let s := get_booking_statistics py_sum st in
  total_bookings s
  = (confirmed_bookings s + pending_bookings s + cancelled_bookings s)%nat.
Proof.
  intros Hreach. simpl. apply count_by_status. now apply reachable_known_status.
Qed.

Lemma every_booking_is_counted_witness :
  let s := get_booking_statistics sum_left
             (snd (cancel_booking store_with_booking_A "booking_004")) in
  total_bookings s
  = (confirmed_bookings s + pending_bookings s + cancelled_bookings s)%nat.
Proof.
  apply (every_booking_is_counted sum_left).
  apply reachable_cancel.
  unfold store_with_booking_A. apply reachable_book. apply reachable_initial.
Defined.

(** X9. A confirmed booking in the statistics.  After [book_hotel] has
    confirmed a booking, [total_bookings] and [confirmed_bookings] are each
    one more than before, [pending_bookings] and [cancelled_bookings] are
    the same, and [total_revenue] is the sum of the confirmed prices of
    before followed by the price of the new booking. *)
Theorem booking_is_counted (py_sum : list float -> float) st booking_id hotel_id
  room_id guest_name guest_email check_in check_out c st1 :
  book_hotel st booking_id hotel_id room_id guest_name guest_email check_in check_out
  = (BookConfirmed c, st1) ->
  let s := get_booking_statistics py_sum st in
  let s1 := get_booking_statistics py_sum st1 in
  total_bookings s1 = S (total_bookings s)
  /\ confirmed_bookings s1 = S (confirmed_bookings s)
  /\ pending_bookings s1 = pending_bookings s
  /\ cancelled_bookings s1 = cancelled_bookings s
  /\ total_revenue s1
     = py_sum (List.map Booking.total_price
                 (List.filter (has_status "confirmed") (BOOKINGS st))
               ++ [Booking.total_price (booking_confirmation c)])%list.
Proof.
  intros Hbook.
  pose proof (book_hotel_outcome st booking_id hotel_id room_id guest_name
                guest_email check_in check_out) as Hout.
  rewrite Hbook in Hout. inversion Hout; subst; clear Hout. simpl.
  rewrite !List.filter_app, !length_app, List.map_app. simpl.
  repeat split; lia.
Qed.

Lemma booking_is_counted_witness :
  exists c st1,
    book_hotel initial_store "0b7e" "hotel_3" "room_3_1" "Ann" "ann@example.com"
      "2025-07-25" "2025-07-27" = (BookConfirmed c, st1)
    /\ let s := get_booking_statistics sum_left initial_store in
       let s1 := get_booking_statistics sum_left st1 in
       total_bookings s1 = S (total_bookings s)
       /\ confirmed_bookings s1 = S (confirmed_bookings s)
       /\ pending_bookings s1 = pending_bookings s
       /\ cancelled_bookings s1 = cancelled_bookings s
       /\ total_revenue s1
          = sum_left (List.map Booking.total_price
                        (List.filter (has_status "confirmed") (BOOKINGS initial_store))
                      ++ [Booking.total_price (booking_confirmation c)])%list.
Proof.
  do 2 eexists. split; [reflexivity|].
  apply (booking_is_counted sum_left initial_store "0b7e" "hotel_3" "room_3_1" "Ann"
           "ann@example.com" "2025-07-25" "2025-07-27").
  reflexivity.
Defined.

(** X10. A cancellation in the statistics.  After a successful
    [cancel_booking], [total_bookings] is the same, [cancelled_bookings] is
    one more, and the counter of the booking's former status (confirmed or
    pending) is one less, the other one unchanged.  The revenue no longer
    includes a cancelled confirmed booking: the refunded amount is taken
    out of the prices summed; cancelling a pending booking leaves the
    prices summed as they were. *)
Theorem cancellation_is_counted (py_sum : list float -> float) st booking_id r st1 :
  cancel_booking st booking_id = (Cancelled r, st1) ->
  let s := get_booking_statistics py_sum st in
  let s1 := get_booking_statistics py_sum st1 in
  total_bookings s1 = total_bookings s
  /\ cancelled_bookings s1 = S (cancelled_bookings s)
  /\ (confirmed_bookings s1 + one_if (String.eqb (previous_status r) "confirmed")
      = confirmed_bookings s)%nat
  /\ (pending_bookings s1 + one_if (String.eqb (previous_status r) "pending")
      = pending_bookings s)%nat
  /\ exists before after,
       List.map Booking.total_price
         (List.filter (has_status "confirmed") (BOOKINGS st))
       = (before
          ++ (if String.eqb (previous_status r) "confirmed"
              then [refund_amount r] else [])
          ++ after)%list
       /\ total_revenue s1 = py_sum (before ++ after)%list.
Proof.
  unfold cancel_booking.
  destruct (find_booking st booking_id) as [booking|] eqn:Hfind; [|discriminate].
  destruct (String.eqb_spec (Booking.status booking) "cancelled") as [|Hne];
    [discriminate|].
  intros [= <- <-]. simpl.
  set (p := fun b => String.eqb (Booking.id b) booking_id).
  set (f := Booking.set_status "cancelled").
  split; [apply update_first_length|].
  split.
  { pose proof (count_update_first p (has_status "cancelled") f _ _ Hfind) as Hc.
    unfold has_status at 2 4 in Hc. simpl in Hc.
    destruct (String.eqb_spec (Booking.status booking) "cancelled");
      [contradiction|]. simpl in Hc. lia. }
  split.
  { pose proof (count_update_first p (has_status "confirmed") f _ _ Hfind) as Hc.
    unfold has_status at 2 4 in Hc. simpl in Hc. lia. }
  split.
  { pose proof (count_update_first p (has_status "pending") f _ _ Hfind) as Hc.
    unfold has_status at 2 4 in Hc. simpl in Hc. lia. }
  destruct (update_first_split p f _ _ Hfind) as (l1 & l2 & Hl & ->).
  rewrite Hl.
  exists (List.map Booking.total_price (List.filter (has_status "confirmed") l1)),
         (List.map Booking.total_price (List.filter (has_status "confirmed") l2)).
  rewrite !List.filter_app, !List.map_app. simpl.
  unfold has_status at 2 5. simpl.
  destruct (String.eqb (Booking.status booking) "confirmed"); split; reflexivity.
Qed.

(** Cancelling the pending booking of the initial data. *)
Lemma cancellation_is_counted_witness :
  exists r st1,
    cancel_booking initial_store "booking_004" = (Cancelled r, st1)
    /\ let s := get_booking_statistics sum_left initial_store in
       let s1 := get_booking_statistics sum_left st1 in
       total_bookings s1 = total_bookings s
       /\ cancelled_bookings s1 = S (cancelled_bookings s)
       /\ (confirmed_bookings s1 + one_if (String.eqb (previous_status r) "confirmed")
           = confirmed_bookings s)%nat
       /\ (pending_bookings s1 + one_if (String.eqb (previous_status r) "pending")
           = pending_bookings s)%nat
       /\ exists before after,
            List.map Booking.total_price
              (List.filter (has_status "confirmed") (BOOKINGS initial_store))
            = (before
               ++ (if String.eqb (previous_status r) "confirmed"
                   then [refund_amount r] else [])
               ++ after)%list
            /\ total_revenue s1 = sum_left (before ++ after)%list.
Proof.
  do 2 eexists. split; [reflexivity|].
  apply (cancellation_is_counted sum_left initial_store "booking_004").
  reflexivity.
Defined.

(** * [search_hotels] does not read the case of its query *)

Lemma lower_char_idempotent c :
  PyStr.lower_char (PyStr.lower_char c) = PyStr.lower_char c.
Proof. destruct c as [[] [] [] [] [] [] [] []]; reflexivity. Qed.

Lemma isspace_lower_char c : PyStr.isspace (PyStr.lower_char c) = PyStr.isspace c.
Proof. destruct c as [[] [] [] [] [] [] [] []]; reflexivity. Qed.

Lemma comma_lower_char c :
  Ascii.eqb (PyStr.lower_char c) "," = Ascii.eqb c ",".
Proof. destruct c as [[] [] [] [] [] [] [] []]; reflexivity. Qed.

Lemma lower_idempotent s : PyStr.lower (PyStr.lower s) = PyStr.lower s.
Proof.
  induction s as [|c s IH]; simpl; [reflexivity|].
  now rewrite lower_char_idempotent, IH.
Qed.

Lemma truthy_lower s : PyStr.truthy (PyStr.lower s) = PyStr.truthy s.
Proof. destruct s; reflexivity. Qed.

Lemma lstrip_lower s : PyStr.lstrip (PyStr.lower s) = PyStr.lower (PyStr.lstrip s).
Proof.
  induction s as [|c s IH]; simpl; [reflexivity|].
  rewrite isspace_lower_char. destruct (PyStr.isspace c); [exact IH|reflexivity].
Qed.

Lemma rstrip_lower s : PyStr.rstrip (PyStr.lower s) = PyStr.lower (PyStr.rstrip s).
Proof.
  induction s as [|c s IH]; simpl; [reflexivity|].
  rewrite IH, isspace_lower_char.
  destruct (PyStr.rstrip s); simpl; [|reflexivity].
  destruct (PyStr.isspace c); reflexivity.
Qed.

Lemma strip_lower s : PyStr.strip (PyStr.lower s) = PyStr.lower (PyStr.strip s).
Proof. unfold PyStr.strip. now rewrite lstrip_lower, rstrip_lower. Qed.

Lemma split_lower s :
  PyStr.split "," (PyStr.lower s) = List.map PyStr.lower (PyStr.split "," s).
Proof.
  induction s as [|c s IH]; simpl; [reflexivity|].
  rewrite comma_lower_char, IH.
  destruct (Ascii.eqb c ","); [reflexivity|].
  destruct (PyStr.split "," s); reflexivity.
Qed.

Lemma filter_map {A B : Type} (p : B -> bool) (f : A -> B) (l : list A) :
  List.filter p (List.map f l) = List.map f (List.filter (fun x => p (f x)) l).
Proof.
  induction l as [|x l IH]; simpl; [reflexivity|].
  destruct (p (f x)); simpl; now rewrite IH.
Qed.

Lemma parse_amenities_lower amenities :
  parse_amenities (PyStr.lower amenities) = parse_amenities amenities.
Proof.
  unfold parse_amenities. rewrite split_lower, filter_map, List.map_map.
  rewrite (List.filter_ext _ (fun a => PyStr.truthy (PyStr.strip a)))
    by (intros a; now rewrite strip_lower, truthy_lower).
  apply List.map_ext. intros a. now rewrite strip_lower, lower_idempotent.
Qed.

Lemma location_ok_lower location hotel :
  location_ok (PyStr.lower location) hotel = location_ok location hotel.
Proof.
  unfold location_ok.
  now rewrite lower_idempotent, strip_lower, !truthy_lower.
Qed.

Lemma search_hotels_lower st location min_rating max_price amenities :
  search_hotels st (PyStr.lower location) min_rating max_price (PyStr.lower amenities)
  = search_hotels st location min_rating max_price amenities.
Proof.
  unfold search_hotels. rewrite parse_amenities_lower.
  rewrite (List.filter_ext
             (hotel_kept (PyStr.lower location) min_rating max_price
                (parse_amenities amenities))
             (hotel_kept location min_rating max_price (parse_amenities amenities)));
    [reflexivity|].
  intros hotel. unfold hotel_kept. now rewrite location_ok_lower.
Qed.

(** X11. [search_hotels] ignores the case of the query.  Two calls whose
    [location] strings are equal once lowercased, and whose [amenities]
    strings are equal once lowercased, return the same hotels in the same
    order and the same count, in every inventory and for every rating and
    price bound. *)
Theorem search_ignores_case st location location' min_rating max_price
  amenities amenities' :
  PyStr.lower location = PyStr.lower location' ->
  PyStr.lower amenities = PyStr.lower amenities' ->
  search_hotels st location min_rating max_price amenities
  = search_hotels st location' min_rating max_price amenities'.
Proof.
  intros Hloc Ham.
  rewrite <- (search_hotels_lower st location), <- (search_hotels_lower st location').
  now rewrite Hloc, Ham.
Qed.

Lemma search_ignores_case_witness :
  search_hotels initial_store "MIAMI" 4%float 400%float "Pool, SPA"
  = search_hotels initial_store "miami" 4%float 400%float "pool, spa".
Proof.
  apply search_ignores_case; reflexivity.
Defined.

(** ** A hotel is found by its own location *)

Lemma lstrip_suffix s : exists pre, s = String.append pre (PyStr.lstrip s).
Proof.
  induction s as [|c s [pre IH]]; simpl.
  - now exists EmptyString.
  - destruct (PyStr.isspace c).
    + exists (String c pre). rewrite append_String. congruence.
    + now exists EmptyString.
Qed.

Lemma rstrip_prefix s : exists post, s = String.append (PyStr.rstrip s) post.
Proof.
  induction s as [|c s [post IH]]; simpl.
  - now exists EmptyString.
  - destruct (PyStr.rstrip s) as [|c' r] eqn:Hr.
    + destruct (PyStr.isspace c).
      * exists (String c s). reflexivity.
      * exists s. reflexivity.
    + exists post. rewrite append_String. congruence.
Qed.

Lemma strip_substring s : is_substring (PyStr.strip s) s.
Proof.
  unfold is_substring, PyStr.strip.
  destruct (lstrip_suffix s) as [pre Hpre].
  destruct (rstrip_prefix (PyStr.lstrip s)) as [post Hpost].
  exists pre, post. now rewrite <- Hpost.
Qed.

Lemma location_ok_own hotel : location_ok (Hotel.location hotel) hotel = true.
Proof.
  unfold location_ok.
  destruct (_ && _); [|reflexivity].
  rewrite strip_lower.
  assert (H : PyStr.contains (PyStr.lower (PyStr.strip (Hotel.location hotel)))
                (PyStr.lower (Hotel.location hotel)) = true).
  { rewrite <- strip_lower. apply contains_iff, strip_substring. }
  now rewrite H.
Qed.

(** X12. A hotel is found by its own location.  With no amenity requested,
    a hotel of the inventory whose rating is not below [min_rating] and
    whose price is not above [max_price] is among the results of
    [search_hotels] for every [location] that is the hotel's own location
    string up to case. *)
Theorem hotel_found_by_its_location st hotel location min_rating max_price :
  In hotel (HOTELS st) ->
  PrimFloat.ltb (Hotel.rating hotel) min_rating = false ->
  PrimFloat.ltb max_price (Hotel.price_per_night hotel) = false ->
  PyStr.lower location = PyStr.lower (Hotel.location hotel) ->
  In hotel (hotels (search_hotels st location min_rating max_price EmptyString)).
Proof.
  intros Hin Hrating Hprice Hloc.
  rewrite <- (search_hotels_lower st location min_rating max_price EmptyString),
    Hloc, (search_hotels_lower st (Hotel.location hotel)).
  apply in_search_hotels. split; [exact Hin|].
  unfold hotel_kept. rewrite location_ok_own, Hrating, Hprice. reflexivity.
Qed.

Lemma hotel_found_by_its_location_witness :
  In beach_pool_hotel
    (hotels (search_hotels beach_pool_store "MIAMI, fl" 4%float 400%float EmptyString)).
Proof.
  apply hotel_found_by_its_location.
  - now left.
  - reflexivity.
  - reflexivity.
  - reflexivity.
Defined.

(** * Runs of the workflow graph *)

Section Runs.
Import Workflow Run.

Lemma failure_message_truthy (prefix e : string) :
  PyStr.truthy prefix = true -> PyStr.truthy (String.append prefix e) = true.
Proof. destruct prefix; [discriminate|reflexivity]. Qed.

Lemma should_search_hotels_cases state :
  (PyStr.truthy (error_message state) = true
   /\ should_search_hotels state = "error")
  \/ (error_message state = EmptyString
      /\ truthy (get "has_hotel_intent" (search_parameters state)) = true
      /\ should_search_hotels state = "search")
  \/ (error_message state = EmptyString
      /\ truthy (get "has_hotel_intent" (search_parameters state)) = false
      /\ should_search_hotels state = "end").
Proof.
  unfold should_search_hotels.
  destruct (error_message state); simpl; [|auto].
  destruct (truthy _); auto.
Qed.

Lemma should_check_availability_cases state :
  (PyStr.truthy (error_message state) = true
   /\ should_check_availability state = "error")
  \/ (error_message state = EmptyString
      /\ truthy (get_or "hotels" (PList []) (search_results state)) = true
      /\ should_check_availability state = "check_availability")
  \/ (error_message state = EmptyString
      /\ truthy (get_or "hotels" (PList []) (search_results state)) = false
      /\ should_check_availability state = "end").
Proof.
  unfold should_check_availability.
  destruct (error_message state); simpl; [|auto].
  destruct (truthy _); auto.
Qed.

Lemma should_proceed_to_booking_routes state :
  (PyStr.truthy (error_message state) = true
   /\ should_proceed_to_booking state = "error")
  \/ (error_message state = EmptyString
      /\ should_proceed_to_booking state = "book")
  \/ (error_message state = EmptyString
      /\ should_proceed_to_booking state = "end").
Proof.
  unfold should_proceed_to_booking.
  destruct (error_message state); simpl; [|auto].
  destruct (_ && _); auto.
Qed.

(** The edges, read off the routers. *)
Lemma next_position_cases n state p :
  next_position n state = Some p ->
  match n with
  | date_extractor => p = At query_analyzer
  | query_analyzer =>
      (p = At error_handler /\ PyStr.truthy (error_message state) = true)
      \/ (p = At hotel_searcher /\ error_message state = EmptyString)
      \/ (p = END /\ error_message state = EmptyString)
  | hotel_searcher =>
      (p = At error_handler /\ PyStr.truthy (error_message state) = true)
      \/ (p = At availability_checker /\ error_message state = EmptyString
          /\ truthy (get_or "hotels" (PList []) (search_results state)) = true)
      \/ (p = END /\ error_message state = EmptyString)
  | availability_checker =>
      (p = At error_handler /\ PyStr.truthy (error_message state) = true)
      \/ (p = At booking_executor /\ error_message state = EmptyString)
      \/ (p = END /\ error_message state = EmptyString)
  | booking_executor | error_handler => p = END
  end.
Proof.
  destruct n; simpl; try (intros [= <-]; reflexivity).
  - destruct (should_search_hotels_cases state)
      as [(He & ->)|[(He & _ & ->)|(He & _ & ->)]]; intros [= <-]; auto.
  - destruct (should_check_availability_cases state)
      as [(He & ->)|[(He & Hh & ->)|(He & _ & ->)]]; intros [= <-]; auto.
  - destruct (should_proceed_to_booking_routes state)
      as [(He & ->)|[(He & ->)|(He & ->)]]; intros [= <-]; auto.
Qed.

Lemma next_position_total n state :
  exists p, next_position n state = Some p /\ (stage (At n) < stage p)%nat.
Proof.
  destruct n; simpl; try (eexists; split; [reflexivity|simpl; lia]).
  - destruct (should_search_hotels_cases state)
      as [(_ & ->)|[(_ & _ & ->)|(_ & _ & ->)]];
      eexists; (split; [reflexivity|simpl; lia]).
  - destruct (should_check_availability_cases state)
      as [(_ & ->)|[(_ & _ & ->)|(_ & _ & ->)]];
      eexists; (split; [reflexivity|simpl; lia]).
  - destruct (should_proceed_to_booking_routes state)
      as [(_ & ->)|[(_ & ->)|(_ & ->)]];
      eexists; (split; [reflexivity|simpl; lia]).
Qed.

Lemma stage_bound p : (stage p <= 5)%nat.
Proof. destruct p as [[]|]; simpl; lia. Qed.

Lemma reaches_in_stage k c c' :
  reaches_in k c c' -> (stage (fst c) + k <= stage (fst c'))%nat.
Proof.
  induction 1 as [c|k c1 c2 c3 _ IH Hstep]; [lia|].
  destruct Hstep as [n s s' p _ Hnext]. simpl in *.
  destruct (next_position_total n s') as (p' & Hp' & Hlt).
  rewrite Hnext in Hp'. injection Hp' as <-. simpl in Hlt. lia.
Qed.

Lemma step_on_track c c' : on_track c -> step c c' -> on_track c'.
Proof.
  intros Htrack Hstep. destruct Hstep as [n s s' p Hnode Hnext].
  apply next_position_cases in Hnext.
  unfold on_track, clean, booked, error_was_handled, booking_failure_unhandled,
    stopped_early, clean in *.
  destruct Hnode; simpl in *;
    repeat match goal with
           | H : _ \/ _ |- _ => destruct H
           | H : _ /\ _ |- _ => destruct H
           end;
    subst; simpl in *;
    try match goal with
        | H : String.append _ _ = EmptyString |- _ => discriminate H
        end;
    try congruence;
    try (repeat split; (assumption || reflexivity));
    try (right; right; right; repeat split; auto 6; fail);
    try (left; repeat split; (assumption || reflexivity); fail);
    try (right; left; repeat split; (assumption || reflexivity); fail);
    try (right; right; left; repeat split; eauto; fail).
Qed.

Lemma reaches_on_track c c' : on_track c -> reaches c c' -> on_track c'.
Proof.
  intros Htrack Hrun. induction Hrun as [c|c1 c2 c3 _ IH Hstep]; [assumption|].
  apply (step_on_track c2 c3); [apply IH; assumption|assumption].
Qed.

Lemma step_in_step n s2 s2' p3 s3 :
  in_step (At n) s2 s2' -> node_returns n s2 s3 -> next_position n s3 = Some p3 ->
  exists s3', node_returns n s2' s3' /\ next_position n s3' = Some p3
              /\ in_step p3 s3 s3'.
Proof.
  intros HR Hnode Hnext.
  pose proof (next_position_cases _ _ _ Hnext) as Hcases.
  destruct Hnode
    as [s dates dbg|s dates dbg|s params dbg|s e dbg|s results dbg|s e dbg
       |s dbg Hno|s hotel rest r dbg Hh|s hotel rest dbg Hh|s e dbg
       |s result dbg|s e dbg|s dbg];
    destruct s as [q ed sp sr sh gi br cs em wc di],
             s2' as [q' ed' sp' sr' sh' gi' br' cs' em' wc' di'];
    unfold in_step, same_request in HR; simpl in HR, Hcases.
  - destruct HR as (-> & -> & -> & -> & -> & ->). subst p3.
    eexists. split; [apply (date_extraction_complete _ dates dbg)|].
    split; reflexivity.
  - destruct HR as (-> & -> & -> & -> & -> & ->). subst p3.
    eexists. split; [apply (date_extraction_fallback _ dates dbg)|].
    split; reflexivity.
  - injection HR as -> -> -> -> -> -> -> ->.
    eexists. split; [apply (query_analysis_complete _ params dbg)|].
    split; [rewrite <- Hnext; reflexivity|].
    destruct Hcases as [(-> & _)|[(-> & _)|(-> & _)]]; simpl; auto.
  - injection HR as -> -> -> -> -> -> -> ->.
    eexists. split; [apply (query_analysis_failed _ e dbg)|].
    split; [rewrite <- Hnext; reflexivity|].
    destruct Hcases as [(-> & _)|[(_ & He)|(_ & He)]]; simpl; auto;
      discriminate He.
  - injection HR as -> -> -> -> -> -> -> -> ->.
    eexists. split; [apply (hotel_search_complete _ results dbg)|].
    split; [rewrite <- Hnext; reflexivity|].
    destruct Hcases as [(-> & _)|[(-> & _ & Hh)|(-> & _)]]; simpl; auto.
  - injection HR as -> -> -> -> -> -> -> -> ->.
    eexists. split; [apply (hotel_search_failed _ e dbg)|].
    split; [rewrite <- Hnext; reflexivity|].
    destruct Hcases as [(-> & _)|[(_ & He & _)|(_ & He)]]; simpl; auto;
      discriminate He.
  - destruct HR as (_ & Htruthy). simpl in Hno. congruence.
  - destruct HR as (HR & _). injection HR as -> -> -> -> -> -> -> -> -> ->.
    simpl in Hh.
    eexists. split; [apply (availability_check_complete
                       (mkstate q' ed' sp' sr' sh' gi' br' cs' em' wc' di')
                       hotel rest r dbg Hh)|].
    split; [rewrite <- Hnext; reflexivity|].
    destruct Hcases as [(-> & _)|[(-> & _)|(-> & _)]]; simpl; auto.
    split; [reflexivity|]. exists hotel, rest. split; [exact Hh|].
    right. now exists r.
  - destruct HR as (HR & _). injection HR as -> -> -> -> -> -> -> -> -> ->.
    simpl in Hh.
    eexists. split; [apply (availability_tool_missing
                       (mkstate q' ed' sp' sr' sh' gi' br' cs' em' wc' di')
                       hotel rest dbg Hh)|].
    split; [rewrite <- Hnext; reflexivity|].
    destruct Hcases as [(-> & _)|[(-> & _)|(-> & _)]]; simpl; auto.
    split; [reflexivity|]. exists hotel, rest. split; [exact Hh|]. now left.
  - destruct HR as (HR & _). injection HR as -> -> -> -> -> -> -> -> -> ->.
    eexists. split; [apply (availability_check_failed _ e dbg)|].
    split.
    + destruct Hcases as [(-> & _)|[(_ & He)|(_ & He)]];
        [reflexivity|discriminate He..].
    + destruct Hcases as [(-> & _)|[(_ & He)|(_ & He)]]; simpl; auto;
        discriminate He.
  - destruct HR as (HR & _). rewrite <- HR. subst p3.
    eexists. split; [apply (booking_complete _ result dbg)|].
    split; reflexivity.
  - destruct HR as (HR & _). rewrite <- HR. subst p3.
    eexists. split; [apply (booking_failed _ e dbg)|].
    split; reflexivity.
  - subst p3. eexists. split; [apply (error_handled _ dbg)|].
    split; reflexivity.
Qed.

Lemma reaches_in_step s0 s0' c :
  same_request s0 s0' -> reaches (At entry_point, s0) c ->
  exists s', reaches (At entry_point, s0') (fst c, s') /\ in_step (fst c) (snd c) s'.
Proof.
  intros Hsame Hrun.
  remember (At entry_point, s0) as c0 eqn:Hc0.
  induction Hrun as [c|c1 c2 c3 Hrun IH Hstep]; subst.
  - exists s0'. split; [apply reaches_refl|exact Hsame].
  - destruct (IH eq_refl) as (s2' & Hrun' & HR). clear IH.
    destruct Hstep as [n s2 s3 p3 Hnode Hnext]. simpl in *.
    destruct (step_in_step n s2 s2' p3 s3 HR Hnode Hnext)
      as (s3' & Hnode' & Hnext' & HR').
    exists s3'. split; [|exact HR'].
    eapply reaches_step; [exact Hrun'|]. now apply step_node.
Qed.

Lemma same_request_refl s : same_request s s.
Proof. repeat split. Qed.

End Runs.

(** The booking run of [BookingRun], from any initial state: four nodes
    return, and the run stands at [booking_executor]. *)
Lemma booking_run_reaches_executor s0 :
  Workflow.error_message s0 = EmptyString ->
  Workflow.truthy (Workflow.get "name" (Workflow.guest_info s0)) = true ->
  Workflow.truthy (Workflow.get "email" (Workflow.guest_info s0)) = true ->
  Run.reaches_in 4 (Workflow.At Workflow.entry_point, s0)
    (Workflow.At Workflow.booking_executor,
     BookingRun.b4 (BookingRun.b3 (BookingRun.b2 (BookingRun.b1 s0)))).
Proof.
  intros Herr Hname Hemail.
  destruct s0 as [q ed sp sr sh gi br cs em wc di]. simpl in *. subst em.
  set (s0 := Workflow.mkstate q ed sp sr sh gi br cs EmptyString wc di).
  apply Run.reaches_in_step
    with (c2 := (Workflow.At Workflow.availability_checker,
                 BookingRun.b3 (BookingRun.b2 (BookingRun.b1 s0)))).
  apply Run.reaches_in_step
    with (c2 := (Workflow.At Workflow.hotel_searcher,
                 BookingRun.b2 (BookingRun.b1 s0))).
  apply Run.reaches_in_step
    with (c2 := (Workflow.At Workflow.query_analyzer, BookingRun.b1 s0)).
  apply Run.reaches_in_step with (c2 := (Workflow.At Workflow.entry_point, s0)).
  apply Run.reaches_in_refl.
  - apply Workflow.step_node;
      [apply Workflow.date_extraction_complete|reflexivity].
  - apply Workflow.step_node;
      [apply Workflow.query_analysis_complete|reflexivity].
  - apply Workflow.step_node;
      [apply Workflow.hotel_search_complete|reflexivity].
  - apply Workflow.step_node.
    + eapply Workflow.availability_check_complete. reflexivity.
    + simpl. unfold Workflow.should_proceed_to_booking. simpl.
      rewrite Hname, Hemail. reflexivity.
Qed.

Lemma reaches_in_reaches k c c' : Run.reaches_in k c c' -> Workflow.reaches c c'.
Proof.
  induction 1; [apply Workflow.reaches_refl|].
  eapply Workflow.reaches_step; eauto.
Qed.

(** X13. The workflow always advances.  Along every run from the entry
    point the position moves strictly forward in the order
    [date_extractor], [query_analyzer], [hotel_searcher],
    [availability_checker], then [booking_executor] or [error_handler], then
    [END]: after [k] super-steps the run is at least [k] stages on, so no
    node runs twice and no run has more than five super-steps.  And
    whatever the node at the current position returns, the label its router
    gives is a key of the path map of its conditional edge: there is a next
    position, further on. *)
Theorem workflow_always_advances k s0 p s :
  Run.reaches_in k (Workflow.At Workflow.entry_point, s0) (p, s) ->
  (k <= Run.stage p <= 5)%nat
  /\ match p with
     | Workflow.END => True
     | Workflow.At n =>
         forall s', Workflow.node_returns n s s' ->
           exists p', Workflow.step (Workflow.At n, s) (p', s')
                      /\ (Run.stage p < Run.stage p')%nat
     end.
Proof.
  intros Hrun. split.
  - apply reaches_in_stage in Hrun. simpl in Hrun.
    pose proof (stage_bound p). lia.
  - destruct p as [n|]; [|exact I].
    intros s' Hnode.
    destruct (next_position_total n s') as (p' & Hnext & Hlt).
    exists p'. split; [now apply Workflow.step_node|exact Hlt].
Qed.

Lemma workflow_always_advances_witness :
  (4 <= Run.stage (Workflow.At Workflow.booking_executor) <= 5)%nat
  /\ forall s',
       Workflow.node_returns Workflow.booking_executor BookingRun.at_booking s' ->
       exists p',
         Workflow.step (Workflow.At Workflow.booking_executor, BookingRun.at_booking)
           (p', s')
         /\ (Run.stage (Workflow.At Workflow.booking_executor) < Run.stage p')%nat.
Proof.
  apply (workflow_always_advances 4 BookingRun.b0
           (Workflow.At Workflow.booking_executor) BookingRun.at_booking).
  apply booking_run_reaches_executor; reflexivity.
Defined.

(** X14. How a run ends.  A run that starts with no error message and not
    complete (as both workflows start) and reaches [END] ends in one of four
    ways: (1) booked: the last step is ["booking_complete"],
    [workflow_complete] is set, no error message; (2) an error of one of
    the first four nodes was handled: the last step is ["error_handled"],
    [workflow_complete] is set and the error message is kept; (3) the
    booking itself failed: the last step is ["error"], the message starts
    with "Booking failed: ", and [error_handler] did not run,
    [workflow_complete] is not set; (4) stopped early by a router, without
    error and not complete, after the query analysis, the hotel search or
    the availability check. *)
Theorem how_a_run_ends s0 s :
  Run.clean s0 ->
  Workflow.reaches (Workflow.At Workflow.entry_point, s0) (Workflow.END, s) ->
  Run.booked s \/ Run.error_was_handled s \/ Run.booking_failure_unhandled s
  \/ Run.stopped_early s.
Proof.
  intros Hclean Hrun.
  exact (reaches_on_track (Workflow.At Workflow.entry_point, s0) (Workflow.END, s)
           Hclean Hrun).
Qed.

(** The booking run, the booking tool missing: the third way. *)
Lemma how_a_run_ends_witness :
  Workflow.reaches (Workflow.At Workflow.entry_point, BookingRun.b0)
    (Workflow.END, BookingRun.failed)
  /\ ~ Run.booked BookingRun.failed
  /\ ~ Run.error_was_handled BookingRun.failed
  /\ ~ Run.stopped_early BookingRun.failed
  /\ (Run.booked BookingRun.failed \/ Run.error_was_handled BookingRun.failed
      \/ Run.booking_failure_unhandled BookingRun.failed
      \/ Run.stopped_early BookingRun.failed).
Proof.
  assert (Hrun : Workflow.reaches (Workflow.At Workflow.entry_point, BookingRun.b0)
                   (Workflow.END, BookingRun.failed)).
  { eapply Workflow.reaches_step.
    - apply (reaches_in_reaches 4).
      apply (booking_run_reaches_executor BookingRun.b0); reflexivity.
    - apply Workflow.step_node; [apply Workflow.booking_failed|reflexivity]. }
  split; [exact Hrun|].
  split; [intros (H & _); discriminate H|].
  split; [intros (H & _); discriminate H|].
  split; [intros ((H & _) & _); discriminate H|].
  apply (how_a_run_ends BookingRun.b0 BookingRun.failed); [|exact Hrun].
  split; reflexivity.
Defined.

(** X15. The hotel booked comes from the search of the run, not from the
    caller.  Whenever a run stands at [booking_executor], its
    [selected_hotel] is the first entry of the [hotels] of its
    [search_results], as such or with the two keys [availability_checker]
    adds, and these search results were written by [hotel_searcher] during
    the run.  The state in which [booking_executor] starts does not depend
    on the [selected_hotel], [search_results], [search_parameters] or
    [extracted_dates] of the initial state: a run from any initial state
    that makes the same request (same query, guest, error message, debug
    log) reaches [booking_executor] with the same state.  So in
    [run_booking_workflow] the hotel passed by the caller influences the
    booking through the text of the query only. *)
Theorem booked_hotel_comes_from_the_search s0 s0' s :
  Run.same_request s0 s0' ->
  Workflow.reaches (Workflow.At Workflow.entry_point, s0)
    (Workflow.At Workflow.booking_executor, s) ->
  Workflow.reaches (Workflow.At Workflow.entry_point, s0')
    (Workflow.At Workflow.booking_executor, s)
  /\ exists hotel rest,
       Workflow.get_or "hotels" (Workflow.PList []) (Workflow.search_results s)
       = Workflow.PList (Workflow.PDict hotel :: rest)
       /\ Run.selected_from hotel (Workflow.selected_hotel s).
Proof.
  intros Hsame Hrun.
  destruct (reaches_in_step s0 s0' _ Hsame Hrun) as (s' & Hrun' & Heq & Hsel).
  simpl in *. subst s'. split; assumption.
Qed.

(** Two callers, one selecting the Mountain Lodge and one the Budget Inn,
    with the same query: the run books the Seaside Resort for both. *)
Lemma booked_hotel_comes_from_the_search_witness :
  Workflow.reaches
    (Workflow.At Workflow.entry_point,
     Workflow.booking_initial_state BookingRun.query BookingRun.other_hotel
       BookingRun.guest)
    (Workflow.At Workflow.booking_executor, BookingRun.at_booking)
  /\ exists hotel rest,
       Workflow.get_or "hotels" (Workflow.PList [])
         (Workflow.search_results BookingRun.at_booking)
       = Workflow.PList (Workflow.PDict hotel :: rest)
       /\ Run.selected_from hotel (Workflow.selected_hotel BookingRun.at_booking).
Proof.
  apply (booked_hotel_comes_from_the_search BookingRun.b0).
  - repeat split.
  - apply (reaches_in_reaches 4).
    apply (booking_run_reaches_executor BookingRun.b0); reflexivity.
Defined.

(** * The wrappers around [cancel_booking] and [get_booking_statistics] *)

Lemma cancel_answer_success r :
  Agent.cancel_answer r !! "success" = None.
Proof. destruct r; reflexivity. Qed.

(** X16. [cancel_hotel_booking] never reports success.  Whatever the
    booking and whatever happens on the way to the tool and back, the
    ["success"] entry of its answer is [False]: it reads the key
    ["success"] of [cancel_booking]'s answer, which has no such key, and
    every other path sets [False].  When the tool answers and the booking
    exists and is not yet cancelled, the booking is cancelled in the ledger
    whatever [ainvoke] returns; if it returns the answer as JSON text or as
    the object, the wrapper's answer carries the tool's message of a
    successful cancellation and the refund; if it returns anything else (a
    list of content blocks), the wrapper's answer is the error message of
    the exception, with no refund.  When the tool answers with an error
    (no such booking, or already cancelled) and the answer comes as text or
    object, nothing is cancelled and the wrapper's message is the default,
    "Booking cancelled", with a refund of [0]. *)
Theorem cancel_hotel_booking_reports_failure call st booking_id :
  fst (Agent.cancel_hotel_booking call st booking_id) !! "success"
  = Some (Workflow.PBool false)
  /\ (forall shape booking,
        call = Agent.Answered shape ->
        find_booking st booking_id = Some booking ->
        Booking.status booking <> "cancelled" ->
        find_booking (snd (Agent.cancel_hotel_booking call st booking_id)) booking_id
        = Some (Booking.set_status "cancelled" booking)
        /\ match shape with
           | Agent.AsText | Agent.AsObject =>
               fst (Agent.cancel_hotel_booking call st booking_id) !! "message"
               = Some (Workflow.PStr
                         (String.append "Booking "
                            (String.append booking_id
                               " has been successfully cancelled")))
               /\ fst (Agent.cancel_hotel_booking call st booking_id)
                    !! "refund_amount"
                  = Some (Workflow.PFloat (Booking.total_price booking))
           | Agent.AsOther e =>
               fst (Agent.cancel_hotel_booking call st booking_id) !! "message"
               = Some (Workflow.PStr
                         (String.append "Error cancelling booking: " e))
               /\ fst (Agent.cancel_hotel_booking call st booking_id)
                    !! "refund_amount"
                  = None
           end)
  /\ (forall shape e,
        call = Agent.Answered shape ->
        shape = Agent.AsText \/ shape = Agent.AsObject ->
        fst (cancel_booking st booking_id) = CancelError e ->
        snd (Agent.cancel_hotel_booking call st booking_id) = st
        /\ fst (Agent.cancel_hotel_booking call st booking_id) !! "message"
           = Some (Workflow.PStr "Booking cancelled")
        /\ fst (Agent.cancel_hotel_booking call st booking_id) !! "refund_amount"
           = Some (Workflow.PInt 0)).
Proof.
  split; [|split].
  - destruct call as [e| | |e ran|shape]; try reflexivity.
    unfold Agent.cancel_hotel_booking.
    destruct (cancel_booking st booking_id) as [r st'].
    destruct shape; try reflexivity; simpl;
      unfold Workflow.get_or at 1; rewrite cancel_answer_success; reflexivity.
  - intros shape booking -> Hfind Hstatus.
    unfold Agent.cancel_hotel_booking, cancel_booking. rewrite Hfind.
    destruct (String.eqb_spec (Booking.status booking) "cancelled");
      [contradiction|].
    split.
    + destruct shape; simpl; unfold find_booking; simpl;
        (apply find_update_first; [intros b; reflexivity|exact Hfind]).
    + destruct shape; simpl; split; reflexivity.
  - intros shape e -> Hshape Herr.
    unfold Agent.cancel_hotel_booking, cancel_booking in *.
    destruct (find_booking st booking_id) as [booking|]; simpl in *.
    + destruct (String.eqb (Booking.status booking) "cancelled"); simpl in *;
        [|discriminate Herr].
      destruct Hshape as [-> | ->]; repeat split.
    + destruct Hshape as [-> | ->]; repeat split.
Qed.

(** The pending booking of the initial data, cancelled through the wrapper:
    once with the answer returned as text, once as a list. *)
Lemma cancel_hotel_booking_reports_failure_witness :
  (find_booking
     (snd (Agent.cancel_hotel_booking (Agent.Answered Agent.AsText) initial_store
             "booking_004"))
     "booking_004"
   = option_map (Booking.set_status "cancelled")
       (find_booking initial_store "booking_004")
   /\ fst (Agent.cancel_hotel_booking (Agent.Answered Agent.AsText) initial_store
             "booking_004")
        !! "success"
      = Some (Workflow.PBool false))
  /\ (find_booking
        (snd (Agent.cancel_hotel_booking
                (Agent.Answered (Agent.AsOther "'list' object has no attribute 'get'"))
                initial_store "booking_004"))
        "booking_004"
      = option_map (Booking.set_status "cancelled")
          (find_booking initial_store "booking_004")
      /\ fst (Agent.cancel_hotel_booking
                (Agent.Answered (Agent.AsOther "'list' object has no attribute 'get'"))
                initial_store "booking_004")
           !! "message"
         = Some (Workflow.PStr
                   "Error cancelling booking: 'list' object has no attribute 'get'")).
Proof.
  destruct (find_booking initial_store "booking_004") as [booking|] eqn:Hfind;
    [|discriminate Hfind].
  assert (Hstatus : Booking.status booking <> "cancelled")
    by (injection Hfind as <-; discriminate).
  split.
  - pose proof (cancel_hotel_booking_reports_failure (Agent.Answered Agent.AsText)
                  initial_store "booking_004") as (Hsuccess & Hdone & _).
    split; [|exact Hsuccess].
    apply (Hdone Agent.AsText booking eq_refl Hfind Hstatus).
  - pose proof (cancel_hotel_booking_reports_failure
                  (Agent.Answered (Agent.AsOther "'list' object has no attribute 'get'"))
                  initial_store "booking_004") as (_ & Hdone & _).
    destruct (Hdone _ booking eq_refl Hfind Hstatus) as (Hcancelled & Hmessage & _).
    split; [exact Hcancelled|exact Hmessage].
Defined.

(** X17. [get_hotel_booking_statistics] never returns a statistic.
    Whatever the ledger and whatever happens on the way to the tool and
    back, the ["statistics"] entry of its answer is the empty dictionary: it
    reads the key ["statistics"] of [get_booking_statistics]'s answer, whose
    keys are the six counters themselves, and every other path sets the
    empty dictionary.  ["success"] is [True] exactly when the tool answered
    and [ainvoke] returned the answer as JSON text or as the object; when it
    returned anything else (a list of content blocks), ["success"] is
    [False]. *)
Theorem statistics_wrapper_is_empty (py_sum : list float -> float) call st :
  Agent.get_hotel_booking_statistics py_sum call st !! "statistics"
  = Some (Workflow.PDict ∅)
  /\ (Agent.get_hotel_booking_statistics py_sum call st !! "success"
      = Some (Workflow.PBool true)
      <-> call = Agent.Answered Agent.AsText \/ call = Agent.Answered Agent.AsObject)
  /\ (forall e,
        call = Agent.Answered (Agent.AsOther e) ->
        Agent.get_hotel_booking_statistics py_sum call st !! "success"
        = Some (Workflow.PBool false)).
Proof.
  split; [|split].
  - destruct call as [e| | |e ran|[| |e]]; reflexivity.
  - destruct call as [e| | |e ran|[| |e]]; simpl; split;
      try discriminate; try (intros [H|H]; discriminate H); auto.
  - intros e ->. reflexivity.
Qed.

(** * The date fallback of the agent *)

Lemma month_and_day_table :
  forallb
    (fun leapyear =>
       forallb
         (fun m =>
            forallb
              (fun dd =>
                 if dd <=? Datetime._days_in_month (sample_year leapyear) m then
                   let '(m', dd') :=
                     month_and_day leapyear
                       (Datetime._days_before_month (sample_year leapyear) m + dd - 1) in
                   (m' =? m) && (dd' =? dd)
                 else true)
              (zrange 1 31))
         (zrange 1 12))
    [true; false]
  = true.
Proof. vm_compute. reflexivity. Qed.

Lemma is_leap_sample_year y :
  Datetime._is_leap (sample_year (Datetime._is_leap y)) = Datetime._is_leap y.
Proof. destruct (Datetime._is_leap y); reflexivity. Qed.

Lemma days_in_month_same_kind y y' m :
  Datetime._is_leap y = Datetime._is_leap y' ->
  Datetime._days_in_month y m = Datetime._days_in_month y' m
  /\ Datetime._days_before_month y m = Datetime._days_before_month y' m.
Proof.
  intros H. unfold Datetime._days_in_month, Datetime._days_before_month.
  now rewrite H.
Qed.

Lemma month_and_day_of_year d :
  valid_date d ->
  month_and_day (Datetime._is_leap (Datetime.year d)) (day_of_year d)
  = (Datetime.month d, Datetime.day d).
Proof.
  intros Hv. pose proof (valid_date_ranges d Hv) as [Hm Hd].
  destruct Hv as (_ & _ & Hdim).
  destruct d as [y m dd]. unfold day_of_year. simpl in *.
  pose proof month_and_day_table as Htable.
  rewrite forallb_forall in Htable.
  specialize (Htable (Datetime._is_leap y)).
  assert (Hin : In (Datetime._is_leap y) [true; false])
    by (destruct (Datetime._is_leap y); simpl; auto).
  apply Htable in Hin. clear Htable.
  rewrite forallb_forall in Hin.
  specialize (Hin m (in_zrange 1 12 m ltac:(lia))).
  rewrite forallb_forall in Hin.
  specialize (Hin dd (in_zrange 1 31 dd ltac:(lia))).
  destruct (days_in_month_same_kind (sample_year (Datetime._is_leap y)) y m
              (is_leap_sample_year y)) as [-> ->] in Hin.
  destruct (Z.leb_spec dd (Datetime._days_in_month y m)); [|lia].
  destruct (month_and_day _ _) as [m' dd'].
  apply andb_true_iff in Hin as [H1 H2].
  apply Z.eqb_eq in H1, H2. now subst.
Qed.

Lemma day_of_year_bounds d :
  valid_date d ->
  0 <= day_of_year d < (if Datetime._is_leap (Datetime.year d) then 366 else 365).
Proof.
  intros (_ & Hm & Hd). unfold day_of_year.
  destruct d as [y m dd]. simpl in *.
  unfold Datetime._days_before_month, Datetime._days_in_month in *.
  enumerate m 1 12%nat; destruct (Datetime._is_leap y); simpl in *; lia.
Qed.

(** The year [y], one less, in periods of 400, 100, 4 and 1 years. *)
Lemma year_periods y :
  1 <= y ->
  exists a b c e,
    y = 400 * a + 100 * b + 4 * c + e + 1
    /\ 0 <= a /\ 0 <= b < 4 /\ 0 <= c < 25 /\ 0 <= e < 4.
Proof.
  intros Hy.
  exists ((y - 1) / 400), ((y - 1) mod 400 / 100),
    ((y - 1) mod 400 mod 100 / 4), ((y - 1) mod 400 mod 100 mod 4).
  pose proof (Z.div_mod (y - 1) 400 ltac:(lia)).
  pose proof (Z.mod_pos_bound (y - 1) 400 ltac:(lia)).
  pose proof (Z.div_mod ((y - 1) mod 400) 100 ltac:(lia)).
  pose proof (Z.mod_pos_bound ((y - 1) mod 400) 100 ltac:(lia)).
  pose proof (Z.div_mod ((y - 1) mod 400 mod 100) 4 ltac:(lia)).
  pose proof (Z.mod_pos_bound ((y - 1) mod 400 mod 100) 4 ltac:(lia)).
  pose proof (Z.div_pos (y - 1) 400 ltac:(lia) ltac:(lia)).
  pose proof (Z.div_pos ((y - 1) mod 400) 100 ltac:(lia) ltac:(lia)).
  pose proof (Z.div_pos ((y - 1) mod 400 mod 100) 4 ltac:(lia) ltac:(lia)).
  pose proof (Z.div_lt_upper_bound ((y - 1) mod 400) 100 4 ltac:(lia) ltac:(lia)).
  pose proof (Z.div_lt_upper_bound ((y - 1) mod 400 mod 100) 4 25 ltac:(lia) ltac:(lia)).
  repeat split; try lia.
Qed.

Lemma days_before_year_periods a b c e :
  0 <= a -> 0 <= b < 4 -> 0 <= c < 25 -> 0 <= e < 4 ->
  Datetime._days_before_year (400 * a + 100 * b + 4 * c + e + 1)
  = 146097 * a + 36524 * b + 1461 * c + 365 * e.
Proof.
  intros Ha Hb Hc He. unfold Datetime._days_before_year.
  replace (400 * a + 100 * b + 4 * c + e + 1 - 1)
    with (400 * a + 100 * b + 4 * c + e) by lia.
  rewrite <- (Z.div_unique_pos (400 * a + 100 * b + 4 * c + e) 4 (100 * a + 25 * b + c) e)
    by lia.
  rewrite <- (Z.div_unique_pos (400 * a + 100 * b + 4 * c + e) 100 (4 * a + b) (4 * c + e))
    by lia.
  rewrite <- (Z.div_unique_pos (400 * a + 100 * b + 4 * c + e) 400 a (100 * b + 4 * c + e))
    by lia.
  lia.
Qed.

Lemma is_leap_periods a b c e :
  0 <= a -> 0 <= b < 4 -> 0 <= c < 25 -> 0 <= e < 4 ->
  Datetime._is_leap (400 * a + 100 * b + 4 * c + e + 1)
  = (e =? 3) && (negb (c =? 24) || (b =? 3)).
Proof.
  intros Ha Hb Hc He. unfold Datetime._is_leap.
  rewrite <- (Z.mod_unique_pos (400 * a + 100 * b + 4 * c + e + 1) 4
             (if e =? 3 then 100 * a + 25 * b + c + 1 else 100 * a + 25 * b + c)
             (if e =? 3 then 0 else e + 1))
    by (destruct (Z.eqb_spec e 3); lia).
  destruct (Z.eqb_spec e 3) as [->|Hne]; simpl; [|destruct (Z.eqb_spec (e + 1) 0); [lia|reflexivity]].
  rewrite <- (Z.mod_unique_pos (400 * a + 100 * b + 4 * c + 3 + 1) 100
             (if c =? 24 then 4 * a + b + 1 else 4 * a + b)
             (if c =? 24 then 0 else 4 * c + 4))
    by (destruct (Z.eqb_spec c 24); lia).
  destruct (Z.eqb_spec c 24) as [->|Hc24]; simpl;
    [|destruct (Z.eqb_spec (4 * c + 4) 0); [lia|reflexivity]].
  rewrite <- (Z.mod_unique_pos (400 * a + 100 * b + 4 * 24 + 3 + 1) 400
             (if b =? 3 then a + 1 else a)
             (if b =? 3 then 0 else 100 * b + 100))
    by (destruct (Z.eqb_spec b 3); lia).
  destruct (Z.eqb_spec b 3) as [->|Hb3]; simpl; [reflexivity|].
  destruct (Z.eqb_spec (100 * b + 100) 0); [lia|reflexivity].
Qed.

Lemma ord2ymd_unfold n :
  Fallback._ord2ymd n =
  let n400 := (n - 1) / 146097 in
  let nA := (n - 1) mod 146097 in
  let n100 := nA / 36524 in
  let nB := nA mod 36524 in
  let n4 := nB / 1461 in
  let nC := nB mod 1461 in
  let n1 := nC / 365 in
  let nD := nC mod 365 in
  let year := n400 * 400 + 1 + n100 * 100 + n4 * 4 + n1 in
  if (n1 =? 4) || (n100 =? 4) then Datetime.mkdate (year - 1) 12 31
  else
    let '(m, dd) :=
      month_and_day ((n1 =? 3) && (negb (n4 =? 24) || (n100 =? 3))) nD in
    Datetime.mkdate year m dd.
Proof.
  unfold Fallback._ord2ymd, month_and_day.
  change Fallback._DI400Y with 146097. change Fallback._DI100Y with 36524.
  change Fallback._DI4Y with 1461. cbv zeta.
  destruct (_ || _); [reflexivity|].
  destruct (_ <? _); reflexivity.
Qed.

Lemma last_day_of_leap_year d :
  valid_date d -> day_of_year d = 365 ->
  Datetime.month d = 12 /\ Datetime.day d = 31.
Proof.
  intros (_ & Hm & Hd) Hdoy. unfold day_of_year in Hdoy.
  destruct d as [y m dd]. simpl in *.
  unfold Datetime._days_before_month, Datetime._days_in_month in *.
  enumerate m 1 12%nat; destruct (Datetime._is_leap y); simpl in *; lia.
Qed.

(** [fromordinal] undoes [toordinal]. *)
Lemma ord2ymd_toordinal d :
  valid_date d -> Fallback._ord2ymd (Datetime.toordinal d) = d.
Proof.
  intros Hv.
  pose proof (day_of_year_bounds d Hv) as Hdoy.
  pose proof (month_and_day_of_year d Hv) as Hmd.
  pose proof (last_day_of_leap_year d Hv) as Hlast.
  destruct Hv as (Hy & _).
  destruct d as [y m dd]. unfold day_of_year in *. simpl in *.
  destruct (year_periods y Hy) as (a & b & c & e & -> & Ha & Hb & Hc & He).
  rewrite is_leap_periods in Hdoy, Hmd by assumption.
  set (doy := Datetime._days_before_month (400 * a + 100 * b + 4 * c + e + 1) m
              + dd - 1) in *.
  rewrite ord2ymd_unfold.
  unfold Datetime.toordinal, Datetime._ymd2ord. simpl.
  rewrite days_before_year_periods by assumption.
  replace (146097 * a + 36524 * b + 1461 * c + 365 * e
           + Datetime._days_before_month (400 * a + 100 * b + 4 * c + e + 1) m
           + dd - 1)
    with (146097 * a + 36524 * b + 1461 * c + 365 * e + doy) by (unfold doy; lia).
  destruct (Z.eq_dec doy 365) as [H365|H365].
  - (* the last day of a leap year *)
    destruct (Hlast H365) as [-> ->].
    destruct (Z.eqb_spec e 3) as [->|]; [|simpl in Hdoy; lia].
    destruct (Z.eqb_spec c 24) as [->|Hc24].
    + destruct (Z.eqb_spec b 3) as [->|]; [|simpl in Hdoy; lia].
      rewrite H365.
      rewrite <- (Z.div_unique_pos (146097 * a + 36524 * 3 + 1461 * 24 + 365 * 3 + 365)
                    146097 a 146096) by lia.
      rewrite <- (Z.mod_unique_pos (146097 * a + 36524 * 3 + 1461 * 24 + 365 * 3 + 365)
                    146097 a 146096) by lia.
      cbv zeta.
      rewrite <- (Z.div_unique_pos 146096 36524 4 0) by lia.
      rewrite <- (Z.mod_unique_pos 146096 36524 4 0) by lia.
      rewrite <- (Z.div_unique_pos 0 1461 0 0) by lia.
      rewrite <- (Z.mod_unique_pos 0 1461 0 0) by lia.
      rewrite <- (Z.div_unique_pos 0 365 0 0) by lia.
      simpl. f_equal. lia.
    + rewrite H365.
      rewrite <- (Z.div_unique_pos (146097 * a + 36524 * b + 1461 * c + 365 * 3 + 365)
                    146097 a (36524 * b + 1461 * c + 1460)) by lia.
      rewrite <- (Z.mod_unique_pos (146097 * a + 36524 * b + 1461 * c + 365 * 3 + 365)
                    146097 a (36524 * b + 1461 * c + 1460)) by lia.
      cbv zeta.
      rewrite <- (Z.div_unique_pos (36524 * b + 1461 * c + 1460) 36524 b
                    (1461 * c + 1460)) by lia.
      rewrite <- (Z.mod_unique_pos (36524 * b + 1461 * c + 1460) 36524 b
                    (1461 * c + 1460)) by lia.
      rewrite <- (Z.div_unique_pos (1461 * c + 1460) 1461 c 1460) by lia.
      rewrite <- (Z.mod_unique_pos (1461 * c + 1460) 1461 c 1460) by lia.
      rewrite <- (Z.div_unique_pos 1460 365 4 0) by lia.
      simpl. f_equal. lia.
  - assert (Hlt : 0 <= doy < 365) by (destruct (_ && _); lia).
    rewrite <- (Z.div_unique_pos (146097 * a + 36524 * b + 1461 * c + 365 * e + doy)
                  146097 a (36524 * b + 1461 * c + 365 * e + doy)) by lia.
    rewrite <- (Z.mod_unique_pos (146097 * a + 36524 * b + 1461 * c + 365 * e + doy)
                  146097 a (36524 * b + 1461 * c + 365 * e + doy)) by lia.
    cbv zeta.
    rewrite <- (Z.div_unique_pos (36524 * b + 1461 * c + 365 * e + doy) 36524 b
                  (1461 * c + 365 * e + doy)) by lia.
    rewrite <- (Z.mod_unique_pos (36524 * b + 1461 * c + 365 * e + doy) 36524 b
                  (1461 * c + 365 * e + doy)) by lia.
    rewrite <- (Z.div_unique_pos (1461 * c + 365 * e + doy) 1461 c (365 * e + doy))
      by lia.
    rewrite <- (Z.mod_unique_pos (1461 * c + 365 * e + doy) 1461 c (365 * e + doy))
      by lia.
    rewrite <- (Z.div_unique_pos (365 * e + doy) 365 e doy) by lia.
    rewrite <- (Z.mod_unique_pos (365 * e + doy) 365 e doy) by lia.
    destruct (Z.eqb_spec e 4); [lia|]. destruct (Z.eqb_spec b 4); [lia|].
    simpl. rewrite Hmd. f_equal. lia.
Qed.

Lemma year_of_ordinal_bound d y :
  valid_date d -> 1 <= y ->
  Datetime.toordinal d <= Datetime.toordinal (Datetime.mkdate y 12 31) ->
  Datetime.year d <= y.
Proof.
  intros Hv Hy Hle.
  assert (Hlast : valid_date (Datetime.mkdate y 12 31)).
  { repeat split; simpl; try lia. unfold Datetime._days_in_month. simpl. lia. }
  apply toordinal_le_iff in Hle as [->|Hlt]; [simpl; lia|..|]; try assumption.
  unfold date_lt in Hlt. simpl in Hlt. lia.
Qed.

(** [d + timedelta(days=n)] is the date [n] days after [d]. *)
Lemma add_days_spec d n :
  valid_date d -> 0 <= n ->
  Datetime.toordinal d + n <= Fallback._MAXORDINAL ->
  exists e,
    Fallback.add_days d n = Some e /\ valid_date e
    /\ Datetime.toordinal e = Datetime.toordinal d + n
    /\ Datetime.year e <= 9999.
Proof.
  intros Hv Hn Hmax.
  destruct (toordinal_iter_next_day (Z.to_nat n) d Hv) as [Hve Hoe].
  rewrite Z2Nat.id in Hoe by assumption.
  exists (Nat.iter (Z.to_nat n) next_day d).
  pose proof (toordinal_positive d Hv) as Hpos.
  unfold Fallback.add_days.
  destruct (Z.ltb_spec 0 (Datetime.toordinal d + n)); [|lia].
  destruct (Z.leb_spec (Datetime.toordinal d + n) Fallback._MAXORDINAL); [|lia].
  simpl. rewrite <- Hoe, ord2ymd_toordinal by assumption.
  split; [reflexivity|]. split; [assumption|]. split; [reflexivity|].
  apply year_of_ordinal_bound; [assumption|lia|].
  rewrite Hoe. exact Hmax.
Qed.

Lemma digit_code c : Datetime.digit c = true -> 48 <= Datetime.code c <= 57.
Proof.
  unfold Datetime.digit, Datetime.between.
  rewrite andb_true_iff, !Z.leb_le. intros H. exact H.
Qed.

Lemma digit_not_space c : Datetime.digit c = true -> PyStr.isspace c = false.
Proof. destruct c as [[] [] [] [] [] [] [] []]; (discriminate || reflexivity). Qed.

Lemma match_year_range s y rest :
  Datetime.match_seq Fallback.re_year s = Some (y, rest) ->
  2000 <= Datetime.int y <= 2099.
Proof.
  unfold Fallback.re_year.
  destruct s as [|c1 s]; [discriminate|]. cbn [Datetime.match_seq].
  destruct (Datetime.lit "2" c1) eqn:H1; [|discriminate].
  destruct s as [|c2 s]; [discriminate|]. cbn [Datetime.match_seq].
  destruct (Datetime.lit "0" c2) eqn:H2; [|discriminate].
  destruct s as [|c3 s]; [discriminate|]. cbn [Datetime.match_seq].
  destruct (Datetime.digit c3) eqn:H3; [|discriminate].
  destruct s as [|c4 s]; [discriminate|]. cbn [Datetime.match_seq].
  destruct (Datetime.digit c4) eqn:H4; [|discriminate].
  intros [= <- <-].
  apply Ascii.eqb_eq in H1, H2. subst c1 c2.
  unfold Datetime.int, PyStr.strip. simpl.
  rewrite (digit_not_space c4 H4). simpl.
  apply digit_code in H3, H4.
  change (Datetime.code "2") with 50. change (Datetime.code "0") with 48. lia.
Qed.

Lemma search_seq_unfold alt s :
  Fallback.search_seq alt s
  = match Datetime.match_seq alt s with
    | Some (txt, _) => Some txt
    | None =>
        match s with
        | EmptyString => None
        | String _ r => Fallback.search_seq alt r
        end
    end.
Proof. destruct s; reflexivity. Qed.

Lemma search_year_range q y :
  Fallback.search_seq Fallback.re_year q = Some y -> 2000 <= Datetime.int y <= 2099.
Proof.
  induction q as [|c q IH]; rewrite search_seq_unfold.
  - discriminate.
  - destruct (Datetime.match_seq Fallback.re_year (String c q)) as [[txt rest]|] eqn:Hm.
    + intros [= Heq]. subst txt. eapply match_year_range; eauto.
    + exact IH.
Qed.

Lemma check_date_fields_valid y m d :
  Datetime._check_date_fields y m d = true ->
  valid_date (Datetime.mkdate y m d) /\ y <= 9999.
Proof.
  unfold Datetime._check_date_fields, valid_date.
  rewrite !andb_true_iff, !Z.leb_le. simpl. lia.
Qed.

Lemma default_fallback_spec today :
  valid_date today -> Datetime.year today <= 9998 ->
  exists r d_in d_out,
    Fallback.default_fallback today = Some r
    /\ Fallback.check_in r = isoformat d_in /\ Fallback.check_out r = isoformat d_out
    /\ valid_date d_in /\ valid_date d_out /\ Datetime.year d_out <= 9999
    /\ Datetime.toordinal d_in = Datetime.toordinal today + 7
    /\ Datetime.toordinal d_out = Datetime.toordinal d_in + 2
    /\ Fallback.method r = "default_fallback".
Proof.
  intros Hv Hy.
  pose proof (toordinal_year_bound today 9998 Hv Hy) as Hbound.
  change (Datetime.toordinal (Datetime.mkdate 9998 12 31)) with 3651694 in Hbound.
  destruct (add_days_spec today 7 Hv ltac:(lia))
    as (d_in & Hadd1 & Hv1 & Ho1 & _);
    [unfold Fallback._MAXORDINAL; lia|].
  destruct (add_days_spec d_in 2 Hv1 ltac:(lia))
    as (d_out & Hadd2 & Hv2 & Ho2 & Hy2);
    [unfold Fallback._MAXORDINAL; lia|].
  unfold Fallback.default_fallback. rewrite Hadd1, Hadd2.
  eexists. exists d_in, d_out. simpl.
  repeat (split; [first [reflexivity|assumption]|]). reflexivity.
Qed.

(** X18. The dates of the fallback are dates [book_hotel] accepts.  For
    every query, and every day [today] of a year from 1000 to 9998,
    [_intelligent_date_fallback] returns a dictionary whose [check_in] and
    [check_out] are well-formed, zero-padded dates, [check_out] exactly two
    days after [check_in]: either by the method ["regex_fallback"], with a
    check-in in the years 2000 to 2099, or by ["default_fallback"], with a
    check-in a week after [today].  So [book_hotel] never answers a request
    for these dates with "Invalid date format" or "Invalid date range". *)
Theorem fallback_dates_are_bookable query today :
  valid_date today -> 1000 <= Datetime.year today <= 9998 ->
  exists r d_in d_out,
    Fallback._intelligent_date_fallback query today = Some r
    /\ padded (Fallback.check_in r) d_in
    /\ padded (Fallback.check_out r) d_out
    /\ Datetime.days_between d_in d_out = 2
    /\ (Fallback.method r = "regex_fallback" /\ 2000 <= Datetime.year d_in <= 2099
        \/ Fallback.method r = "default_fallback"
           /\ Datetime.days_between today d_in = 7)
    /\ forall st booking_id hotel_id room_id guest_name guest_email,
         fst (book_hotel st booking_id hotel_id room_id guest_name guest_email
                (Fallback.check_in r) (Fallback.check_out r))
         <> BookError "Invalid date format. Use YYYY-MM-DD"
         /\ fst (book_hotel st booking_id hotel_id room_id guest_name guest_email
                   (Fallback.check_in r) (Fallback.check_out r))
            <> BookError "Invalid date range".
Proof.
  intros Hv [Hlow Hhigh].
  assert (Hcore :
    exists r d_in d_out,
      Fallback._intelligent_date_fallback query today = Some r
      /\ Fallback.check_in r = isoformat d_in
      /\ Fallback.check_out r = isoformat d_out
      /\ valid_date d_in /\ valid_date d_out /\ Datetime.year d_out <= 9999
      /\ Datetime.toordinal d_out = Datetime.toordinal d_in + 2
      /\ (Fallback.method r = "regex_fallback" /\ 2000 <= Datetime.year d_in <= 2099
          \/ Fallback.method r = "default_fallback"
             /\ Datetime.toordinal d_in = Datetime.toordinal today + 7)).
  { assert (Hdefault :
      forall x, x = Fallback.default_fallback today ->
      exists r d_in d_out,
        x = Some r
        /\ Fallback.check_in r = isoformat d_in
        /\ Fallback.check_out r = isoformat d_out
        /\ valid_date d_in /\ valid_date d_out /\ Datetime.year d_out <= 9999
        /\ Datetime.toordinal d_out = Datetime.toordinal d_in + 2
        /\ (Fallback.method r = "regex_fallback"
            /\ 2000 <= Datetime.year d_in <= 2099
            \/ Fallback.method r = "default_fallback"
               /\ Datetime.toordinal d_in = Datetime.toordinal today + 7)).
    { intros x ->.
      destruct (default_fallback_spec today Hv Hhigh)
        as (r & d_in & d_out & Hr & Hin & Hout & Hv1 & Hv2 & Hy2 & Ho1 & Ho2 & Hm).
      exists r, d_in, d_out.
      repeat (split; [first [reflexivity|assumption]|]). right. now split. }
    unfold Fallback._intelligent_date_fallback.
    set (target_year := match Fallback.search_seq Fallback.re_year query with
                        | Some y => Datetime.int y
                        | None => 2025
                        end).
    assert (Hyear : 2000 <= target_year <= 2099).
    { unfold target_year.
      destruct (Fallback.search_seq Fallback.re_year query) as [y|] eqn:Hs;
        [now apply search_year_range with (q := query)|lia]. }
    cbv zeta.
    destruct (Fallback.find_month (PyStr.lower query))
      as [[[month_name found_month] [found_day|]]|]; try (now apply Hdefault).
    destruct (negb (found_month =? 0) && negb (found_day =? 0));
      [|now apply Hdefault].
    destruct (Datetime._check_date_fields target_year found_month found_day)
      eqn:Hcheck; [|now apply Hdefault].
    apply check_date_fields_valid in Hcheck as [Hv1 _].
    pose proof (toordinal_year_bound _ 2099 Hv1 ltac:(simpl; lia)) as Hbound.
    change (Datetime.toordinal (Datetime.mkdate 2099 12 31)) with 766644 in Hbound.
    destruct (add_days_spec _ 2 Hv1 ltac:(lia))
      as (d_out & Hadd & Hv2 & Ho2 & Hy2);
      [unfold Fallback._MAXORDINAL; lia|].
    rewrite Hadd.
    eexists. exists (Datetime.mkdate target_year found_month found_day), d_out.
    simpl. repeat (split; [first [reflexivity|assumption]|]).
    left. split; [reflexivity|]. simpl. lia. }
  destruct Hcore
    as (r & d_in & d_out & Hr & Hin & Hout & Hv1 & Hv2 & Hy2 & Ho2 & Hmethod).
  assert (Hy1 : Datetime.year d_in <= 9999).
  { apply year_of_ordinal_bound; [assumption|lia|].
    pose proof (toordinal_year_bound d_out 9999 Hv2 Hy2). lia. }
  assert (Hpin : padded (Fallback.check_in r) d_in)
    by (rewrite Hin; now apply padded_isoformat).
  assert (Hpout : padded (Fallback.check_out r) d_out)
    by (rewrite Hout; now apply padded_isoformat).
  assert (Hnights : Datetime.days_between d_in d_out = 2)
    by (unfold Datetime.days_between; lia).
  exists r, d_in, d_out.
  split; [exact Hr|]. split; [exact Hpin|]. split; [exact Hpout|].
  split; [exact Hnights|].
  split.
  { destruct Hmethod as [?|[Hm Ho1]]; [now left|right].
    split; [exact Hm|]. unfold Datetime.days_between. lia. }
  intros st booking_id hotel_id room_id guest_name guest_email.
  destruct Hpin as [Hsin _], Hpout as [Hsout _].
  destruct (book_hotel_outcome st booking_id hotel_id room_id guest_name
              guest_email (Fallback.check_in r) (Fallback.check_out r))
    as [ | | |hotel room _ _ _ Hbad|hotel room d1 d2 _ _ _ Hd1 Hd2 Hle| | ];
    simpl; try (split; discriminate).
  - exfalso. destruct Hbad; congruence.
  - exfalso. rewrite Hsin in Hd1. rewrite Hsout in Hd2.
    injection Hd1 as <-. injection Hd2 as <-. lia.
Qed.

Lemma fallback_dates_are_bookable_witness :
  exists r d_in d_out,
    Fallback._intelligent_date_fallback "book a hotel from July 25 2025 for 2 days"
      (Datetime.mkdate 2026 11 3) = Some r
    /\ padded (Fallback.check_in r) d_in
    /\ padded (Fallback.check_out r) d_out
    /\ Datetime.days_between d_in d_out = 2
    /\ (Fallback.method r = "regex_fallback" /\ 2000 <= Datetime.year d_in <= 2099
        \/ Fallback.method r = "default_fallback"
           /\ Datetime.days_between (Datetime.mkdate 2026 11 3) d_in = 7)
    /\ forall st booking_id hotel_id room_id guest_name guest_email,
         fst (book_hotel st booking_id hotel_id room_id guest_name guest_email
                (Fallback.check_in r) (Fallback.check_out r))
         <> BookError "Invalid date format. Use YYYY-MM-DD"
         /\ fst (book_hotel st booking_id hotel_id room_id guest_name guest_email
                   (Fallback.check_in r) (Fallback.check_out r))
            <> BookError "Invalid date range".
Proof.
  apply fallback_dates_are_bookable.
  - unfold valid_date. vm_compute. repeat split; discriminate.
  - simpl. lia.
Defined.
